(** * WebFrame: a shallow embedding of the HTTP/1.x request lifecycle

    The development follows the Python sources module by module:

    - [Py]          the string and integer primitives of the Python runtime
                    that the modelled code calls ([str.lower], [str.split],
                    [int], [%d] ...), over Latin-1 text;
    - [WsgiHeaders] [mywsgiref/headers.py], the response [Headers] class;
    - [HttpClient]  [myhttp/http_client.py], header block reading;
    - [HttpServer]  [myhttp/http_server.py], [BaseHTTPRequestHandler];
    - [Serving]     [mywerkzeug/serving.py], [WSGIRequestHandler.run_wsgi],
                    the header loop of [make_environ] and [make_server];
    - [WsgiHandlers] [mywsgiref/handlers.py], [BaseHandler.start_response]
                    and [BaseHandler.run] as [SimpleHandler] completes it.

    The model comes first, then the terms in which the properties are
    stated, then the properties with their proofs.

    Text and bytes are both [string]: a Rocq [ascii] is one byte, and the
    sources decode and encode with ISO-8859-1, which maps byte [n] to code
    point [n], so decoding and encoding are the identity on this type. *)

From Stdlib Require Import ZArith NArith String Ascii List Bool Lia.
From Stdlib Require DecimalString HexadecimalString.
Import ListNotations.
Open Scope string_scope.
Open Scope Z_scope.

(* ================================================================== *)
(** * Python runtime primitives *)
(* ================================================================== *)

Module Py.

Definition ord (c : ascii) : Z := Z.of_N (N_of_ascii c).
Definition chr (n : Z) : ascii := ascii_of_N (Z.to_N n).

Definition CR : ascii := "013"%char.
Definition LF : ascii := "010"%char.
Definition TAB : ascii := "009"%char.
Definition CRLF : string := String CR (String LF "").

Definition between (lo hi : Z) (c : ascii) : bool :=
  (lo <=? ord c) && (ord c <=? hi).

(** [str.lower] on code points below 256: the ASCII capitals and the
    Latin-1 capitals U+00C0..U+00DE, the multiplication sign U+00D7
    excepted, move up by 32. *)
Definition lower_char (c : ascii) : ascii :=
  if between 65 90 c then chr (ord c + 32)
  else if between 192 222 c && negb (ord c =? 215) then chr (ord c + 32)
  else c.

Fixpoint lower (s : string) : string :=
  match s with
  | EmptyString => EmptyString
  | String c s' => String (lower_char c) (lower s')
  end.

(** [str.isspace] on one code point below 256. *)
Definition isspace (c : ascii) : bool :=
  between 9 13 c || between 28 32 c || (ord c =? 133) || (ord c =? 160).

Definition isdigit (c : ascii) : bool := between 48 57 c.

(** [s.split()]: the maximal runs of non-whitespace characters. *)
Fixpoint split (s : string) : list string :=
  match s with
  | EmptyString => []
  | String c s' =>
      if isspace c then split s'
      else match s' with
           | EmptyString => [String c ""]
           | String d _ =>
               if isspace d then String c "" :: split s'
               else match split s' with
                    | w :: ws => String c w :: ws
                    | [] => [String c ""]
                    end
           end
  end.

Fixpoint lstrip (s : string) : string :=
  match s with
  | String c s' => if isspace c then lstrip s' else s
  | EmptyString => EmptyString
  end.

Fixpoint all_space (s : string) : bool :=
  match s with
  | EmptyString => true
  | String c s' => isspace c && all_space s'
  end.

(** [s.rstrip()] *)
Fixpoint rstrip (s : string) : string :=
  match s with
  | EmptyString => EmptyString
  | String c s' => if all_space s then EmptyString else String c (rstrip s')
  end.

Definition strip (s : string) : string := lstrip (rstrip s).

(** [s.split(None, 1)]: the first word and, if anything follows the
    whitespace after it, the remainder with that whitespace removed. *)
Fixpoint take_word (s : string) : string * string :=
  match s with
  | EmptyString => ("", "")
  | String c s' =>
      if isspace c then ("", s)
      else let '(w, r) := take_word s' in (String c w, r)
  end.

Definition split_ws_1 (s : string) : list string :=
  match lstrip s with
  | EmptyString => []
  | s1 =>
      let '(w, r) := take_word s1 in
      match lstrip r with
      | EmptyString => [w]
      | r' => [w; r']
      end
  end.

Definition in_chars (chars : string) (c : ascii) : bool :=
  existsb (Ascii.eqb c) (list_ascii_of_string chars).

Fixpoint all_in (chars : string) (s : string) : bool :=
  match s with
  | EmptyString => true
  | String c s' => in_chars chars c && all_in chars s'
  end.

(** [s.rstrip(chars)] and [s.lstrip(chars)] *)
Fixpoint rstrip_chars (chars : string) (s : string) : string :=
  match s with
  | EmptyString => EmptyString
  | String c s' =>
      if all_in chars s then EmptyString else String c (rstrip_chars chars s')
  end.

Fixpoint lstrip_chars (chars : string) (s : string) : string :=
  match s with
  | String c s' => if in_chars chars c then lstrip_chars chars s' else s
  | EmptyString => EmptyString
  end.

Fixpoint startswith (p s : string) : bool :=
  match p, s with
  | EmptyString, _ => true
  | String a p', String b s' => Ascii.eqb a b && startswith p' s'
  | String _ _, EmptyString => false
  end.

(** [s.split(sep)] for a one-character separator: never empty. *)
Fixpoint split_on (sep : ascii) (s : string) : list string :=
  match s with
  | EmptyString => [""]
  | String c s' =>
      if Ascii.eqb c sep then "" :: split_on sep s'
      else match split_on sep s' with
           | w :: ws => String c w :: ws
           | [] => [String c ""]
           end
  end.

(** [s.split(sep, 1)] for a one-character separator. *)
Fixpoint split_on_1 (sep : ascii) (s : string) : list string :=
  match s with
  | EmptyString => [""]
  | String c s' =>
      if Ascii.eqb c sep then [""; s']
      else match split_on_1 sep s' with
           | w :: ws => String c w :: ws
           | [] => [String c ""]
           end
  end.

(** [s.find(c)]: index of the first occurrence, [-1] if there is none. *)
Fixpoint find (sep : ascii) (s : string) : Z :=
  match s with
  | EmptyString => -1
  | String c s' =>
      if Ascii.eqb c sep then 0
      else let i := find sep s' in if i <? 0 then -1 else i + 1
  end.

(** [sep.join(parts)] with the empty separator. *)
Definition join (parts : list string) : string :=
  fold_right String.append "" parts.

Definition len (s : string) : Z := Z.of_nat (String.length s).

Definition nonempty_str (s : string) : bool :=
  match s with EmptyString => false | String _ _ => true end.

(** Comparison of [str] values: lexicographic on code points. *)
Fixpoint str_ge (a b : string) : bool :=
  match a, b with
  | _, EmptyString => true
  | EmptyString, String _ _ => false
  | String x a', String y b' =>
      if ord y <? ord x then true
      else if ord x <? ord y then false
      else str_ge a' b'
  end.

(** Comparison of [(int, int)] tuples: lexicographic. *)
Definition tuple_ge (a b : Z * Z) : bool :=
  (fst b <? fst a) || ((fst a =? fst b) && (snd b <=? snd a)).

(** ** [int(s)] in base 10

    Surrounding whitespace is dropped, one sign is allowed, then decimal
    digits follow, single underscores being allowed between two digits.
    Anything else is a [ValueError], here [None]; so is a string of more
    than [int_max_str_digits] digits, underscores, sign and whitespace
    not counted, zeros at the front counted. *)
Definition digit_val (c : ascii) : Z := ord c - 48.

(** [sys.get_int_max_str_digits()]: the interpreter starts with 4300 and
    the sources never change it. *)
Definition int_max_str_digits : Z := 4300.

(** The digits among the characters of [s]. *)
Fixpoint count_digits (s : string) : Z :=
  match s with
  | EmptyString => 0
  | String c s' => (if isdigit c then 1 else 0) + count_digits s'
  end.

(** [int_digits acc prev_digit s]: [prev_digit] tells whether the
    character before [s] was a digit (an underscore must sit between two
    digits). *)
Fixpoint int_digits (acc : Z) (prev_digit : bool) (s : string) : option Z :=
  match s with
  | EmptyString => if prev_digit then Some acc else None
  | String c s' =>
      if isdigit c then int_digits (10 * acc + digit_val c) true s'
      else if Ascii.eqb c "_" then
        if prev_digit then
          match s' with
          | String d _ => if isdigit d then int_digits acc false s' else None
          | EmptyString => None
          end
        else None
      else None
  end.

Definition int (s : string) : option Z :=
  if int_max_str_digits <? count_digits s then None
  else
    match strip s with
    | EmptyString => None
    | String c s' =>
        if Ascii.eqb c "+" then int_digits 0 false s'
        else if Ascii.eqb c "-" then option_map Z.opp (int_digits 0 false s')
        else int_digits 0 false (String c s')
    end.

(** ["%d" % n] and [hex(n)[2:]] for [n >= 0]. *)
Definition fmt_d (n : Z) : string :=
  DecimalString.NilZero.string_of_int (Z.to_int n).

Definition hex_digits (n : Z) : string :=
  HexadecimalString.NilZero.string_of_uint (N.to_hex_uint (Z.to_N n)).

(** [io.StringIO(s, newline='').readlines()]: the lines of [s] with
    their ends.  A line ends at LF, at CR LF, or at a CR that no LF
    follows; no other character ends one. *)
Definition is_linebreak (c : ascii) : bool :=
  Ascii.eqb c LF || Ascii.eqb c CR.

Fixpoint readlines (s : string) : list string :=
  match s with
  | EmptyString => []
  | String c s' =>
      if is_linebreak c && negb (Ascii.eqb c CR && startswith (String LF "") s')
      then String c "" :: readlines s'
      else match readlines s' with
           | l :: ls => String c l :: ls
           | [] => [String c ""]
           end
  end.

(** [sep.join(parts)] *)
Fixpoint join_sep (sep : string) (parts : list string) : string :=
  match parts with
  | [] => ""
  | p :: rest =>
      match rest with
      | [] => p
      | _ :: _ => p ++ sep ++ join_sep sep rest
      end
  end.

(** [s.replace(old, new)] for a non-empty [old]: the occurrences are
    taken from the left and do not overlap.  [skip] counts the characters
    of an occurrence that are still to be passed over. *)
Fixpoint replace_from (old new : string) (skip : nat) (s : string) : string :=
  match s with
  | EmptyString => EmptyString
  | String c s' =>
      match skip with
      | S k => replace_from old new k s'
      | O =>
          if startswith old s
          then new ++ replace_from old new (String.length old - 1) s'
          else String c (replace_from old new 0 s')
      end
  end.

Definition replace (old new s : string) : string := replace_from old new 0 s.

(** [s.isspace()]: a non-empty string of whitespace. *)
Definition str_isspace (s : string) : bool := nonempty_str s && all_space s.

(** [s.translate(table)] for a table from code points to strings: a
    character without an entry stays. *)
Fixpoint translate (table : ascii -> option string) (s : string) : string :=
  match s with
  | EmptyString => EmptyString
  | String c s' =>
      match table c with
      | Some r => r ++ translate table s'
      | None => String c (translate table s')
      end
  end.

(** [str.upper] on code points below 256: the ASCII letters and the
    Latin-1 letters U+00E0..U+00FE, the division sign U+00F7 excepted,
    move down by 32, and U+00DF becomes [SS].  The capitals of U+00B5 and
    U+00FF lie beyond U+00FF; the two characters are left in place here,
    and the properties that use [upper] are stated for names of printable
    ASCII, which is what a parsed header name consists of. *)
Definition upper_char (c : ascii) : string :=
  if between 97 122 c then String (chr (ord c - 32)) ""
  else if between 224 254 c && negb (ord c =? 247) then
    String (chr (ord c - 32)) ""
  else if ord c =? 223 then "SS"
  else String c "".

Fixpoint upper (s : string) : string :=
  match s with
  | EmptyString => EmptyString
  | String c s' => upper_char c ++ upper s'
  end.

(** [s.encode('utf-8')] for text of code points below 256: one byte
    below U+0080, two bytes from there on. *)
Definition utf8_char (c : ascii) : string :=
  if ord c <? 128 then String c ""
  else String (chr (192 + ord c / 64)) (String (chr (128 + ord c mod 64)) "").

Fixpoint encode_utf8 (s : string) : string :=
  match s with
  | EmptyString => EmptyString
  | String c s' => utf8_char c ++ encode_utf8 s'
  end.

(** [s.partition(sep)] for a one-character separator: the text before the
    first occurrence, whether there is one, and the text after it. *)
Fixpoint partition (sep : ascii) (s : string) : string * bool * string :=
  match s with
  | EmptyString => ("", false, "")
  | String c s' =>
      if Ascii.eqb c sep then ("", true, s')
      else let '(a, found, b) := partition sep s' in (String c a, found, b)
  end.

(** [s.rpartition(sep)[2]]: the text after the last occurrence, all of
    [s] when there is none. *)
Fixpoint after_last (sep : ascii) (s : string) : string :=
  match s with
  | EmptyString => EmptyString
  | String c s' =>
      if Py.in_chars s' sep then after_last sep s'
      else if Ascii.eqb c sep then s'
      else s
  end.

End Py.

(* ================================================================== *)
(** * Exceptions and the state-and-error monad *)
(* ================================================================== *)

(** The exception classes that the modelled code raises or catches.
    [ConnectionError] stands for that class and its subclasses
    ([ConnectionResetError] among them), [TimeoutError] for the class
    that [socket.timeout] names; [AppError] stands for any other
    [Exception] raised by application code. *)
Inductive exn : Type :=
| AssertionError (msg : string)
| ValueError
| AttributeError (name : string)
| KeyError (key : string)
| TypeError
| LineTooLong (line_type : string)
| HTTPException (msg : string)
| ConnectionError
| TimeoutError
| AppError (tag : string).

(** How a call ends: it returns a value or raises.  [OutOfFuel] is no
    outcome of the program: it marks a run of a fuel-bounded loop of the
    model that was cut short; no [except] clause catches it and no
    [finally] clause runs after it.  The loops of the model are shown
    below never to end that way. *)
Inductive result (A : Type) : Type :=
| Ok (a : A)
| Raise (e : exn)
| OutOfFuel.
Arguments Ok {A} a.
Arguments Raise {A} e.
Arguments OutOfFuel {A}.

(** A Python method over a mutable receiver of type [S]: assignments made
    before an exception is raised stay in effect. *)
Definition M (S A : Type) : Type := S -> result A * S.

Definition ret {S A} (a : A) : M S A := fun s => (Ok a, s).
Definition raise {S A} (e : exn) : M S A := fun s => (Raise e, s).
Definition out_of_fuel {S A} : M S A := fun s => (OutOfFuel, s).
Definition bind {S A B} (m : M S A) (k : A -> M S B) : M S B :=
  fun s => match m s with
           | (Ok a, s') => k a s'
           | (Raise e, s') => (Raise e, s')
           | (OutOfFuel, s') => (OutOfFuel, s')
           end.
(** The receiver as it stands. *)
Definition this {S} : M S S := fun s => (Ok s, s).
Definition modify {S} (f : S -> S) : M S unit := fun s => (Ok tt, f s).
(** [try: m except Exception as e: h e] *)
Definition try_except {S A} (m : M S A) (h : exn -> M S A) : M S A :=
  fun s => match m s with
           | (Ok a, s') => (Ok a, s')
           | (Raise e, s') => h e s'
           | (OutOfFuel, s') => (OutOfFuel, s')
           end.
(** [try: m finally: f] *)
Definition try_finally {S A} (m : M S A) (f : M S unit) : M S A :=
  fun s => match m s with
           | (Ok a, s') =>
               match f s' with
               | (Ok _, s'') => (Ok a, s'')
               | (Raise e, s'') => (Raise e, s'')
               | (OutOfFuel, s'') => (OutOfFuel, s'')
               end
           | (Raise e, s') =>
               match f s' with
               | (Ok _, s'') => (Raise e, s'')
               | (Raise e', s'') => (Raise e', s'')
               | (OutOfFuel, s'') => (OutOfFuel, s'')
               end
           | (OutOfFuel, s') => (OutOfFuel, s')
           end.
Definition when {S} (b : bool) (m : M S unit) : M S unit :=
  if b then m else ret tt.

(** [l.append(x)] *)
Definition append {A} (l : list A) (x : A) : list A := (l ++ [x])%list.

Declare Scope py_scope.
Delimit Scope py_scope with py.
Notation "x <- m ;; k" := (bind m (fun x => k))
  (at level 61, m at next level, right associativity) : py_scope.
Notation "m ;; k" := (bind m (fun _ => k))
  (at level 61, right associativity) : py_scope.
Open Scope py_scope.

(* ================================================================== *)
(** * The standard library: [urllib.parse.urlsplit] *)
(* ================================================================== *)

(** [make_environ] splits the request target with [urlsplit], and a
    target that [urlsplit] refuses ends the request in a [ValueError].
    The definitions follow [urllib/parse.py] and, for the host between
    brackets, [ipaddress.py].  [_checknetloc], which [urlsplit] calls
    last, looks for ['/'], ['?'], ['#'], ['@'] and [':'] in the NFKC form
    of a host that is not ASCII; the compatibility forms of the code
    points U+0080..U+00FF hold none of them, so on the Latin-1 text of a
    request line the call returns and is left out. *)

Module UrllibParse.

(** ** [ipaddress]: whether a text is an address *)

(** [_BaseV4._parse_octet]: [None] stands for the [ValueError]. *)
Definition _parse_octet (octet_str : string) : option Z :=
  if negb (Py.nonempty_str octet_str) then None
  else if negb (Py.all_in "0123456789" octet_str) then None
  else if (3 <? String.length octet_str)%nat then None
  else if negb (String.eqb octet_str "0") && Py.startswith "0" octet_str
  then None
  else
    match Py.int octet_str with
    | Some octet_int => if 255 <? octet_int then None else Some octet_int
    | None => None
    end.

(** [IPv4Address(address)._ip]: [None] stands for [AddressValueError]. *)
Definition IPv4Address (address : string) : option Z :=
  if Py.in_chars address "/" then None
  else if negb (Py.nonempty_str address) then None
  else
    match map _parse_octet (Py.split_on "." address) with
    | [Some a; Some b; Some c; Some d] =>
        Some (((a * 256 + b) * 256 + c) * 256 + d)
    | _ => None
    end.

Definition _HEX_DIGITS : string := "0123456789ABCDEFabcdef".

(** [_BaseV6._parse_hextet]: whether the call returns.  [int('', 16)] is
    a [ValueError]. *)
Definition _parse_hextet (hextet_str : string) : bool :=
  Py.all_in _HEX_DIGITS hextet_str
  && (String.length hextet_str <=? 4)%nat
  && Py.nonempty_str hextet_str.

(** The loop that looks for ['::'] among [parts[1:-1]]: the index of the
    empty part, [None] when a second one is met. *)
Fixpoint find_skip (i : nat) (inner : list string) (skip_index : option nat)
  : option (option nat) :=
  match inner with
  | [] => Some skip_index
  | part :: rest =>
      if Py.nonempty_str part then find_skip (S i) rest skip_index
      else
        match skip_index with
        | Some _ => None
        | None => find_skip (S i) rest (Some i)
        end
  end.

(** [_BaseV6._ip_int_from_string]: whether the call returns. *)
Definition _ip_int_from_string (ip_str : string) : bool :=
  if negb (Py.nonempty_str ip_str) then false
  else
    let parts := Py.split_on ":" ip_str in
    if (List.length parts <? 3)%nat then false
    else
      let suffix := List.last parts "" in
      match (if Py.in_chars suffix "." then
               match IPv4Address suffix with
               | Some ipv4_int =>
                   Some (List.app (removelast parts)
                           [Py.hex_digits ((ipv4_int / 65536) mod 65536);
                            Py.hex_digits (ipv4_int mod 65536)])
               | None => None
               end
             else Some parts) with
      | None => false
      | Some parts =>
          let n := List.length parts in
          if (9 <? n)%nat then false
          else
            let first_empty := negb (Py.nonempty_str (List.hd "" parts)) in
            let last_empty := negb (Py.nonempty_str (List.last parts "")) in
            match find_skip 1 (removelast (List.tl parts)) None with
            | None => false
            | Some (Some skip_index) =>
                let parts_hi :=
                  (if first_empty then skip_index - 1 else skip_index)%nat in
                let parts_lo :=
                  (if last_empty then n - skip_index - 1 - 1
                   else n - skip_index - 1)%nat in
                if first_empty && negb (parts_hi =? 0)%nat then false
                else if last_empty && negb (parts_lo =? 0)%nat then false
                else if (8 <=? parts_hi + parts_lo)%nat then false
                else
                  forallb _parse_hextet (firstn parts_hi parts)
                  && forallb _parse_hextet (skipn (n - parts_lo) parts)
            | Some None =>
                if negb (n =? 8)%nat then false
                else if first_empty then false
                else if last_empty then false
                else forallb _parse_hextet parts
            end
      end.

(** [IPv6Address(address)]: whether the call returns.  A scope id after
    ['%'] must not be empty nor hold another ['%']. *)
Definition IPv6Address (address : string) : bool :=
  if Py.in_chars address "/" then false
  else
    let '(addr, sep, scope_id) := Py.partition "%" address in
    if sep && (negb (Py.nonempty_str scope_id) || Py.in_chars scope_id "%")
    then false
    else _ip_int_from_string addr.

Inductive ip_version : Type := IPv4 | IPv6.

(** [ipaddress.ip_address(address)]: the class of the result, [None] for
    the [ValueError]. *)
Definition ip_address (address : string) : option ip_version :=
  match IPv4Address address with
  | Some _ => Some IPv4
  | None => if IPv6Address address then Some IPv6 else None
  end.

(** ** [urllib.parse.urlsplit] *)

Record SplitResult : Type := mkSplitResult {
  scheme : string;
  netloc : string;
  path : string;
  query : string;
  fragment : string
}.

Definition scheme_chars : string :=
  "abcdefghijklmnopqrstuvwxyzABCDEFGHIJKLMNOPQRSTUVWXYZ0123456789+-.".

(** The code points 0 to 32. *)
Definition _WHATWG_C0_CONTROL_OR_SPACE : string :=
  string_of_list_ascii (map (fun n => Py.chr (Z.of_nat n)) (seq 0 33)).

Definition _UNSAFE_URL_BYTES_TO_REMOVE : list string :=
  [String Py.TAB ""; String Py.CR ""; String Py.LF ""].

(** [_splitnetloc(url, 2)] on [url[2:]]: the text before the first of
    ['/'], ['?'] and ['#'], and the text from there on. *)
Fixpoint _splitnetloc (s : string) : string * string :=
  match s with
  | EmptyString => ("", "")
  | String c s' =>
      if Py.in_chars "/?#" c then ("", s)
      else let '(domain, rest) := _splitnetloc s' in (String c domain, rest)
  end.

(** The match of [v[a-fA-F0-9]+\.] at the front of [s], the [v] taken:
    what follows it. *)
Fixpoint after_hex_and_dot (seen : bool) (s : string) : option string :=
  match s with
  | EmptyString => None
  | String c s' =>
      if Py.in_chars _HEX_DIGITS c then after_hex_and_dot true s'
      else if Ascii.eqb c "." then if seen then Some s' else None
      else None
  end.

(** [_check_bracketed_host]: the host is an IPvFuture address,
    [v<hex>.<text>], or an IPv6 address. *)
Definition _check_bracketed_host (hostname : string) : result unit :=
  if Py.startswith "v" hostname then
    match after_hex_and_dot false
            (String.substring 1 (String.length hostname) hostname) with
    | Some tail =>
        if Py.nonempty_str tail && negb (Py.in_chars tail Py.LF) then Ok tt
        else Raise ValueError
    | None => Raise ValueError
    end
  else
    match ip_address hostname with
    | Some IPv6 => Ok tt
    | Some IPv4 => Raise ValueError
    | None => Raise ValueError
    end.

Definition _check_bracketed_netloc (netloc : string) : result unit :=
  let hostname_and_port := Py.after_last "@" netloc in
  let '(before_bracket, have_open_br, bracketed) :=
    Py.partition "[" hostname_and_port in
  if have_open_br then
    if Py.nonempty_str before_bracket then Raise ValueError
    else
      let '(hostname, _, port) := Py.partition "]" bracketed in
      if Py.nonempty_str port && negb (Py.startswith ":" port)
      then Raise ValueError
      else _check_bracketed_host hostname
  else
    let '(hostname, _, port) := Py.partition ":" hostname_and_port in
    _check_bracketed_host hostname.

Definition isalpha_ascii (c : ascii) : bool :=
  Py.between 65 90 c || Py.between 97 122 c.

(** [urlsplit(url)] for a [str]. *)
Definition urlsplit (url : string) : result SplitResult :=
  let url := Py.lstrip_chars _WHATWG_C0_CONTROL_OR_SPACE url in
  let url := fold_left (fun u b => Py.replace b "" u)
               _UNSAFE_URL_BYTES_TO_REMOVE url in
  let '(scheme, url) :=
    match Py.split_on_1 ":" url with
    | [String c head; tail] =>
        if isalpha_ascii c && Py.all_in scheme_chars (String c head)
        then (Py.lower (String c head), tail)
        else ("", url)
    | _ => ("", url)
    end in
  let checked :=
    if Py.startswith "//" url then
      let '(netloc, url) :=
        _splitnetloc (String.substring 2 (String.length url) url) in
      if (Py.in_chars netloc "[" && negb (Py.in_chars netloc "]"))
         || (Py.in_chars netloc "]" && negb (Py.in_chars netloc "["))
      then Raise ValueError
      else if Py.in_chars netloc "[" && Py.in_chars netloc "]" then
        match _check_bracketed_netloc netloc with
        | Ok _ => Ok (netloc, url)
        | Raise e => Raise e
        | OutOfFuel => OutOfFuel
        end
      else Ok (netloc, url)
    else Ok ("", url) in
  match checked with
  | Ok (netloc, url) =>
      let '(url, fragment) :=
        match Py.split_on_1 "#" url with
        | [u; f] => (u, f)
        | _ => (url, "")
        end in
      let '(url, query) :=
        match Py.split_on_1 "?" url with
        | [u; q] => (u, q)
        | _ => (url, "")
        end in
      Ok (mkSplitResult scheme netloc url query fragment)
  | Raise e => Raise e
  | OutOfFuel => OutOfFuel
  end.

End UrllibParse.

(* ================================================================== *)
(** * mywsgiref/headers.py *)
(* ================================================================== *)

Module WsgiHeaders.

(** [Headers._headers]: a list of [(name, value)] tuples. *)
Definition Headers : Type := list (string * string).

(** [Headers.__delitem__], lines 38-43. *)
Definition __delitem__ (self : Headers) (name : string) : Headers :=
  let name := Py.lower name in
  filter (fun kv => negb (String.eqb (Py.lower (fst kv)) name)) self.

(** [Headers.__setitem__], lines 34-36. *)
Definition __setitem__ (self : Headers) (name val : string) : Headers :=
  append (__delitem__ self name) (name, val).

(** [Headers.get_all], lines 56-64. *)
Definition get_all (self : Headers) (name : string) : list string :=
  let name := Py.lower name in
  map snd (filter (fun kv => String.eqb (Py.lower (fst kv)) name) self).

(** [Headers.get], lines 66-72. *)
Fixpoint get (self : Headers) (name : string) : option string :=
  match self with
  | [] => None
  | (k, v) :: rest =>
      if String.eqb (Py.lower k) (Py.lower name) then Some v
      else get rest name
  end.

(** [Headers.has_key], lines 49-51. *)
Definition has_key (self : Headers) (name : string) : bool :=
  match get self name with Some _ => true | None => false end.

(** Names equal up to case, as the class compares them. *)
Definition same_name (a b : string) : bool :=
  String.eqb (Py.lower a) (Py.lower b).

(** [Headers.__len__], lines 30-32. *)
Definition __len__ (self : Headers) : Z := Z.of_nat (List.length self).

(** [Headers.__getitem__], lines 45-47. *)
Definition __getitem__ (self : Headers) (name : string) : option string :=
  get self name.

(** [Headers.key], [Headers.values] and [Headers.items], lines 74-84. *)
Definition key (self : Headers) : list string := map fst self.
Definition values (self : Headers) : list string := map snd self.
Definition items (self : Headers) : list (string * string) := self.

(** [Headers.__str__], lines 89-91. *)
Definition __str__ (self : Headers) : string :=
  Py.join_sep Py.CRLF
    (List.app (map (fun kv => fst kv ++ ": " ++ snd kv) self) [""; ""]).


(** [tspecials], line 9. *)
Definition tspecials (c : ascii) : bool :=
  Py.in_chars " ()<>@,;:\/[]?=" c || (Py.ord c =? 34).

(** [_formatparam], lines 12-21.  The format of line 17 is
    [%s="%"s]: after [%s] and the two characters [="] comes [%"], which
    is no conversion, so the [%] operator raises [ValueError]. *)
Definition _formatparam (param : string) (value : option string)
    (quote : bool) : result string :=
  match value with
  | Some v =>
      if 0 <? Py.len v then
        if quote || existsb tspecials (list_ascii_of_string v) then
          Raise ValueError
        else Ok (param ++ "=" ++ v)
      else Ok param
  | None => Ok param
  end.

(** The loop of [add_header], lines 112-116, over the keyword arguments
    in the order of the call. *)
Fixpoint format_params (_param : list (string * option string))
    (parts : list string) : result (list string) :=
  match _param with
  | [] => Ok parts
  | (k, v) :: rest =>
      match v with
      | None => format_params rest (append parts (Py.replace "_" "-" k))
      | Some _ =>
          match _formatparam (Py.replace "_" "-" k) v true with
          | Ok p => format_params rest (append parts p)
          | Raise e => Raise e
          | OutOfFuel => OutOfFuel
          end
      end
  end.

(** [Headers.add_header], lines 102-117. *)
Definition add_header (_name : string) (_value : option string)
    (_param : list (string * option string)) : M Headers unit :=
  fun self =>
    let parts := match _value with Some v => [v] | None => [] end in
    match format_params _param parts with
    | Ok parts => (Ok tt, append self (_name, Py.join_sep "; " parts))
    | Raise e => (Raise e, self)
    | OutOfFuel => (OutOfFuel, self)
    end.

End WsgiHeaders.

(* ================================================================== *)
(** * myhttp/http_client.py *)
(* ================================================================== *)

Module HttpClient.

Definition _MAXLINE : Z := 65536.
Definition _MAXHEADERS : Z := 100.

(** [fp.readline(limit)] on a binary stream holding [fp]: the bytes up to
    and including the first LF, at most [limit] of them; the stream keeps
    the rest.  The stream holds everything the peer sends before it closes
    its side, so an empty result means end of file. *)
Fixpoint readline (limit : Z) (fp : string) : string * string :=
  match fp with
  | EmptyString => ("", "")
  | String c fp' =>
      if limit <=? 0 then ("", fp)
      else if Ascii.eqb c Py.LF then (String c "", fp')
      else let '(l, r) := readline (limit - 1) fp' in (String c l, r)
  end.

Definition is_terminator (line : string) : bool :=
  String.eqb line Py.CRLF || String.eqb line (String Py.LF "")
  || String.eqb line "".

(** The [while True] loop of [_read_headers], lines 32-39.  The state is
    the stream [fp]; [headers] is the list built so far. *)
Fixpoint _read_headers_loop (fuel : nat) (headers : list string)
  : M string (list string) :=
  match fuel with
  | O => out_of_fuel
  | S fuel' =>
      fun fp =>
        let '(line, fp1) := readline (_MAXLINE + 1) fp in
        if Py.len line >? _MAXLINE then
          (Raise (LineTooLong "header line"), fp1)
        else
          let headers := append headers line in
          if Z.of_nat (List.length headers) >? _MAXHEADERS then
            (Raise (HTTPException "got more than 100 headers"), fp1)
          else if is_terminator line then (Ok headers, fp1)
          else _read_headers_loop fuel' headers fp1
  end.

(** [_read_headers], lines 25-40.  The loop leaves after at most
    [_MAXHEADERS + 1] lines, which is the fuel given. *)
Definition _read_headers : M string (list string) :=
  _read_headers_loop (S (Z.to_nat _MAXHEADERS)) [].

(** ** The header collection

    [HTTPMessage] adds nothing to [email.message.Message] that the server
    uses; the message is its [_headers] list. *)
Definition HTTPMessage : Type := list (string * string).

(** [Message.get(name, failobj)]: the value of the first header whose
    name matches without regard to case. *)
Fixpoint get (self : HTTPMessage) (name failobj : string) : string :=
  match self with
  | [] => failobj
  | (k, v) :: rest =>
      if String.eqb (Py.lower k) (Py.lower name) then v
      else get rest name failobj
  end.

(** ** [email.parser.Parser(_class).parsestr]

    The e-mail package belongs to Python's standard library, not to this
    repository.  The definitions below follow its feed parser for the
    header part of a message under the default [compat32] policy: the text
    is cut into lines, the lines up to the first one that is not of header
    shape are collected, and each header line opens a field while a line
    beginning with a blank continues the field before it.

    The parser is fed the text in pieces of 8192 characters and cracks
    them into lines with a [StringIO(newline='')]; a piece that does not
    end in LF leaves its last line waiting for the next piece, so the
    lines are those of the whole text. *)

(** [headerRE]: [^(From |[\041-\071\073-\176]*:|[\t ])] *)
Definition header_name_char (c : ascii) : bool :=
  Py.between 33 57 c || Py.between 59 126 c.

Fixpoint name_then_colon (s : string) : bool :=
  match s with
  | EmptyString => false
  | String c s' =>
      if Ascii.eqb c ":" then true
      else header_name_char c && name_then_colon s'
  end.

Definition starts_blank (line : string) : bool :=
  match line with
  | String c _ => Ascii.eqb c " " || Ascii.eqb c Py.TAB
  | EmptyString => false
  end.

Definition headerRE (line : string) : bool :=
  Py.startswith "From " line || name_then_colon line || starts_blank line.

(** The header lines of the message: the loop that opens [_parsegen]. *)
Fixpoint header_lines (lines : list string) : list string :=
  match lines with
  | [] => []
  | line :: rest => if headerRE line then line :: header_lines rest else []
  end.

(** [Compat32.header_source_parse] *)
Definition header_source_parse (sourcelines : list string) : string * string :=
  match sourcelines with
  | [] => ("", "")
  | first :: more =>
      match Py.split_on_1 ":" first with
      | [name; value] =>
          (name,
           Py.rstrip_chars Py.CRLF
             (Py.lstrip_chars (String " " (String Py.TAB "")) value
              ++ Py.join more))
      | _ => (first, "")
      end
  end.

(** [FeedParser._parse_headers]: [lastvalue] is empty exactly when
    [lastheader] is; [acc] holds the fields set so far. *)
Definition flush_last (lastvalue : list string) (acc : HTTPMessage)
  : HTTPMessage :=
  match lastvalue with
  | [] => acc
  | _ => append acc (header_source_parse lastvalue)
  end.

Fixpoint _parse_headers (lineno : nat) (lines : list string)
    (lastvalue : list string) (acc : HTTPMessage) : HTTPMessage :=
  match lines with
  | [] => flush_last lastvalue acc
  | line :: rest =>
      if starts_blank line then
        match lastvalue with
        | [] => _parse_headers (S lineno) rest [] acc
        | _ => _parse_headers (S lineno) rest (append lastvalue line) acc
        end
      else
        let acc := flush_last lastvalue acc in
        if Py.startswith "From " line then
          match lineno, rest with
          | O, _ => _parse_headers (S lineno) rest [] acc
          | _, [] => acc
          | _, _ => _parse_headers (S lineno) rest [] acc
          end
        else if Py.find ":" line =? 0 then
          _parse_headers (S lineno) rest [] acc
        else _parse_headers (S lineno) rest [line] acc
  end.

Definition parsestr (text : string) : HTTPMessage :=
  _parse_headers O (header_lines (Py.readlines text)) [] [].

(** [parse_headers], lines 42-53. *)
Definition parse_headers : M string HTTPMessage :=
  headers <- _read_headers ;;
  let hstring := Py.join headers in
  ret (parsestr hstring).

(** [Message.keys()]: the names, in order. *)
Definition keys (self : HTTPMessage) : list string := map fst self.

(** The loop of [getallmatchingheaders], lines 16-22, over the rest of
    [self.keys()]. *)
Fixpoint matching_lines (name : string) (n : nat) (lines : list string)
    (hit : bool) (lst : list string) : list string :=
  match lines with
  | [] => lst
  | line :: rest =>
      let hit :=
        if String.eqb (Py.lower (String.substring 0 n line)) name then true
        else if negb (Py.str_isspace (String.substring 0 1 line)) then false
        else hit in
      matching_lines name n rest hit (if hit then append lst line else lst)
  end.

(** [HTTPMessage.getallmatchingheaders], lines 10-23. *)
Definition getallmatchingheaders (self : HTTPMessage) (name : string)
  : list string :=
  let name := Py.lower name ++ ":" in
  let n := String.length name in
  matching_lines name n (keys self) false [].

End HttpClient.

(* ================================================================== *)
(** * myhttp/__init__.py and myhttp/http_server.py *)
(* ================================================================== *)

Module HttpServer.

Import HttpClient.

(** ** [HTTPStatus] and the [responses] table, lines 31-34 *)
Module HTTPStatus.
Definition CONTINUE : Z := 100.
Definition BAD_REQUEST : Z := 400.
Definition REQUEST_URI_TOO_LONG : Z := 414.
Definition REQUEST_HEADER_FILEDS_TOO_LARGE : Z := 431.
Definition HTTP_VERSION_NOT_SUPPORTED : Z := 505.
End HTTPStatus.

Definition responses (code : Z) : option (string * string) :=
  if code =? 100 then Some ("Continue", "Request received, please continue")
  else if code =? 400 then
    Some ("Bad Request", "Bad request syntax or unsupported method")
  else if code =? 414 then Some ("Request-URI Too Long", "URI is too Long")
  else if code =? 431 then
    Some ("Request Header Fields Too Large",
          "The server is unwilling to process the request because its header fields are too large")
  else if code =? 505 then
    Some ("HTTP Version Not Supported", "Cannot fulfill request")
  else None.

(** ** The handler object *)

(** What reaches the socket.  [wfile] is unbuffered ([wbufsize = 0]), so
    every [wfile.write] is one send; the model keeps the calls apart and
    marks the one made by [flush_headers], which carries a header block.
    The bytes on the wire are the concatenation, [wire_bytes]. *)
Inductive wire_write : Type :=
| HeaderBlock (block : string)
| Written (data : string).

Definition payload (w : wire_write) : string :=
  match w with HeaderBlock b => b | Written b => b end.

Definition wire_bytes (ws : list wire_write) : string :=
  Py.join (map payload ws).

(** A message given to [send_error]; [%r] arguments are kept beside their
    format string, their rendering being the logger's business. *)
Inductive text : Type :=
| Plain (s : string)
| Repr (format arg : string).

(** One line on the diagnostic stream, without address and time stamp:
    the request logged by [send_response], the error logged by
    [send_error], the time-out logged by [handle_one_request], and a
    message of the server's own logger. *)
Inductive log_entry : Type :=
| LogRequest (requestline : string) (code : Z)
| LogError (code : Z) (message : text)
| LogTimedOut (e : exn)
| LogServer (level : string).

Record Handler : Type := mkHandler {
  (* configuration and environment *)
  protocol_version : string;
  version_string : string;
  date_time_string : string;
  (* the connection *)
  rfile : string;
  wfile : list wire_write;
  log : list log_entry;
  (* instance attributes *)
  raw_requestline : string;
  requestline : string;
  request_version : string;
  command : option string;
  path : option string;
  headers : option HTTPMessage;
  close_connection : bool;
  _headers_buffer : option (list string)
}.

Definition default_request_version : string := "HTTP/0.9".

Definition set_rfile v h := mkHandler (protocol_version h) (version_string h)
  (date_time_string h) v (wfile h) (log h) (raw_requestline h)
  (requestline h) (request_version h) (command h) (path h) (headers h)
  (close_connection h) (_headers_buffer h).
Definition set_wfile v h := mkHandler (protocol_version h) (version_string h)
  (date_time_string h) (rfile h) v (log h) (raw_requestline h)
  (requestline h) (request_version h) (command h) (path h) (headers h)
  (close_connection h) (_headers_buffer h).
Definition set_log v h := mkHandler (protocol_version h) (version_string h)
  (date_time_string h) (rfile h) (wfile h) v (raw_requestline h)
  (requestline h) (request_version h) (command h) (path h) (headers h)
  (close_connection h) (_headers_buffer h).
Definition set_raw_requestline v h := mkHandler (protocol_version h)
  (version_string h) (date_time_string h) (rfile h) (wfile h) (log h) v
  (requestline h) (request_version h) (command h) (path h) (headers h)
  (close_connection h) (_headers_buffer h).
Definition set_requestline v h := mkHandler (protocol_version h)
  (version_string h) (date_time_string h) (rfile h) (wfile h) (log h)
  (raw_requestline h) v (request_version h) (command h) (path h) (headers h)
  (close_connection h) (_headers_buffer h).
Definition set_request_version v h := mkHandler (protocol_version h)
  (version_string h) (date_time_string h) (rfile h) (wfile h) (log h)
  (raw_requestline h) (requestline h) v (command h) (path h) (headers h)
  (close_connection h) (_headers_buffer h).
Definition set_command v h := mkHandler (protocol_version h)
  (version_string h) (date_time_string h) (rfile h) (wfile h) (log h)
  (raw_requestline h) (requestline h) (request_version h) v (path h)
  (headers h) (close_connection h) (_headers_buffer h).
Definition set_path v h := mkHandler (protocol_version h)
  (version_string h) (date_time_string h) (rfile h) (wfile h) (log h)
  (raw_requestline h) (requestline h) (request_version h) (command h) v
  (headers h) (close_connection h) (_headers_buffer h).
Definition set_headers v h := mkHandler (protocol_version h)
  (version_string h) (date_time_string h) (rfile h) (wfile h) (log h)
  (raw_requestline h) (requestline h) (request_version h) (command h)
  (path h) v (close_connection h) (_headers_buffer h).
Definition set_close_connection v h := mkHandler (protocol_version h)
  (version_string h) (date_time_string h) (rfile h) (wfile h) (log h)
  (raw_requestline h) (requestline h) (request_version h) (command h)
  (path h) (headers h) v (_headers_buffer h).
Definition set__headers_buffer v h := mkHandler (protocol_version h)
  (version_string h) (date_time_string h) (rfile h) (wfile h) (log h)
  (raw_requestline h) (requestline h) (request_version h) (command h)
  (path h) (headers h) (close_connection h) v.

(** A handler as [StreamRequestHandler.setup] leaves it, on a connection
    whose peer sends [input], with sample values for the server's version
    string and the clock. *)
Definition fresh (protocol input : string) : Handler :=
  mkHandler protocol "BaseHTTP/0.6 Python/3" "Thu, 01 Jan 1970 00:00:00 GMT"
    input [] [] "" "" "" None None None true None.

(** [self.wfile.write(data)] *)
Definition wfile_write (data : string) : M Handler unit :=
  modify (fun h => set_wfile (append (wfile h) (Written data)) h).

Definition log_message (e : log_entry) : M Handler unit :=
  modify (fun h => set_log (append (log h) e) h).

(** [log_request], lines 268-276, as called by [send_response]. *)
Definition log_request (code : Z) : M Handler unit :=
  h <- this ;; log_message (LogRequest (requestline h) code).

(** [send_error], lines 241-266: the table is consulted for the defaults
    and the error is logged. *)
Definition send_error (code : Z) (message explain : option text)
  : M Handler unit :=
  let '(shortmsg, longmsg) :=
    match responses code with
    | Some p => p
    | None => ("???", "???")
    end in
  let message := match message with Some m => m | None => Plain shortmsg end in
  let explain := match explain with Some m => m | None => Plain longmsg end in
  log_message (LogError code message).

(** [send_response_only], lines 200-212. *)
Definition send_response_only (code : Z) (message : option string)
  : M Handler unit :=
  h <- this ;;
  if negb (String.eqb (request_version h) "HTTP/0.9") then
    let message :=
      match message with
      | Some m => m
      | None => match responses code with Some (p, _) => p | None => "" end
      end in
    let buffer := match _headers_buffer h with Some b => b | None => [] end in
    modify (set__headers_buffer
      (Some (append buffer (protocol_version h ++ " " ++ Py.fmt_d code ++ " "
                            ++ message ++ Py.CRLF))))
  else ret tt.

(** [send_header], lines 214-226. *)
Definition send_header (keyword value : string) : M Handler unit :=
  h <- this ;;
  when (negb (String.eqb (request_version h) "HTTP/0.9"))
    (let buffer := match _headers_buffer h with Some b => b | None => [] end in
     modify (set__headers_buffer
       (Some (append buffer (keyword ++ ": " ++ value ++ Py.CRLF))))) ;;
  if String.eqb (Py.lower keyword) "connection" then
    if String.eqb (Py.lower value) "close" then
      modify (set_close_connection true)
    else if String.eqb (Py.lower value) "keep-alive" then
      modify (set_close_connection false)
    else ret tt
  else ret tt.

(** [flush_headers], lines 234-237. *)
Definition flush_headers : M Handler unit :=
  h <- this ;;
  match _headers_buffer h with
  | Some buffer =>
      modify (fun h => set_wfile
                (append (wfile h) (HeaderBlock (Py.join buffer))) h) ;;
      modify (set__headers_buffer (Some []))
  | None => ret tt
  end.

(** [end_headers], lines 228-232.  Appending to a buffer that was never
    created is an [AttributeError]. *)
Definition end_headers : M Handler unit :=
  h <- this ;;
  if negb (String.eqb (request_version h) "HTTP/0.9") then
    match _headers_buffer h with
    | Some buffer =>
        modify (set__headers_buffer (Some (append buffer Py.CRLF))) ;;
        flush_headers
    | None => raise (AttributeError "_headers_buffer")
    end
  else ret tt.

(** [send_response], lines 190-198. *)
Definition send_response (code : Z) (message : option string)
  : M Handler unit :=
  log_request code ;;
  send_response_only code message ;;
  h <- this ;;
  send_header "Server" (version_string h) ;;
  send_header "Date" (date_time_string h).

(** [handle_expect_100], lines 182-188. *)
Definition handle_expect_100 : M Handler bool :=
  send_response_only HTTPStatus.CONTINUE None ;;
  end_headers ;;
  ret true.

(** ** [parse_request], lines 86-180 *)

(** The [try] block of lines 106-117: [None] stands for the [ValueError]
    or [IndexError] that the [except] clause catches; otherwise the result
    is [base_version_number] and the tuple [version_number]. *)
Definition parse_version (version : string) : option (string * (Z * Z)) :=
  if negb (Py.startswith "HTTP/" version) then None
  else
    match Py.split_on_1 "/" version with
    | [_; base_version_number] =>
        match Py.split_on "." base_version_number with
        | [major; minor] =>
            match Py.int major, Py.int minor with
            | Some x, Some y => Some (base_version_number, (x, y))
            | _, _ => None
            end
        | _ => None
        end
    | _ => None
    end.

(** Lines 104-133, the block under [if len(words) >= 3].  The result is
    [false] when the method has returned [False]. *)
Definition negotiate_version (words : list string) : M Handler bool :=
  let version := List.last words "" in
  match parse_version version with
  | None =>
      send_error HTTPStatus.BAD_REQUEST
        (Some (Repr "Bad request version (%r)" version)) None ;;
      ret false
  | Some (base_version_number, version_number) =>
      h <- this ;;
      when (Py.tuple_ge version_number (1, 1)
            && Py.str_ge (protocol_version h) "HTTP/1.1")
        (modify (set_close_connection false)) ;;
      if Py.tuple_ge version_number (2, 0) then
        send_error HTTPStatus.HTTP_VERSION_NOT_SUPPORTED
          (Some (Plain ("Invalid HTTP version (" ++ base_version_number ++ ")")))
          None ;;
        ret false
      else
        modify (set_request_version version) ;;
        ret true
  end.

(** [myhttp.http_client.parse_headers(self.rfile, ...)] *)
Definition read_header_block : M Handler HTTPMessage :=
  fun h =>
    let '(r, fp) := parse_headers (rfile h) in (r, set_rfile fp h).

(** Lines 151-165: the header block is read and parsed; [None] when the
    method has answered 431 and is about to return [False]. *)
Definition load_headers : M Handler (option HTTPMessage) :=
  try_except
    (msg <- read_header_block ;;
     modify (set_headers (Some msg)) ;;
     ret (Some msg))
    (fun e =>
       match e with
       | LineTooLong line_type =>
           send_error HTTPStatus.REQUEST_HEADER_FILEDS_TOO_LARGE
             (Some (Plain "Line too long"))
             (Some (Plain ("got more than 65536 bytes when reading "
                           ++ line_type))) ;;
           ret None
       | HTTPException m =>
           send_error HTTPStatus.REQUEST_HEADER_FILEDS_TOO_LARGE
             (Some (Plain "Too many headers")) (Some (Plain m)) ;;
           ret None
       | _ => raise e
       end).

(** Lines 167-172: the [Connection] directive. *)
Definition connection_directive (msg : HTTPMessage) : M Handler unit :=
  let conntype := get msg "Connection" "" in
  h <- this ;;
  if String.eqb (Py.lower conntype) "close" then
    modify (set_close_connection true)
  else if String.eqb (Py.lower conntype) "keep-alive"
          && Py.str_ge (protocol_version h) "HTTP/1.1" then
    modify (set_close_connection false)
  else ret tt.

(** Lines 173-180: the expectation; the key is spelled as in the source. *)
Definition expect_directive (msg : HTTPMessage) : M Handler bool :=
  let expect := get msg "Excpet" "" in
  h <- this ;;
  if String.eqb (Py.lower expect) "100-continue"
     && Py.str_ge (protocol_version h) "HTTP/1.1"
     && Py.str_ge (request_version h) "HTTP/1.1"
  then
    ok <- handle_expect_100 ;;
    if negb ok then ret false else ret true
  else ret true.

(** Lines 150-180. *)
Definition examine_headers : M Handler bool :=
  r <- load_headers ;;
  match r with
  | None => ret false
  | Some msg => connection_directive msg ;; expect_directive msg
  end.

(** Lines 102-180, on the words of the request line. *)
Definition parse_words (requestline : string) (words : list string)
  : M Handler bool :=
  if (List.length words =? 0)%nat then ret false
  else
    ok <- (if (3 <=? List.length words)%nat then negotiate_version words
           else ret true) ;;
    if negb ok then ret false
    else if negb ((2 <=? List.length words)%nat
                  && (List.length words <=? 3)%nat) then
      send_error HTTPStatus.BAD_REQUEST
        (Some (Repr "Bad request syntax (%r)" requestline)) None ;;
      ret false
    else
      let command := nth 0 words "" in
      let path := nth 1 words "" in
      ok <- (if (List.length words =? 2)%nat then
               modify (set_close_connection true) ;;
               if negb (String.eqb command "GET") then
                 send_error HTTPStatus.BAD_REQUEST
                   (Some (Repr "Bad HTTP/0.9 request type (%r)" command))
                   None ;;
                 ret false
               else ret true
             else ret true) ;;
      if negb ok then ret false
      else
        modify (set_command (Some command)) ;;
        modify (set_path (Some path)) ;;
        examine_headers.

Definition parse_request : M Handler bool :=
  modify (set_command None) ;;
  modify (set_request_version default_request_version) ;;
  modify (set_close_connection true) ;;
  h <- this ;;
  let requestline := Py.rstrip_chars Py.CRLF (raw_requestline h) in
  modify (set_requestline requestline) ;;
  let words := Py.split requestline in
  parse_words requestline words.

(** ** [handle_one_request] and [handle], lines 48-84

    [dispatch] is the attribute lookup [getattr(self, 'do_' + command)]:
    [None] when [hasattr] is false.  Reads in the model do not time out;
    the [except TimeoutError] clause fires when the method raises that
    exception. *)
Section Handle.

Variable dispatch : string -> option (M Handler unit).

Definition read_requestline : M Handler string :=
  fun h =>
    let '(line, fp) := readline 65537 (rfile h) in
    (Ok line, set_raw_requestline line (set_rfile fp h)).

(** The body of the [try], lines 50-70. *)
Definition serve_request : M Handler unit :=
  raw <- read_requestline ;;
  if Py.len raw >? 65536 then
    modify (set_requestline "") ;;
    modify (set_request_version "") ;;
    send_error HTTPStatus.REQUEST_URI_TOO_LONG None None
  else if String.eqb raw "" then
    modify (set_close_connection true)
  else
    ok <- parse_request ;;
    if negb ok then ret tt
    else
      h <- this ;;
      let mname := match command h with Some c => c | None => "" end in
      match dispatch mname with
      | None =>
          (* [HTTPStatus.NOT_IMPLEMENTED] is not a member of the enum *)
          raise (AttributeError "NOT_IMPLEMENTED")
      | Some method => method (* ;; self.wfile.flush() *)
      end.

Definition handle_one_request : M Handler unit :=
  try_except serve_request
    (fun e =>
       match e with
       | TimeoutError =>
           log_message (LogTimedOut e) ;;
           modify (set_close_connection true)
       | _ => raise e
       end).

(** The [while not self.close_connection] loop of [handle]. *)
Fixpoint handle_loop (fuel : nat) : M Handler unit :=
  match fuel with
  | O => fun h => if close_connection h then (Ok tt, h) else (OutOfFuel, h)
  | S fuel' =>
      h <- this ;;
      if close_connection h then ret tt
      else handle_one_request ;; handle_loop fuel'
  end.

(** [handle]: every turn of the loop that does not close the connection
    takes at least one byte from [rfile], which bounds the turns. *)
Definition handle : M Handler unit :=
  modify (set_close_connection true) ;;
  handle_one_request ;;
  h <- this ;;
  handle_loop (S (String.length (rfile h))).

End Handle.

(** ** [log_message], lines 285-308 *)

(** [range(0x20)] and [range(0x7f, 0xa0)], the code points that the
    table escapes. *)
Definition is_control (c : ascii) : bool :=
  Py.between 0 31 c || Py.between 127 159 c.

(** One digit of [{c:02x}]. *)
Definition hex_digit (n : Z) : ascii :=
  if n <? 10 then Py.chr (48 + n) else Py.chr (87 + n).

(** [_control_char_table], lines 286-288: a control character becomes a
    backslash, [x] and two hexadecimal digits; the backslash is doubled. *)
Definition _control_char_table (c : ascii) : option string :=
  if Ascii.eqb c "\" then Some "\\"
  else if is_control c then
    Some ("\x" ++ String (hex_digit (Py.ord c / 16))
                    (String (hex_digit (Py.ord c mod 16)) ""))
  else None.

(** What [log_message] writes to [sys.stderr], lines 305-308, for the
    formatted [message]. *)
Definition log_line (address_string log_date_time_string message : string)
  : string :=
  address_string ++ " -- [" ++ log_date_time_string ++ "] "
  ++ Py.translate _control_char_table message ++ String Py.LF "".

End HttpServer.

(* ================================================================== *)
(** * mywerkzeug/serving.py: [WSGIRequestHandler.run_wsgi] *)
(* ================================================================== *)

Module Serving.

Import HttpServer.

(** ** Applications

    An application is known to the bridge by what it does to it: the calls
    it makes to [start_response] and to the [write] callable, the chunks
    its iterable yields and the exceptions it lets escape.  [body] runs
    inside [app(environ, start_response)], [iterable] while the result is
    iterated.  [Guarded op] is [try: op except Exception: pass] in
    application code.  An object without [__call__] is [NotCallable]. *)
Inductive app_op : Type :=
| StartResponse (status : string) (headers : list (string * string))
                (exc_info : option exn)
| WriteCall (data : string)
| RaiseExc (e : exn)
| Guarded (op : app_op).

Inductive iter_step : Type :=
| Step (op : app_op)
| Yield (data : string).

Inductive WSGIApplication : Type :=
| NotCallable
| Application (body : list app_op) (iterable : list iter_step).

(** [InternalServerError()]: [HTTPException] in [mywerkzeug/exceptions.py]
    defines no [__call__], so calling the instance is a [TypeError]. *)
Definition InternalServerError : WSGIApplication := NotCallable.

(** ** The closure of [run_wsgi], lines 155-160

    [self] is the handler; the other fields are the local variables that
    [write], [start_response] and [execute] share, and the one key of
    [environ] that they read. *)
Record Frame : Type := mkFrame {
  self : Handler;
  REQUEST_METHOD : option string;
  status_set : option string;
  headers_set : option (list (string * string));
  status_sent : option string;
  headers_sent : option (list (string * string));
  chunk_response : bool
}.

Definition set_self v f := mkFrame v (REQUEST_METHOD f) (status_set f)
  (headers_set f) (status_sent f) (headers_sent f) (chunk_response f).
Definition set_status_set v f := mkFrame (self f) (REQUEST_METHOD f) v
  (headers_set f) (status_sent f) (headers_sent f) (chunk_response f).
Definition set_headers_set v f := mkFrame (self f) (REQUEST_METHOD f)
  (status_set f) v (status_sent f) (headers_sent f) (chunk_response f).
Definition set_status_sent v f := mkFrame (self f) (REQUEST_METHOD f)
  (status_set f) (headers_set f) v (headers_sent f) (chunk_response f).
Definition set_headers_sent v f := mkFrame (self f) (REQUEST_METHOD f)
  (status_set f) (headers_set f) (status_sent f) v (chunk_response f).
Definition set_chunk_response v f := mkFrame (self f) (REQUEST_METHOD f)
  (status_set f) (headers_set f) (status_sent f) (headers_sent f) v.

(** A method call on [self] from inside the closure. *)
Definition on_self {A} (m : M Handler A) : M Frame A :=
  fun f => let '(r, h) := m (self f) in (r, set_self h f).

(** Truth value of a variable holding [None] or a list. *)
Definition truthy {A} (v : option (list A)) : bool :=
  match v with
  | Some (_ :: _) => true
  | _ => false
  end.

Definition nonempty (data : string) : bool :=
  match data with EmptyString => false | _ => true end.

(** [self.protocal_version], line 191.  No class of the handler's
    hierarchy defines an attribute of that name, so the lookup ends in
    [__getattr__] (lines 301-307), whose [getattr(super(), name)] raises
    [AttributeError]. *)
Definition protocal_version : M Handler string :=
  raise (AttributeError "protocal_version").

(** Lines 176-178: the loop over [headers_sent]. *)
Fixpoint send_all (hs : list (string * string)) (header_keys : list string)
  : M Handler (list string) :=
  match hs with
  | [] => ret header_keys
  | (key, value) :: rest =>
      send_header key value ;;
      send_all rest (Py.lower key :: header_keys)
  end.

(** Lines 169-172: [code_str, msg = status_sent.split(None, 1)], with the
    whole status and the empty message when that does not give two
    parts. *)
Definition status_parts (status : string) : string * string :=
  match Py.split_ws_1 status with
  | [code_str; msg] => (code_str, msg)
  | _ => (status, "")
  end.

(** Lines 166-199: the block under [if status_sent is None]. *)
Definition send_head (status : string) (hdrs : list (string * string))
  : M Frame unit :=
  modify (set_status_sent (Some status)) ;;
  modify (set_headers_sent (Some hdrs)) ;;
  let '(code_str, msg) := status_parts status in
  match Py.int code_str with
  | None => raise ValueError
  | Some code =>
      on_self (send_response code (Some msg)) ;;
      header_keys <- on_self (send_all hdrs []) ;;
      f <- this ;;
      (if negb (existsb (String.eqb "content-length") header_keys
                || match REQUEST_METHOD f with
                   | Some m => String.eqb m "HEAD"
                   | None => false
                   end
                || ((100 <=? code) && (code <? 200))
                || ((code =? 204) || (code =? 304)))
       then
         v <- on_self protocal_version ;;
         if Py.str_ge v "HTTP/1.1" then
           modify (set_chunk_response true) ;;
           on_self (send_header "Transfer-Encoding" "chunked")
         else ret tt
       else ret tt) ;;
      on_self (send_header "Connection" "close") ;;
      on_self end_headers
  end.

(** [write], lines 162-209. *)
Definition write (data : string) : M Frame unit :=
  f <- this ;;
  match status_set f, headers_set f with
  | Some status, Some hdrs =>
      (match status_sent f with
       | None => send_head status hdrs
       | Some _ => ret tt
       end) ;;
      f <- this ;;
      when (nonempty data)
        (when (chunk_response f)
           (on_self (wfile_write (Py.hex_digits (Py.len data))) ;;
            on_self (wfile_write Py.CRLF)) ;;
         on_self (wfile_write data) ;;
         when (chunk_response f) (on_self (wfile_write Py.CRLF)))
      (* self.wfile.flush() *)
  | _, _ => raise (AssertionError "write() before start_response")
  end.

(** [start_response], lines 211-223. *)
Definition start_response (status : string)
    (headers : list (string * string)) (exc_info : option exn)
  : M Frame unit :=
  f <- this ;;
  (match exc_info with
   | Some e => if truthy (headers_sent f) then raise e else ret tt
   | None =>
       if truthy (headers_set f)
       then raise (AssertionError "headers already sent")
       else ret tt
   end) ;;
  modify (set_status_set (Some status)) ;;
  modify (set_headers_set (Some headers)).

(** Application code at work. *)
Fixpoint run_op (op : app_op) : M Frame unit :=
  match op with
  | StartResponse status headers exc_info =>
      start_response status headers exc_info
  | WriteCall data => write data
  | RaiseExc e => raise e
  | Guarded op' => try_except (run_op op') (fun _ => ret tt)
  end.

Fixpoint run_body (ops : list app_op) : M Frame unit :=
  match ops with
  | [] => ret tt
  | op :: rest => run_op op ;; run_body rest
  end.

(** [for data in application_iter: write(data)], lines 228-229. *)
Fixpoint iterate (steps : list iter_step) : M Frame unit :=
  match steps with
  | [] => ret tt
  | Step op :: rest => run_op op ;; iterate rest
  | Yield data :: rest => write data ;; iterate rest
  end.

(** [rfile.read(n)] *)
Fixpoint read (n : Z) (fp : string) : string * string :=
  match fp with
  | EmptyString => ("", "")
  | String c fp' =>
      if n <=? 0 then ("", fp)
      else let '(d, r) := read (n - 1) fp' in (String c d, r)
  end.

(** Lines 240-255: what is left unread on the socket is discarded.  The
    selector reports the socket readable while input is pending; the loop
    leaves by itself after 1000 reads, which is the fuel given. *)
Fixpoint drain_loop (fuel : nat) (total_size total_reads : Z)
  : M Handler unit :=
  match fuel with
  | O => out_of_fuel
  | S fuel' =>
      fun h =>
        if negb (nonempty (rfile h)) then (Ok tt, h)
        else
          let '(data, fp) := read 10000000 (rfile h) in
          let h := set_rfile fp h in
          let total_size := total_size + Py.len data in
          let total_reads := total_reads + 1 in
          if negb (nonempty data) || (10000000000 <=? total_size)
             || (1000 <=? total_reads)
          then (Ok tt, h)
          else drain_loop fuel' total_size total_reads h
  end.

Definition drain : M Handler unit := drain_loop 1000 0 0.

(** [execute], lines 225-258. *)
Definition execute (app : WSGIApplication) : M Frame unit :=
  match app with
  | NotCallable => raise TypeError
  | Application body iterable =>
      run_body body ;;
      try_finally
        (iterate iterable ;;
         f <- this ;;
         when (negb (truthy (headers_sent f))) (write "") ;;
         f <- this ;;
         when (chunk_response f)
           (on_self (wfile_write ("0" ++ Py.CRLF ++ Py.CRLF))))
        (on_self drain)
  end.

(** [isinstance(e, connection_dropped_errors)], lines 22-26. *)
Definition connection_dropped_errors (e : exn) : bool :=
  match e with
  | ConnectionError | TimeoutError => true
  | _ => false
  end.

(** Lines 260-281: the [try] around [execute].  [connection_dropped]
    does nothing. *)
Definition guarded_execute (app : WSGIApplication)
    (passthrough_errors : bool) : M Frame unit :=
  try_except (execute app)
    (fun e =>
       if connection_dropped_errors e then ret tt
       else if passthrough_errors then raise e
       else
         f <- this ;;
         when (match status_sent f with Some _ => true | None => false end
               && chunk_response f)
           (on_self (modify (set_close_connection true))) ;;
         try_except
           (f <- this ;;
            when (match status_sent f with
                  | None => true
                  | Some _ => false
                  end)
              (modify (set_status_set None) ;;
               modify (set_headers_set None)) ;;
            execute InternalServerError)
           (fun _ => ret tt) ;;
         on_self (log_message (LogServer "error"))).

(** Lines 152-153. *)
Definition interim_continue : M Handler unit :=
  h <- this ;;
  match headers h with
  | None => raise (AttributeError "headers")
  | Some msg =>
      when (String.eqb
              (Py.strip (Py.lower (HttpClient.get msg "Expect" "")))
              "100-continue")
        (wfile_write (" HTTP/1.1 100 Continue" ++ Py.CRLF ++ Py.CRLF))
  end.

(** [self.make_environ()], line 155, as the bridge depends on it.  Its
    first statement, line 80, is [urlsplit(self.path)]: an attribute that
    was never assigned is an [AttributeError], and a target that
    [urlsplit] refuses is a [ValueError].  What follows builds the dict
    from the handler, the server and the socket and gets past the missing
    peer certificate of a plain socket; the dict is not kept in the
    model, whose handler has no field for it. *)
Definition make_environ : M Handler unit :=
  h <- this ;;
  match path h with
  | None => raise (AttributeError "path")
  | Some target =>
      match UrllibParse.urlsplit target with
      | Ok _ => ret tt
      | Raise e => raise e
      | OutOfFuel => out_of_fuel
      end
  end.

(** The closure as lines 155-160 leave it: of [environ] it reads
    [REQUEST_METHOD] back, which is [self.command]. *)
Definition new_frame (h : Handler) : Frame :=
  mkFrame h (command h) None None None None false.

(** [run_wsgi], lines 151-281, with the closure it ends in. *)
Definition run_wsgi_frame (app : WSGIApplication)
    (passthrough_errors : bool) (h : Handler) : result unit * Frame :=
  match (interim_continue ;; make_environ) h with
  | (Ok _, h1) => guarded_execute app passthrough_errors (new_frame h1)
  | (Raise e, h1) => (Raise e, new_frame h1)
  | (OutOfFuel, h1) => (OutOfFuel, new_frame h1)
  end.

Definition run_wsgi (app : WSGIApplication) (passthrough_errors : bool)
  : M Handler unit :=
  fun h => let '(r, f) := run_wsgi_frame app passthrough_errors h in
           (r, self f).

(** [WSGIRequestHandler.__getattr__], lines 301-307: every [do_*] name
    resolves to [run_wsgi]. *)
Definition dispatch (app : WSGIApplication) (passthrough_errors : bool)
  : string -> option (M Handler unit) :=
  fun _ => Some (run_wsgi app passthrough_errors).

(** [WSGIRequestHandler.handle], lines 283-293, for a server without TLS:
    exceptions other than dropped connections go on to the caller. *)
Definition handle (app : WSGIApplication) (passthrough_errors : bool)
  : M Handler unit :=
  try_except (HttpServer.handle (dispatch app passthrough_errors))
    (fun e => if connection_dropped_errors e then ret tt else raise e).

(** ** [make_environ], lines 120-129: the request headers *)

(** A value of the WSGI environment: a string, or another object (the
    version tuple, a stream, a flag) with the text that formatting it
    gives. *)
Inductive env_value : Type :=
| Str (s : string)
| Obj (text : string).

Definition format_value (v : env_value) : string :=
  match v with Str s => s | Obj text => text end.

(** The [environ] dict, in insertion order. *)
Definition WSGIEnvironment : Type := list (string * env_value).

(** [environ.get(key)], [None] when [key not in environ]. *)
Fixpoint environ_get (environ : WSGIEnvironment) (key : string)
  : option env_value :=
  match environ with
  | [] => None
  | (k, v) :: rest =>
      if String.eqb k key then Some v else environ_get rest key
  end.

(** [environ[key] = value] *)
Fixpoint environ_set (environ : WSGIEnvironment) (key : string)
    (value : env_value) : WSGIEnvironment :=
  match environ with
  | [] => [(key, value)]
  | (k, v) :: rest =>
      if String.eqb k key then (k, value) :: rest
      else (k, v) :: environ_set rest key value
  end.

(** The loop of lines 120-129 over [self.headers.items()], on the dict
    built so far. *)
Fixpoint environ_headers (items : list (string * string))
    (environ : WSGIEnvironment) : WSGIEnvironment :=
  match items with
  | [] => environ
  | (key, value) :: rest =>
      if Py.in_chars key "_" then environ_headers rest environ
      else
        let key := Py.replace "-" "_" (Py.upper key) in
        let value := Py.replace Py.CRLF "" value in
        if negb (String.eqb key "CONTENT_TYPE"
                 || String.eqb key "CONTENT_LENGTH")
        then
          let key := "HTTP_" ++ key in
          let value :=
            match environ_get environ key with
            | Some old => format_value old ++ "," ++ value
            | None => value
            end in
          environ_headers rest (environ_set environ key (Str value))
        else environ_headers rest (environ_set environ key (Str value))
  end.

(** ** The server classes and [make_server], lines 464-660 *)









End Serving.

(* ================================================================== *)
(** * mywsgiref/handlers.py: [BaseHandler.start_response] *)
(* ================================================================== *)

Module WsgiHandlers.

(** The state variables of [BaseHandler], lines 44-48. *)
Record BaseHandler : Type := mkBaseHandler {
  status : option string;
  headers : option WsgiHeaders.Headers;
  headers_sent : bool;
  bytes_sent : Z
}.

Definition initial : BaseHandler := mkBaseHandler None None false 0.

(** [_hoppish] and [is_hop_by_hop], [mywsgiref/util.py] lines 131-139. *)
Definition is_hop_by_hop (header_name : string) : bool :=
  existsb (String.eqb (Py.lower header_name))
    ["connection"; "keep-alive"; "proxy-authenticate";
     "proxy-authorization"; "te"; "trailers"; "transfer-encoding";
     "upgrade"].

(** The assertions of lines 186-194. *)
Definition check_status (status : string) : M BaseHandler unit :=
  if Py.len status <? 4 then
    raise (AssertionError "Status must be at least 4 characters")
  else
    match Py.int (String.substring 0 3 status) with
    | None => raise ValueError
    | Some code =>
        if code =? 0 then
          raise (AssertionError "Status message must begin w/3-digit code")
        else if negb (String.eqb (String.substring 3 1 status) " ") then
          raise (AssertionError "Status message must have a space after code")
        else ret tt
    end.

Fixpoint check_headers (hs : list (string * string)) : M BaseHandler unit :=
  match hs with
  | [] => ret tt
  | (name, _) :: rest =>
      if is_hop_by_hop name then
        raise (AssertionError "Hop-by-hop headers are not allowed")
      else check_headers rest
  end.

(** [BaseHandler.start_response], lines 171-195. *)
Definition start_response (status : string)
    (hdrs : list (string * string)) (exc_info : option exn)
  : M BaseHandler unit :=
  self <- this ;;
  (match exc_info with
   | Some e => if headers_sent self then raise e else ret tt
   | None =>
       match headers self with
       | Some _ => raise (AssertionError "Headers already sent")
       | None => ret tt
       end
   end) ;;
  modify (fun self => mkBaseHandler (Some status) (Some hdrs)
                        (headers_sent self) (bytes_sent self)) ;;
  check_status status ;;
  check_headers hdrs.

(** ** [BaseHandler.run] and [SimpleHandler] *)

(** An object that the application yields or hands to [write]: a
    [bytes] object or a [str]. *)
Inductive chunk : Type :=
| Bytes (b : string)
| Text (s : string).

(** The iterable that the application returns: the objects it yields,
    and whether [len()] applies to it (a list) or not (a generator). *)
Record iterable : Type := mkIterable {
  blocks : list chunk;
  sized : bool
}.

(** What the application does while it is called: calls of
    [start_response] and of the [write] callable, and an exception that
    it lets escape. *)
Inductive app_call : Type :=
| CallStart (status : string) (hdrs : list (string * string))
            (exc_info : option exn)
| CallWrite (data : chunk)
| CallRaise (e : exn).

Record Application : Type := mkApplication {
  body : list app_call;
  returns : iterable
}.

(** A [SimpleHandler]: the state variables of [BaseHandler], the
    attributes that [run] and [close] assign, the streams, and what the
    handler was built with.  [byte_sent] is the attribute of that name
    that [close] creates; [clock] is [format_date_time(time.time())]. *)
Record SimpleHandler : Type := mkSimpleHandler {
  base : BaseHandler;
  result : option iterable;
  environ : option Serving.WSGIEnvironment;
  byte_sent : option Z;
  stdout : list chunk;
  stderr : list exn;
  os_environ : Serving.WSGIEnvironment;
  base_env : Serving.WSGIEnvironment;
  wsgi_multithread : bool;
  wsgi_multiprocess : bool;
  clock : string
}.

Definition set_base v s := mkSimpleHandler v (result s) (environ s)
  (byte_sent s) (stdout s) (stderr s) (os_environ s) (base_env s)
  (wsgi_multithread s) (wsgi_multiprocess s) (clock s).
Definition set_result v s := mkSimpleHandler (base s) v (environ s)
  (byte_sent s) (stdout s) (stderr s) (os_environ s) (base_env s)
  (wsgi_multithread s) (wsgi_multiprocess s) (clock s).
Definition set_environ v s := mkSimpleHandler (base s) (result s) v
  (byte_sent s) (stdout s) (stderr s) (os_environ s) (base_env s)
  (wsgi_multithread s) (wsgi_multiprocess s) (clock s).
Definition set_byte_sent v s := mkSimpleHandler (base s) (result s)
  (environ s) v (stdout s) (stderr s) (os_environ s) (base_env s)
  (wsgi_multithread s) (wsgi_multiprocess s) (clock s).
Definition set_stdout v s := mkSimpleHandler (base s) (result s) (environ s)
  (byte_sent s) v (stderr s) (os_environ s) (base_env s)
  (wsgi_multithread s) (wsgi_multiprocess s) (clock s).
Definition set_stderr v s := mkSimpleHandler (base s) (result s) (environ s)
  (byte_sent s) (stdout s) v (os_environ s) (base_env s)
  (wsgi_multithread s) (wsgi_multiprocess s) (clock s).

(** A method of [BaseHandler] that touches the state variables only. *)
Definition on_base {A} (m : M BaseHandler A) : M SimpleHandler A :=
  fun s => let '(r, b) := m (base s) in (r, set_base b s).

(** The class attributes of lines 28-30 and 40-42. *)
Definition origin_server : bool := true.
Definition http_version : string := "1.0".
Definition server_software : option string := None.
Definition error_status : string := "500 Dude, this is whack!".
Definition error_headers : list (string * string) :=
  [("Content-Type", "text/plain")].
Definition error_body : chunk :=
  Text "A server error occurred. Please contact the administrator.".

(** [guess_scheme], [mywsgiref/util.py] lines 33-38. *)
Definition guess_scheme (environ : Serving.WSGIEnvironment) : string :=
  match Serving.environ_get environ "HTTPS" with
  | Some (Serving.Str v) =>
      if String.eqb v "yes" || String.eqb v "on" || String.eqb v "1"
      then "https" else "http"
  | _ => "http"
  end.

(** [environ.update(other)] *)
Definition update (environ other : Serving.WSGIEnvironment)
  : Serving.WSGIEnvironment :=
  fold_left (fun d kv => Serving.environ_set d (fst kv) (snd kv)) other environ.

Definition py_bool (b : bool) : Serving.env_value :=
  Serving.Obj (if b then "True" else "False").

(** [setup_environ], lines 224-242, with [SimpleHandler.add_cgi_vars]. *)
Definition setup_environ : M SimpleHandler unit :=
  modify (fun s =>
    let env := os_environ s in
    let env := update env (base_env s) in
    let env := Serving.environ_set env "wsgi.input" (Serving.Obj "stdin") in
    let env := Serving.environ_set env "wsgi.errors" (Serving.Obj "stderr") in
    let env := Serving.environ_set env "wsgi.version" (Serving.Obj "(1, 0)") in
    let env := Serving.environ_set env "wsgi.run_once" (py_bool false) in
    let env := Serving.environ_set env "wsgi.url_scheme"
                 (Serving.Str (guess_scheme env)) in
    let env := Serving.environ_set env "wsgi.multithread"
                 (py_bool (wsgi_multithread s)) in
    let env := Serving.environ_set env "wsgi.multiprocess"
                 (py_bool (wsgi_multiprocess s)) in
    set_environ (Some env) s).

(** [SimpleHandler._write], lines 287-289; [_flush] shows nothing. *)
Definition _write (data : chunk) : M SimpleHandler unit :=
  modify (fun s => set_stdout (append (stdout s) data) s).

(** [client_is_modern], lines 142-144. *)
Definition client_is_modern : M SimpleHandler bool :=
  s <- this ;;
  match environ s with
  | None => raise TypeError
  | Some env =>
      match Serving.environ_get env "SERVER_PROTOCOL" with
      | None => raise (AppError "KeyError")
      | Some (Serving.Str v) =>
          ret (negb (String.eqb (Py.upper v) "HTTP/0.9"))
      | Some (Serving.Obj _) => raise (AttributeError "upper")
      end
  end.

(** [self.headers.has_key(name)] on an attribute that may be [None]. *)
Definition headers_has_key (name : string) : M SimpleHandler bool :=
  s <- this ;;
  match headers (base s) with
  | None => raise (AttributeError "has_key")
  | Some h => ret (WsgiHeaders.has_key h name)
  end.

(** [self.headers[name] = val] on an attribute that may be [None]. *)
Definition headers_setitem (name val : string) : M SimpleHandler unit :=
  s <- this ;;
  match headers (base s) with
  | None => raise TypeError
  | Some h =>
      modify (set_base
        (mkBaseHandler (status (base s))
           (Some (WsgiHeaders.__setitem__ h name val))
           (headers_sent (base s)) (bytes_sent (base s))))
  end.

(** [send_preamble], lines 146-156. *)
Definition send_preamble : M SimpleHandler unit :=
  if origin_server then
    modern <- client_is_modern ;;
    when modern
      (s <- this ;;
       let status_text :=
         match status (base s) with Some t => t | None => "None" end in
       _write (Bytes (Py.encode_utf8
                        ("HTTP/" ++ http_version ++ " " ++ status_text
                         ++ Py.CRLF))) ;;
       dated <- headers_has_key "Date" ;;
       when (negb dated)
         (_write (Bytes (Py.encode_utf8 ("Date: " ++ clock s ++ Py.CRLF)))) ;;
       match server_software with
       | Some software =>
           if Py.nonempty_str software then
             named <- headers_has_key "Server" ;;
             when (negb named)
               (_write (Bytes (Py.encode_utf8
                                 ("Server: " ++ software ++ Py.CRLF))))
           else ret tt
       | None => ret tt
       end)
  else
    s <- this ;;
    let status_text :=
      match status (base s) with Some t => t | None => "None" end in
    _write (Text ("Status: " ++ status_text ++ Py.CRLF)).

(** [set_content_length], lines 131-140: [len(self.result)] raises
    [TypeError] on [None] and on a generator, which the method passes
    over. *)
Definition set_content_length : M SimpleHandler unit :=
  s <- this ;;
  match result s with
  | Some r =>
      if sized r then
        if (List.length (blocks r) =? 1)%nat then
          headers_setitem "Content-Length" (Py.fmt_d (bytes_sent (base s)))
        else ret tt
      else ret tt
  | None => ret tt
  end.

(** [cleanup_headers], lines 126-129. *)
Definition cleanup_headers : M SimpleHandler unit :=
  typed <- headers_has_key "Content-Type" ;;
  when (negb typed) set_content_length.

(** [send_headers], lines 118-124. *)
Definition send_headers : M SimpleHandler unit :=
  cleanup_headers ;;
  modify (fun s => set_base
            (mkBaseHandler (status (base s)) (headers (base s)) true
               (bytes_sent (base s))) s) ;;
  modern <- (if negb origin_server then ret true else client_is_modern) ;;
  when modern
    (send_preamble ;;
     s <- this ;;
     match headers (base s) with
     | Some h => _write (Bytes (Py.encode_utf8 (WsgiHeaders.__str__ h)))
     | None => _write (Bytes (Py.encode_utf8 "None"))
     end).

(** [write], lines 197-212. *)
Definition write (data : chunk) : M SimpleHandler unit :=
  match data with
  | Text _ =>
      raise (AssertionError "write() argument must be string <class 'str'>")
  | Bytes b =>
      s <- this ;;
      (if match status (base s) with
          | Some t => negb (Py.nonempty_str t)
          | None => true
          end
       then raise (AssertionError "write() before start_response()")
       else if negb (headers_sent (base s)) then
         modify (set_base
           (mkBaseHandler (status (base s)) (headers (base s))
              (headers_sent (base s)) (Py.len b))) ;;
         send_headers
       else
         modify (set_base
           (mkBaseHandler (status (base s)) (headers (base s))
              (headers_sent (base s)) (bytes_sent (base s) + Py.len b)))) ;;
      _write data
  end.

(** [finish_content], lines 110-116. *)
Definition finish_content : M SimpleHandler unit :=
  s <- this ;;
  if negb (headers_sent (base s)) then
    headers_setitem "Content-Type" "0" ;;
    send_headers
  else ret tt.

(** [close], lines 158-166: the iterables of the model have no [close]
    to show; [bytes_sent] is not among the attributes reset. *)
Definition close : M SimpleHandler unit :=
  modify (fun s =>
    set_byte_sent (Some 0)
      (set_environ None
         (set_result None
            (set_base (mkBaseHandler None None false (bytes_sent (base s)))
               s)))).

(** [for data in self.result: self.write(data)], lines 94-96.  The
    [print] of line 95 goes to [sys.stdout], which is not the handler's
    [stdout]. *)
Fixpoint write_all (data : list chunk) : M SimpleHandler unit :=
  match data with
  | [] => ret tt
  | d :: rest => write d ;; write_all rest
  end.

(** [finish_response], lines 90-99: a list or a generator is no
    [FileWrapper], and [sendfile] returns [False]. *)
Definition finish_response : M SimpleHandler unit :=
  try_finally
    (s <- this ;;
     match result s with
     | None => raise TypeError
     | Some r => write_all (blocks r) ;; finish_content
     end)
    close.

(** [error_output], lines 84-87, for the exception [e] being handled. *)
Definition error_output (e : exn) : M SimpleHandler iterable :=
  on_base (start_response error_status error_headers (Some e)) ;;
  ret (mkIterable [error_body] true).

(** [handle_error], lines 64-69, with [log_exception]. *)
Definition handle_error (e : exn) : M SimpleHandler unit :=
  modify (fun s => set_stderr (append (stderr s) e) s) ;;
  s <- this ;;
  if negb (headers_sent (base s)) then
    r <- error_output e ;;
    modify (set_result (Some r)) ;;
    finish_response
  else ret tt.

(** The application at work: [application(self.environ,
    self.start_response)]. *)
Fixpoint call (ops : list app_call) : M SimpleHandler unit :=
  match ops with
  | [] => ret tt
  | CallStart status hdrs exc_info :: rest =>
      on_base (start_response status hdrs exc_info) ;; call rest
  | CallWrite data :: rest => write data ;; call rest
  | CallRaise e :: _ => raise e
  end.

(** [run], lines 51-62. *)
Definition run (application : Application) : M SimpleHandler unit :=
  try_except
    (setup_environ ;;
     call (body application) ;;
     modify (set_result (Some (returns application))) ;;
     finish_response)
    (fun e => handle_error e).

End WsgiHandlers.

(* ================================================================== *)
(** * Terms of the statements *)
(* ================================================================== *)

(** The predicates, measures and sample inputs that the properties
    below are stated with. *)

Section PyTerms.

(** [p] holds of every character of [s]. *)
Fixpoint all_chars (p : ascii -> bool) (s : string) : bool :=
  match s with
  | EmptyString => true
  | String c s' => p c && all_chars p s'
  end.

(** A non-empty string of decimal digits, and the number it denotes. *)
Definition digits (s : string) : bool :=
  Py.nonempty_str s && all_chars Py.isdigit s.

(** The number that the digits [s] denote after the digits read so far
    gave [acc]. *)
Fixpoint decimal_from (acc : Z) (s : string) : Z :=
  match s with
  | EmptyString => acc
  | String c s' => decimal_from (10 * acc + Py.digit_val c) s'
  end.

Definition decimal (s : string) : Z := decimal_from 0 s.

(** The occurrences of [sep] in [s]. *)
Fixpoint count_char (sep : ascii) (s : string) : nat :=
  match s with
  | EmptyString => O
  | String c s' => (if Ascii.eqb c sep then 1 else 0) + count_char sep s'
  end.

End PyTerms.

Section MonadTerms.

Context {S : Type}.

(** [keeps f m]: running [m] leaves the observation [f] of the receiver
    as it was, whether [m] returns or raises. *)
Definition keeps {A B} (f : S -> B) (m : M S A) : Prop :=
  forall s, f (snd (m s)) = f s.

(** [total m]: [m] always returns. *)
Definition total {A} (m : M S A) : Prop :=
  forall s, exists a s', m s = (Ok a, s').

(** [finishes m]: no run of [m] is cut short for want of fuel. *)
Definition finishes {A} (m : M S A) : Prop :=
  forall s, fst (m s) <> OutOfFuel.

End MonadTerms.

Section RequestLineTerms.

Import HttpServer.

(** Order on version tuples [(major, minor)]. *)
Definition lex_le (a b : Z * Z) : Prop :=
  fst a < fst b \/ (fst a = fst b /\ snd a <= snd b).


(** What the first lines of [parse_request] leave in the handler. *)
Definition entered (h : Handler) : Handler :=
  set_requestline (Py.rstrip_chars Py.CRLF (raw_requestline h))
    (set_close_connection true
       (set_request_version default_request_version (set_command None h))).


(** The sentence of the specification on the version token, read on one
    handler: whenever the last of three words is [HTTP/<M>.<N>] with [M]
    and [N] strings of digits, the numbers decide, 505 from [(2, 0)] on
    and the token taken as the request version below. *)
Definition version_by_number (h : Handler) : Prop :=
  forall cmd path M N,
    Py.split (Py.rstrip_chars Py.CRLF (raw_requestline h))
    = [cmd; path; "HTTP/" ++ M ++ "." ++ N] ->
    digits M = true -> digits N = true ->
    (lex_le (2, 0) (decimal M, decimal N) ->
     log (snd (parse_request h))
     = append (log h)
         (LogError HTTPStatus.HTTP_VERSION_NOT_SUPPORTED
            (Plain ("Invalid HTTP version (" ++ (M ++ "." ++ N) ++ ")"))))
    /\ (~ lex_le (2, 0) (decimal M, decimal N) ->
        request_version (snd (parse_request h)) = "HTTP/" ++ M ++ "." ++ N).

(** The minor number of HTTP/1.0 written with 4301 zeros. *)
Definition long_zero : string := N.iter 4301 (String "0") "".

Definition request_long_version : Handler :=
  set_raw_requestline ("GET / HTTP/1." ++ long_zero ++ Py.CRLF)
    (fresh "HTTP/1.1" "").

End RequestLineTerms.

Section KeepAliveTerms.

Import HttpServer.

(** The disposition that the request line alone gives: the connection is
    kept when the request version is at least [(1, 1)] and the server's
    [protocol_version] is at least ["HTTP/1.1"]. *)
Definition default_close (h : Handler) : bool :=
  match parse_version (request_version h) with
  | Some (_, v) =>
      negb (Py.tuple_ge v (1, 1) && Py.str_ge (protocol_version h) "HTTP/1.1")
  | None => true
  end.

(** The sentence of the specification on [Connection: keep-alive], read
    on one handler: when the request version is at least [(1, 1)], the
    header turns [close_connection] off. *)
Definition keep_alive_by_request_version (h : Handler) : Prop :=
  forall h' msg b v,
    parse_request h = (Ok true, h') ->
    headers h' = Some msg ->
    Py.lower (HttpClient.get msg "Connection" "") = "keep-alive" ->
    parse_version (request_version h') = Some (b, v) ->
    lex_le (1, 1) v ->
    close_connection h' = false.

(** An HTTP/1.1 request with [Connection: keep-alive] to a server whose
    [protocol_version] is the default ["HTTP/1.0"]. *)
Definition keep_alive_request : Handler :=
  set_raw_requestline ("GET / HTTP/1.1" ++ Py.CRLF)
    (fresh "HTTP/1.0" ("Connection: keep-alive" ++ Py.CRLF ++ Py.CRLF)).

End KeepAliveTerms.

Section ErrorRepliesTerms.

Import HttpServer.

(** A client that sends an HTTP/2.0 request line, then a second request,
    to a server whose handler speaks HTTP/1.1. *)
Definition http2_then_next : Handler :=
  fresh "HTTP/1.1"
    ("GET / HTTP/2.0" ++ Py.CRLF
     ++ "GET /next HTTP/1.0" ++ Py.CRLF ++ Py.CRLF).

(** An application that answers five bytes and declares their length. *)
Definition hello_app : Serving.WSGIApplication :=
  Serving.Application
    [Serving.StartResponse "200 OK" [("Content-Length", "5")] None]
    [Serving.Yield "Hello"].

End ErrorRepliesTerms.

Section ExpectationTerms.

Import HttpServer.

(** An HTTP/1.1 request that expects [100-continue], at a server whose
    [protocol_version] is ["HTTP/1.1"]. *)
Definition expecting_request : Handler :=
  set_raw_requestline ("PUT /upload HTTP/1.1" ++ Py.CRLF)
    (fresh "HTTP/1.1"
       ("Host: x" ++ Py.CRLF ++ "Expect: 100-continue" ++ Py.CRLF
        ++ "Content-Length: 3" ++ Py.CRLF ++ Py.CRLF ++ "abc")).

(** The same request made with HTTP/1.0. *)
Definition expecting_request_1_0 : Handler :=
  set_raw_requestline ("PUT /upload HTTP/1.0" ++ Py.CRLF)
    (fresh "HTTP/1.1"
       ("Host: x" ++ Py.CRLF ++ "Expect: 100-continue" ++ Py.CRLF
        ++ "Content-Length: 3" ++ Py.CRLF ++ Py.CRLF ++ "abc")).

End ExpectationTerms.

Section FramingTerms.

Import HttpServer Serving.

(** A request for [/] over HTTP/1.1 at a server whose [protocol_version]
    is ["HTTP/1.1"]. *)
Definition plain_get : Handler :=
  fresh "HTTP/1.1" ("GET / HTTP/1.1" ++ Py.CRLF ++ "Host: x" ++ Py.CRLF
                    ++ Py.CRLF).

(** It answers 200 without [Content-Length] and yields two chunks. *)
Definition two_chunks_app : WSGIApplication :=
  Application
    [StartResponse "200 OK" [("Content-Type", "text/plain")] None]
    [Yield "Hello, "; Yield "World!"].

End FramingTerms.

Section StartResponseTerms.

Import HttpServer.

(** An application that opens the response twice with an empty header
    list. *)
Definition restarting_app : list Serving.app_op :=
  [Serving.StartResponse "200 OK" [] None;
   Serving.StartResponse "404 Not Found" [] None].

(** An application that opens the response with an empty header list,
    writes, and then reports an error through [exc_info]. *)
Definition late_error_app : list Serving.app_op :=
  [Serving.StartResponse "204 No Content" [] None;
   Serving.WriteCall "";
   Serving.StartResponse "500 Internal Server Error" []
     (Some (AppError "boom"))].

(** The handler after it has parsed a request for [/]. *)
Definition parsed_get : Handler := snd (parse_request
  (set_raw_requestline ("GET / HTTP/1.1" ++ Py.CRLF)
     (fresh "HTTP/1.1" ("Host: x" ++ Py.CRLF ++ Py.CRLF)))).

End StartResponseTerms.

Section ConnectionCloseTerms.

Import HttpServer Serving.

(** [inv I m]: [m] maintains [I], whether it returns or raises. *)
Definition inv {S A} (I : S -> Prop) (m : M S A) : Prop :=
  forall s, I s -> I (snd (m s)).

(** A header block in which [Connection: close] is the last header. *)
Definition closes (block : string) : Prop :=
  exists pre,
    block = pre ++ Py.CRLF ++ "Connection: close" ++ Py.CRLF ++ Py.CRLF.

(** The header blocks among the writes [ws], in order. *)
Definition header_blocks (ws : list wire_write) : list string :=
  flat_map (fun w => match w with
                     | HeaderBlock b => [b]
                     | Written _ => []
                     end) ws.

(** The last line in the buffer ends in CR LF (when there is a buffer to
    speak of, that is, the request is not HTTP/0.9). *)
Definition line_ended (h : Handler) : Prop :=
  request_version h <> "HTTP/0.9" ->
  exists b x, _headers_buffer h = Some (append b (x ++ Py.CRLF)).

(** [ensures P m]: [P] holds after [m], however it ends. *)
Definition ensures {S A} (P : S -> Prop) (m : M S A) : Prop :=
  forall s, P (snd (m s)).

Section RunTerms.

Variable w0 : list wire_write.

(** What holds of the closure all along one run that was entered with
    [w0] written: the writes extend [w0]; no header block has been
    written while [status_sent] is [None]; every header block written
    closes; and once one is written [close_connection] is on. *)
Definition run_inv (f : Frame) : Prop :=
  exists new,
    wfile (self f) = (w0 ++ new)%list
    /\ (status_sent f = None -> header_blocks new = [])
    /\ Forall closes (header_blocks new)
    /\ (header_blocks new <> [] -> close_connection (self f) = true).

(** Methods of the handler that write nothing and do not turn
    [close_connection] off. *)
Definition quiet {A} (m : M Handler A) : Prop :=
  forall h,
    wfile (snd (m h)) = wfile h
    /\ (close_connection h = true -> close_connection (snd (m h)) = true).

End RunTerms.

End ConnectionCloseTerms.

Section HeaderBlockTerms.

Import HttpClient.

(** A line of the stream is a body without LF, then LF. *)
Definition no_lf (body : string) : bool :=
  all_chars (fun c => negb (Ascii.eqb c Py.LF)) body.

(** The line with the body [body]. *)
Definition line (body : string) : string := body ++ String Py.LF "".

(** The line fits the limit of [_MAXLINE] bytes. *)
Definition fits (body : string) : Prop := Py.len (line body) <= _MAXLINE.

(** The line ends the block: it is LF alone or CR LF. *)
Definition ends_block (body : string) : Prop :=
  body = "" \/ body = String Py.CR "".






(** [n] fields, the blank line and a payload. *)
Definition many_fields (n : N) : string :=
  N.iter n (String.append ("X-Pad: 1" ++ Py.CRLF)) (Py.CRLF ++ "payload").

End HeaderBlockTerms.

Section TerminationTerms.

Import HttpServer.

(** At most [n] bytes are left unread on the connection. *)
Definition unread_at_most (n : nat) (h : Handler) : Prop :=
  (String.length (rfile h) <= n)%nat.

(** A [do_*] method that ends and reads only forward. *)
Definition well_behaved (method : M Handler unit) : Prop :=
  finishes method /\ forall n, inv (unread_at_most n) method.

End TerminationTerms.

(** ** Terms of the further properties *)

Section HeadersTerms.

(** Whether some keyword argument carries a value that is not empty. *)
Definition valued (_param : list (string * option string)) : bool :=
  existsb (fun kv => match snd kv with
                     | Some v => Py.nonempty_str v
                     | None => false
                     end) _param.

End HeadersTerms.

Section MessageTerms.

(** No colon occurs in [s]. *)
Definition no_colon (s : string) : bool :=
  all_chars (fun c => negb (Ascii.eqb c ":")) s.

End MessageTerms.

Section ReadHeadersTerms.

Import HttpClient.

(** The lines [hs] are a header block taken from the front of [fp], and
    [rest] is what the stream keeps: nothing is lost or added, every line
    is within [_MAXLINE] bytes, the lines are [_MAXHEADERS] at most, and
    the last one, and no earlier one, is a terminator. *)
Definition block_of (fp : string) (hs : list string) (rest : string) : Prop :=
  Py.join hs ++ rest = fp
  /\ Z.of_nat (List.length hs) <= _MAXHEADERS
  /\ Forall (fun l => Py.len l <= _MAXLINE) hs
  /\ exists front last,
      hs = (front ++ [last])%list
      /\ is_terminator last = true
      /\ Forall (fun l => is_terminator l = false) front.

End ReadHeadersTerms.

Section LogTerms.

Import HttpServer.

(** The value of a hexadecimal digit as [hex_digit] writes it. *)
Definition hex_val (c : ascii) : Z :=
  if Py.isdigit c then Py.ord c - 48 else Py.ord c - 87.

(** Reading an escaped message back: a doubled backslash is a backslash,
    a backslash followed by [x] and two digits is the character of that
    code. *)
Fixpoint unescape (s : string) : string :=
  match s with
  | EmptyString => EmptyString
  | String c s1 =>
      if Ascii.eqb c "\" then
        match s1 with
        | String d s2 =>
            if Ascii.eqb d "\" then String "\" (unescape s2)
            else
              match s2 with
              | String h (String l s4) =>
                  String (Py.chr (16 * hex_val h + hex_val l)) (unescape s4)
              | _ => EmptyString
              end
        | EmptyString => EmptyString
        end
      else String c (unescape s1)
  end.

End LogTerms.

Section ResponseTerms.

Import HttpServer Serving.










(** A request for the target [//[], as it arrives and after
    [parse_request] has accepted it. *)
Definition bracket_request : Handler :=
  fresh "HTTP/1.0"
    ("GET //[ HTTP/1.0" ++ Py.CRLF ++ "Host: x" ++ Py.CRLF ++ Py.CRLF).

Definition bracket_get : Handler :=
  snd (parse_request
         (set_raw_requestline ("GET //[ HTTP/1.0" ++ Py.CRLF)
            (fresh "HTTP/1.0" ("Host: x" ++ Py.CRLF ++ Py.CRLF)))).

(** What [run_wsgi] writes before it calls the application. *)
Definition interim_writes (msg : HttpClient.HTTPMessage) : list wire_write :=
  if String.eqb (Py.strip (Py.lower (HttpClient.get msg "Expect" "")))
       "100-continue"
  then [Written (" HTTP/1.1 100 Continue" ++ Py.CRLF ++ Py.CRLF)]
  else [].

End ResponseTerms.

Section RequestLimitsTerms.

Import HttpClient HttpServer.

(** A request line of 65537 bytes and more: 65536 bytes without LF,
    then whatever follows. *)
Definition long_request : Handler :=
  fresh "HTTP/1.0" (N.iter 65536 (String "a") "" ++ String "b" "rest").

(** [GET / HTTP/1.1] read from a stream whose first header line is too
    long. *)
Definition long_header_request : Handler :=
  set_raw_requestline ("GET / HTTP/1.1" ++ Py.CRLF)
    (fresh "HTTP/1.0"
       (Py.join (map line [])
        ++ line (N.iter 65536 (String "a") "") ++ "rest")).

(** The handler after [parse_request] has taken the version [tok] from
    the request line: the connection is kept when both sides speak
    HTTP/1.1 or later. *)
Definition negotiated (tok : string) (v : Z * Z) (h : Handler) : Handler :=
  set_request_version tok
    (if Py.tuple_ge v (1, 1) && Py.str_ge (protocol_version h) "HTTP/1.1"
     then set_close_connection false h else h).

End RequestLimitsTerms.

Section EnvironTerms.

Import Serving.

(** [CONTENT_TYPE] and [CONTENT_LENGTH], the keys that get no prefix. *)
Definition content_key (key : string) : bool :=
  String.eqb key "CONTENT_TYPE" || String.eqb key "CONTENT_LENGTH".

(** The key under which [make_environ] files the header [name]. *)
Definition cgi_key (name : string) : string :=
  let key := Py.replace "-" "_" (Py.upper name) in
  if content_key key then key else "HTTP_" ++ key.

(** The header is passed on: its name holds no underscore. *)
Definition passed (kv : string * string) : bool :=
  negb (Py.in_chars (fst kv) "_").

(** The values of the headers filed under [key], in the order of the
    request and as they are stored. *)
Definition filed (items : list (string * string)) (key : string)
  : list string :=
  map (fun kv => Py.replace Py.CRLF "" (snd kv))
    (filter (fun kv => passed kv && String.eqb (cgi_key (fst kv)) key) items).

(** What a key holds after values have been filed under it: the last
    one for [CONTENT_TYPE] and [CONTENT_LENGTH], otherwise all of them
    after what the key held before, separated by commas. *)
Definition filed_value (key : string) (before : option env_value)
    (vals : list string) : option env_value :=
  match vals with
  | [] => before
  | v :: vs =>
      Some (Str (if content_key key then List.last vs v
                 else Py.join_sep ","
                        (List.app match before with
                                  | Some old => [format_value old]
                                  | None => []
                                  end (v :: vs))))
  end.

End EnvironTerms.

Section BaseRunTerms.

Import Serving WsgiHandlers.






End BaseRunTerms.

Section OneHeadTerms.

Import HttpServer Serving.

(** What holds of the closure all along one run that was entered with
    [w0] written: chunking is off; the writes extend [w0]; nothing has
    been written while [status_sent] is [None]; and one header block at
    most has been written. *)
Definition head_inv (w0 : list wire_write) (f : Frame) : Prop :=
  chunk_response f = false
  /\ exists new,
      wfile (self f) = (w0 ++ new)%list
      /\ (status_sent f = None -> new = [])
      /\ (List.length (header_blocks new) <= 1)%nat.

End OneHeadTerms.

(* ================================================================== *)
(** * Properties *)
(* ================================================================== *)

(** ** Header assignment in [mywsgiref/headers.py] *)

Section HeadersFacts.

Import WsgiHeaders.

Lemma filter_app_one {A} (p : A -> bool) (l : list A) (x : A) :
  filter p (append l x) = (filter p l ++ if p x then [x] else [])%list.
Proof.
  unfold append. rewrite filter_app. reflexivity.
Qed.

Lemma filter_twice {A} (p : A -> bool) (l : list A) :
  filter p (filter p l) = filter p l.
Proof.
  induction l as [|a l IH]; simpl; [reflexivity|].
  destruct (p a) eqn:E; simpl; rewrite ?E, IH; reflexivity.
Qed.

Lemma filter_none {A} (p : A -> bool) (l : list A) :
  filter p (filter (fun a => negb (p a)) l) = [].
Proof.
  induction l as [|a l IH]; simpl; [reflexivity|].
  destruct (p a) eqn:E; simpl; rewrite ?E; exact IH.
Qed.

(** C10.  After [h[n] = v], [get_all(n)] is the list [[v]]; the pairs
    whose name differs from [n] when case is ignored are the same, in the
    same order, as before; and [(n, v)] is the last pair. *)
Theorem setitem_then_get_all (h : Headers) (n v : string) :
  get_all (__setitem__ h n v) n = [v]
  /\ filter (fun kv => negb (same_name (fst kv) n)) (__setitem__ h n v)
     = filter (fun kv => negb (same_name (fst kv) n)) h
  /\ (forall kv, In kv h -> same_name (fst kv) n = false ->
      In kv (__setitem__ h n v))
  /\ exists front, __setitem__ h n v = (front ++ [(n, v)])%list.
Proof.
  unfold __setitem__, __delitem__, get_all, same_name.
  repeat split.
  - rewrite filter_app_one. simpl. rewrite String.eqb_refl.
    rewrite (filter_none (fun kv => String.eqb (Py.lower (fst kv)) (Py.lower n))).
    reflexivity.
  - rewrite filter_app_one. simpl. rewrite String.eqb_refl. simpl.
    rewrite app_nil_r. apply filter_twice.
  - intros kv Hin Hne. unfold append. apply in_or_app. left.
    apply filter_In. split; [assumption|]. rewrite Hne. reflexivity.
  - eexists. reflexivity.
Qed.

End HeadersFacts.

(** ** Facts on the runtime primitives *)

Section PyFacts.

Lemma all_chars_app p a b :
  all_chars p (a ++ b) = all_chars p a && all_chars p b.
Proof.
  induction a as [|c a IH]; simpl; [reflexivity|].
  rewrite IH. apply andb_assoc.
Qed.


Lemma digit_val_range c :
  Py.isdigit c = true -> 0 <= Py.digit_val c <= 9.
Proof.
  unfold Py.isdigit, Py.between, Py.digit_val. intros H.
  apply andb_prop in H. destruct H as [H1 H2].
  apply Z.leb_le in H1. apply Z.leb_le in H2. lia.
Qed.

Lemma decimal_from_nonneg s : forall acc,
  all_chars Py.isdigit s = true -> 0 <= acc -> 0 <= decimal_from acc s.
Proof.
  induction s as [|c s IH]; cbn [decimal_from all_chars];
    intros acc H Hacc; [assumption|].
  apply andb_prop in H. destruct H as [Hc Hs].
  apply IH; [assumption|]. pose proof (digit_val_range c Hc). lia.
Qed.

Lemma decimal_from_mono s : forall a b,
  all_chars Py.isdigit s = true -> a <= b ->
  decimal_from a s <= decimal_from b s.
Proof.
  induction s as [|c s IH]; cbn [decimal_from all_chars];
    intros a b H Hab; [assumption|].
  apply andb_prop in H. destruct H as [_ Hs]. apply IH; [assumption|lia].
Qed.

(** Leading zeros do not count. *)
Lemma decimal_leading_zero s : decimal (String "0" s) = decimal s.
Proof. reflexivity. Qed.








Lemma split_on_nonempty sep s : Py.split_on sep s <> [].
Proof.
  destruct s as [|c s]; simpl; [discriminate|].
  destruct (Ascii.eqb c sep); [discriminate|].
  destruct (Py.split_on sep s); discriminate.
Qed.





End PyFacts.

(** ** Reasoning on methods *)

Section MonadFacts.

Context {S : Type}.

Lemma keeps_ret {A B} (f : S -> B) (a : A) : keeps f (ret a).
Proof. intros s. reflexivity. Qed.

Lemma keeps_raise {A B} (f : S -> B) e : keeps f (@raise S A e).
Proof. intros s. reflexivity. Qed.

Lemma keeps_this {B} (f : S -> B) : keeps f this.
Proof. intros s. reflexivity. Qed.

Lemma keeps_modify {B} (f : S -> B) (g : S -> S) :
  (forall s, f (g s) = f s) -> keeps f (modify g).
Proof. intros H s. apply H. Qed.

Lemma keeps_bind {A C B} (f : S -> B) (m : M S A) (k : A -> M S C) :
  keeps f m -> (forall a, keeps f (k a)) -> keeps f (bind m k).
Proof.
  intros Hm Hk s. unfold bind. specialize (Hm s).
  destruct (m s) as [[a|e|] s']; simpl in *; [|assumption|assumption].
  rewrite (Hk a s'). assumption.
Qed.

Lemma keeps_when {B} (f : S -> B) (b : bool) (m : M S unit) :
  keeps f m -> keeps f (when b m).
Proof. intros H. destruct b; [assumption|apply keeps_ret]. Qed.

Lemma keeps_try_except {A B} (f : S -> B) (m : M S A) (h : exn -> M S A) :
  keeps f m -> (forall e, keeps f (h e)) -> keeps f (try_except m h).
Proof.
  intros Hm Hh s. unfold try_except. specialize (Hm s).
  destruct (m s) as [[a|e|] s']; simpl in *; [assumption| |assumption].
  rewrite (Hh e s'). assumption.
Qed.

Lemma keeps_try_finally {A B} (f : S -> B) (m : M S A) (fin : M S unit) :
  keeps f m -> keeps f fin -> keeps f (try_finally m fin).
Proof.
  intros Hm Hf s. unfold try_finally. specialize (Hm s).
  destruct (m s) as [[a|e|] s']; simpl in *; [| |assumption];
    specialize (Hf s'); destruct (fin s') as [[u|e'|] s''];
    simpl in *; congruence.
Qed.

Lemma total_ret {A} (a : A) : total (S := S) (ret a).
Proof. intros s. eexists. eexists. reflexivity. Qed.

Lemma total_this : total (S := S) this.
Proof. intros s. eexists. eexists. reflexivity. Qed.

Lemma total_modify (g : S -> S) : total (modify g).
Proof. intros s. eexists. eexists. reflexivity. Qed.

Lemma total_bind {A C} (m : M S A) (k : A -> M S C) :
  total m -> (forall a, total (k a)) -> total (bind m k).
Proof.
  intros Hm Hk s. unfold bind. destruct (Hm s) as (a & s' & ->).
  apply Hk.
Qed.

Lemma total_when (b : bool) (m : M S unit) : total m -> total (when b m).
Proof. intros H. destruct b; [assumption|apply total_ret]. Qed.

End MonadFacts.

Ltac keeps_step :=
  first
    [ apply keeps_ret | apply keeps_raise | apply keeps_this
    | apply keeps_bind; [|intros ?] | apply keeps_when
    | apply keeps_try_except; [|intros ?]
    | apply keeps_try_finally
    | apply keeps_modify; intros ?; reflexivity
    | match goal with
      | |- keeps _ (if ?b then _ else _) => destruct b
      | |- keeps _ (match ?x with _ => _ end) => destruct x
      | |- keeps _ (let '(_, _) := ?x in _) => destruct x
      end ].

Ltac keeps_auto := repeat keeps_step.

Ltac total_step :=
  first
    [ apply total_ret | apply total_this | apply total_modify
    | apply total_bind; [|intros ?] | apply total_when
    | match goal with
      | |- total (if ?b then _ else _) => destruct b
      | |- total (match ?x with _ => _ end) => destruct x
      end ].

(** ** Request line and version negotiation *)

Section RequestLineFacts.

Import HttpServer.








Lemma parse_request_entered h :
  parse_request h =
  parse_words (Py.rstrip_chars Py.CRLF (raw_requestline h))
    (Py.split (Py.rstrip_chars Py.CRLF (raw_requestline h))) (entered h).
Proof. reflexivity. Qed.

(** [parse_request] on a request line of three words. *)
Lemma parse_request_three_words h cmd path tok :
  Py.split (Py.rstrip_chars Py.CRLF (raw_requestline h)) = [cmd; path; tok] ->
  parse_request h =
  match negotiate_version [cmd; path; tok] (entered h) with
  | (Ok true, h2) =>
      examine_headers (set_path (Some path) (set_command (Some cmd) h2))
  | (Ok false, h2) => (Ok false, h2)
  | (Raise e, h2) => (Raise e, h2)
  | (OutOfFuel, h2) => (OutOfFuel, h2)
  end.
Proof.
  intros Hs. rewrite parse_request_entered, Hs.
  unfold parse_words. cbn [List.length Nat.eqb Nat.leb negb andb nth].
  unfold bind at 1.
  destruct (negotiate_version [cmd; path; tok] (entered h)) as [[[|]|e|] h2];
    reflexivity.
Qed.

Lemma send_error_log code message explain h :
  send_error code message explain h
  = (Ok tt,
     set_log (append (log h)
                (LogError code
                   match message with
                   | Some m => m
                   | None => Plain match responses code with
                                   | Some p => fst p
                                   | None => "???"
                                   end
                   end)) h).
Proof.
  unfold send_error. destruct (responses code) as [[a b]|];
    destruct message; reflexivity.
Qed.




End RequestLineFacts.

Section RequestVersion.

Import HttpServer.

Lemma negotiate_version_parsed cmd path tok base v h :
  parse_version tok = Some (base, v) ->
  negotiate_version [cmd; path; tok] h =
  let h1 := if Py.tuple_ge v (1, 1) && Py.str_ge (protocol_version h) "HTTP/1.1"
            then set_close_connection false h else h in
  if Py.tuple_ge v (2, 0) then
    (Ok false,
     set_log (append (log h1)
                (LogError 505 (Plain ("Invalid HTTP version (" ++ base ++ ")"))))
       h1)
  else (Ok true, set_request_version tok h1).
Proof.
  intros Hp. unfold negotiate_version. cbn [List.last]. rewrite Hp.
  unfold bind, this, when, modify, ret.
  destruct (Py.tuple_ge v (1, 1) && Py.str_ge (protocol_version h) "HTTP/1.1");
    cbn iota beta; destruct (Py.tuple_ge v (2, 0)); cbn iota beta;
    rewrite ?send_error_log; reflexivity.
Qed.

Lemma negotiate_version_refused cmd path tok h :
  parse_version tok = None ->
  negotiate_version [cmd; path; tok] h =
  (Ok false,
   set_log (append (log h)
              (LogError 400 (Repr "Bad request version (%r)" tok))) h).
Proof.
  intros Hp. unfold negotiate_version. cbn [List.last]. rewrite Hp.
  unfold bind. rewrite send_error_log. reflexivity.
Qed.



(** C3 as stated fails: the request above asks for version 1.0, below
    [(2, 0)], and its token does not become the request version: the
    request is refused with 400. *)
Lemma version_digits_beyond_limit :
  ~ version_by_number request_long_version.
Proof.
  intros C.
  destruct (C "GET" "/" "1" long_zero) as [_ F].
  - vm_compute. reflexivity.
  - reflexivity.
  - vm_compute. reflexivity.
  - assert (V : request_version (snd (parse_request request_long_version))
                = "HTTP/" ++ "1" ++ "." ++ long_zero).
    { apply F. unfold lex_le. cbn [fst snd].
      change (decimal "1") with 1. lia. }
    vm_compute in V. discriminate V.
Qed.

(** The order is that of the numbers, not of the text: [HTTP/2.2] is
    below [HTTP/10.0] although its text is above. *)
Example version_order_numeric :
  (parse_version "HTTP/2.2" = Some ("2.2", (2, 2))
   /\ parse_version "HTTP/10.0" = Some ("10.0", (10, 0))
   /\ parse_version "HTTP/01.10" = Some ("01.10", (1, 10)))
  /\ Py.tuple_ge (10, 0) (2, 2) = true
  /\ Py.tuple_ge (2, 2) (10, 0) = false
  /\ Py.str_ge "HTTP/2.2" "HTTP/10.0" = true.
Proof. repeat split; reflexivity. Qed.

End RequestVersion.

(** ** Keep-alive *)

Section KeepAlive.

Import HttpServer.

Lemma handle_expect_100_keeps {B} (f : Handler -> B) :
  (forall v h, f (set__headers_buffer v h) = f h) ->
  (forall v h, f (set_wfile v h) = f h) ->
  keeps f handle_expect_100.
Proof.
  intros H1 H2.
  unfold handle_expect_100, end_headers, flush_headers, send_response_only.
  repeat first
    [ apply keeps_ret | apply keeps_raise | apply keeps_this
    | apply keeps_bind; [|intros ?]
    | apply keeps_modify; intros ?; first [apply H1 | apply H2]
    | match goal with
      | |- keeps _ (if ?b then _ else _) => destruct b
      | |- keeps _ (match ?x with _ => _ end) => destruct x
      end ].
Qed.

Lemma load_headers_result h r h' :
  load_headers h = (Ok r, h') ->
  match r with
  | Some msg =>
      headers h' = Some msg
      /\ request_version h' = request_version h
      /\ protocol_version h' = protocol_version h
      /\ close_connection h' = close_connection h
  | None => True
  end.
Proof.
  unfold load_headers, try_except, bind at 1, read_header_block.
  destruct (HttpClient.parse_headers (rfile h)) as [[msg|e|] fp].
  - cbn. intros [= <- <-]. repeat split.
  - destruct e; unfold bind; rewrite ?send_error_log; cbn;
      intros H; try discriminate H; injection H as <- <-; exact I.
  - discriminate.
Qed.

Lemma connection_directive_result msg h :
  connection_directive msg h =
  (Ok tt,
   let conntype := Py.lower (HttpClient.get msg "Connection" "") in
   if String.eqb conntype "close" then set_close_connection true h
   else if String.eqb conntype "keep-alive"
           && Py.str_ge (protocol_version h) "HTTP/1.1"
        then set_close_connection false h
        else h).
Proof.
  unfold connection_directive, bind, this. cbn zeta.
  destruct (String.eqb _ "close"); [reflexivity|].
  destruct (String.eqb _ "keep-alive" && _); reflexivity.
Qed.

Lemma expect_directive_keeps {B} (f : Handler -> B) :
  (forall v h, f (set__headers_buffer v h) = f h) ->
  (forall v h, f (set_wfile v h) = f h) ->
  forall msg, keeps f (expect_directive msg).
Proof.
  intros H1 H2 msg. unfold expect_directive.
  apply keeps_bind; [apply keeps_this|]. intros h.
  destruct (_ && _ && _); [|apply keeps_ret].
  apply keeps_bind; [apply handle_expect_100_keeps; assumption|].
  intros []; apply keeps_ret.
Qed.

(** What [examine_headers] decides when it succeeds. *)
Lemma examine_headers_success h h' :
  examine_headers h = (Ok true, h') ->
  exists msg,
    headers h' = Some msg
    /\ request_version h' = request_version h
    /\ protocol_version h' = protocol_version h
    /\ close_connection h' =
       let conntype := Py.lower (HttpClient.get msg "Connection" "") in
       if String.eqb conntype "close" then true
       else if String.eqb conntype "keep-alive"
               && Py.str_ge (protocol_version h) "HTTP/1.1" then false
       else close_connection h.
Proof.
  unfold examine_headers, bind at 1.
  destruct (load_headers h) as [[r|e|] h1] eqn:E1;
    [|discriminate|discriminate].
  apply load_headers_result in E1.
  destruct r as [msg|]; [|discriminate].
  destruct E1 as (Ph & Pv & Pp & Pc).
  unfold bind. rewrite connection_directive_result. cbn zeta.
  set (h2 := if String.eqb _ "close" then _ else _).
  intros E3. exists msg.
  pose proof (expect_directive_keeps headers
                (fun _ _ => eq_refl) (fun _ _ => eq_refl) msg h2) as K1.
  pose proof (expect_directive_keeps request_version
                (fun _ _ => eq_refl) (fun _ _ => eq_refl) msg h2) as K2.
  pose proof (expect_directive_keeps protocol_version
                (fun _ _ => eq_refl) (fun _ _ => eq_refl) msg h2) as K3.
  pose proof (expect_directive_keeps close_connection
                (fun _ _ => eq_refl) (fun _ _ => eq_refl) msg h2) as K4.
  rewrite E3 in K1, K2, K3, K4. cbn [snd] in K1, K2, K3, K4.
  rewrite K1, K2, K3, K4. subst h2. rewrite Pp.
  destruct (String.eqb _ "close"); [repeat split; simpl; congruence|].
  destruct (String.eqb (Py.lower (HttpClient.get msg "Connection" ""))
              "keep-alive" && Py.str_ge (protocol_version h) "HTTP/1.1");
    repeat split; simpl; congruence.
Qed.

Lemma parse_request_legacy_get h path :
  Py.split (Py.rstrip_chars Py.CRLF (raw_requestline h)) = ["GET"; path] ->
  parse_request h =
  examine_headers
    (set_path (Some path)
       (set_command (Some "GET") (set_close_connection true (entered h)))).
Proof.
  intros Hs. rewrite parse_request_entered, Hs. reflexivity.
Qed.

Lemma parse_request_legacy_other h cmd path :
  Py.split (Py.rstrip_chars Py.CRLF (raw_requestline h)) = [cmd; path] ->
  String.eqb cmd "GET" = false ->
  parse_request h =
  (Ok false,
   set_log (append (log h)
              (LogError 400 (Repr "Bad HTTP/0.9 request type (%r)" cmd)))
     (set_close_connection true (entered h))).
Proof.
  intros Hs Hc. rewrite parse_request_entered, Hs.
  unfold parse_words. cbn [List.length Nat.eqb Nat.leb negb andb nth].
  unfold bind, modify, ret. rewrite Hc. cbn [negb].
  rewrite send_error_log. reflexivity.
Qed.

Lemma negotiate_version_returns words h :
  exists b h', negotiate_version words h = (Ok b, h').
Proof.
  unfold negotiate_version.
  destruct (parse_version (last words "")) as [[base v]|].
  - unfold bind, this, when, modify, ret.
    destruct (Py.tuple_ge v (1, 1) && Py.str_ge (protocol_version h) "HTTP/1.1");
      cbn iota beta; destruct (Py.tuple_ge v (2, 0)); cbn iota beta;
      rewrite ?send_error_log; cbn iota beta; eexists; eexists; reflexivity.
  - unfold bind. rewrite send_error_log. eexists; eexists; reflexivity.
Qed.

(** A request line that [parse_request] accepts has two or three words. *)
Lemma parse_request_success_words h h' :
  parse_request h = (Ok true, h') ->
  (exists cmd path,
      Py.split (Py.rstrip_chars Py.CRLF (raw_requestline h)) = [cmd; path])
  \/ (exists cmd path tok,
      Py.split (Py.rstrip_chars Py.CRLF (raw_requestline h))
      = [cmd; path; tok]).
Proof.
  destruct (Py.split (Py.rstrip_chars Py.CRLF (raw_requestline h)))
    as [|w1 [|w2 [|w3 [|w4 ws]]]] eqn:Hs; intros H.
  - exfalso. revert H. rewrite parse_request_entered, Hs. discriminate.
  - exfalso. revert H. rewrite parse_request_entered, Hs.
    unfold parse_words. cbn [List.length Nat.eqb Nat.leb negb andb nth].
    unfold bind, ret. cbn beta iota. cbn [negb].
    rewrite send_error_log. discriminate.
  - left. eauto.
  - right. eauto.
  - exfalso. revert H. rewrite parse_request_entered, Hs.
    unfold parse_words. cbn [List.length Nat.eqb Nat.leb negb andb nth].
    unfold bind at 1.
    match goal with
    | |- context [negotiate_version ?w ?s] =>
        destruct (negotiate_version_returns w s) as (b & h2 & ->)
    end.
    destruct b; cbn [negb]; [|discriminate].
    unfold bind, ret. cbn beta iota. rewrite send_error_log. discriminate.
Qed.

Lemma default_close_legacy h :
  request_version h = "HTTP/0.9" -> default_close h = true.
Proof.
  intros E. unfold default_close. rewrite E.
  replace (parse_version "HTTP/0.9") with (Some ("0.9", (0, 9)))
    by (vm_compute; reflexivity).
  reflexivity.
Qed.

(** C5, as the code has it.  After [parse_request] has succeeded,
    [close_connection] is true when the [Connection] header says [close];
    otherwise it is false when the header says [keep-alive] and the
    server's [protocol_version] is at least ["HTTP/1.1"], whatever the
    version of the request; otherwise it is the default: false exactly
    when the request version is at least [(1, 1)] and [protocol_version]
    is at least ["HTTP/1.1"]. *)
Theorem parse_request_close_connection (h h' : Handler) :
  parse_request h = (Ok true, h') ->
  exists msg,
    headers h' = Some msg
    /\ close_connection h' =
       let conntype := Py.lower (HttpClient.get msg "Connection" "") in
       if String.eqb conntype "close" then true
       else if String.eqb conntype "keep-alive"
               && Py.str_ge (protocol_version h') "HTTP/1.1" then false
       else default_close h'.
Proof.
  intros H.
  destruct (parse_request_success_words h h' H)
    as [(cmd & path & Hs)|(cmd & path & tok & Hs)].
  - destruct (String.eqb cmd "GET") eqn:Hc.
    2:{ rewrite (parse_request_legacy_other h cmd path Hs Hc) in H.
        discriminate H. }
    apply String.eqb_eq in Hc. subst cmd.
    rewrite (parse_request_legacy_get h path Hs) in H.
    apply examine_headers_success in H.
    destruct H as (msg & Ph & Pv & Pp & Pc).
    exists msg. split; [assumption|].
    rewrite Pc, (default_close_legacy h' Pv), Pp. reflexivity.
  - rewrite (parse_request_three_words h cmd path tok Hs) in H.
    destruct (parse_version tok) as [[base v]|] eqn:Hp.
    + rewrite (negotiate_version_parsed _ _ _ _ _ _ Hp) in H. cbn zeta in H.
      destruct (Py.tuple_ge v (2, 0)); [discriminate H|].
      apply examine_headers_success in H.
      destruct H as (msg & Ph & Pv & Pp & Pc).
      exists msg. split; [assumption|].
      rewrite Pc. unfold default_close. rewrite Pv, Pp.
      change (protocol_version (entered h)) with (protocol_version h).
      destruct (Py.tuple_ge v (1, 1) && Py.str_ge (protocol_version h) "HTTP/1.1")
        eqn:E; simpl; rewrite Hp, E; reflexivity.
    + rewrite (negotiate_version_refused _ _ _ _ Hp) in H. discriminate H.
Qed.

Lemma parse_request_close_connection_witness :
  exists msg,
    headers (snd (parse_request keep_alive_request)) = Some msg
    /\ close_connection (snd (parse_request keep_alive_request)) =
       let conntype := Py.lower (HttpClient.get msg "Connection" "") in
       if String.eqb conntype "close" then true
       else if String.eqb conntype "keep-alive"
               && Py.str_ge
                    (protocol_version (snd (parse_request keep_alive_request)))
                    "HTTP/1.1" then false
       else default_close (snd (parse_request keep_alive_request)).
Proof.
  apply (parse_request_close_connection keep_alive_request).
  vm_compute. reflexivity.
Defined.

(** C5 as stated fails: the request above is HTTP/1.1 and asks for
    keep-alive, and the connection is closed all the same. *)
Lemma keep_alive_not_by_request_version :
  ~ keep_alive_by_request_version keep_alive_request.
Proof.
  intros C.
  assert (F : close_connection (snd (parse_request keep_alive_request)) = false).
  { apply (C _ [("Connection", "keep-alive")] "1.1" (1, 1)).
    - vm_compute. reflexivity.
    - vm_compute. reflexivity.
    - vm_compute. reflexivity.
    - vm_compute. reflexivity.
    - right. split; [reflexivity|]. cbv. discriminate. }
  vm_compute in F. discriminate F.
Qed.

End KeepAlive.

(** ** Error replies *)

Section ErrorReplies.

Import HttpServer.

Lemma send_error_keeps_wire code message explain h :
  wfile (snd (send_error code message explain h)) = wfile h
  /\ _headers_buffer (snd (send_error code message explain h))
     = _headers_buffer h
  /\ close_connection (snd (send_error code message explain h))
     = close_connection h.
Proof. rewrite send_error_log. repeat split. Qed.

(** C2 (the code departs from it).  [send_error] writes nothing to the
    connection and queues no header, whatever the status; on the request
    line [GET / HTTP/2.0] the handler logs the 505 and the client receives
    no byte. *)
Theorem send_error_only_logs :
  (forall code message explain h,
      wfile (snd (send_error code message explain h)) = wfile h
      /\ _headers_buffer (snd (send_error code message explain h))
         = _headers_buffer h)
  /\ (let h' := snd (handle_one_request (Serving.dispatch hello_app false)
                       http2_then_next) in
      wire_bytes (wfile h') = ""
      /\ _headers_buffer h' = None
      /\ log h' = [LogError 505 (Plain "Invalid HTTP version (2.0)")]).
Proof.
  split.
  - intros code message explain h.
    destruct (send_error_keeps_wire code message explain h) as (A & B & _).
    split; assumption.
  - vm_compute. repeat split.
Qed.

(** C6 (the code departs from it).  After the 505 the connection stays
    open: [handle] goes on to read the next request line and hands that
    request to the application, whose response is written. *)
Theorem version_error_keeps_connection_open :
  close_connection
    (snd (handle_one_request (Serving.dispatch hello_app false)
            http2_then_next)) = false
  /\ (let r := Serving.handle hello_app false http2_then_next in
      fst r = Ok tt
      /\ rfile (snd r) = ""
      /\ log (snd r) = [LogError 505 (Plain "Invalid HTTP version (2.0)");
                        LogRequest "GET /next HTTP/1.0" 200]
      /\ exists block, wfile (snd r) = [HeaderBlock block; Written "Hello"]).
Proof.
  split; [vm_compute; reflexivity|].
  vm_compute. repeat split. eexists. reflexivity.
Qed.

End ErrorReplies.

(** ** The expectation *)

Section Expectation.

Import HttpServer.

(** C8 (the code departs from it).  [parse_request] accepts the request
    and sends nothing, since it looks the header up under another name;
    what [run_wsgi] then writes begins with a space, so it is no status
    line, and it writes the same for an HTTP/1.0 request. *)
Theorem expect_100_continue_not_honoured :
  (let r := parse_request expecting_request in
   fst r = Ok true /\ wfile (snd r) = [] /\ _headers_buffer (snd r) = None)
  /\ (let h := snd (parse_request expecting_request) in
      wfile (snd (Serving.interim_continue h))
      = [Written (" HTTP/1.1 100 Continue" ++ Py.CRLF ++ Py.CRLF)])
  /\ (let h := snd (parse_request expecting_request_1_0) in
      request_version h = "HTTP/1.0"
      /\ wfile (snd (Serving.interim_continue h))
         = [Written (" HTTP/1.1 100 Continue" ++ Py.CRLF ++ Py.CRLF)]).
Proof. vm_compute. repeat split. Qed.

End Expectation.

(** ** The bridge: the way in *)

Section Entering.

Import HttpServer Serving.

Lemma check_bracketed_host_outcome hostname :
  UrllibParse._check_bracketed_host hostname = Ok tt
  \/ UrllibParse._check_bracketed_host hostname = Raise ValueError.
Proof.
  unfold UrllibParse._check_bracketed_host.
  destruct (Py.startswith "v" hostname).
  - destruct (UrllibParse.after_hex_and_dot _ _) as [tail|]; [|right; reflexivity].
    destruct (_ && _); [left|right]; reflexivity.
  - destruct (UrllibParse.ip_address hostname) as [[|]|];
      [right|left|right]; reflexivity.
Qed.

Lemma check_bracketed_netloc_outcome netloc :
  UrllibParse._check_bracketed_netloc netloc = Ok tt
  \/ UrllibParse._check_bracketed_netloc netloc = Raise ValueError.
Proof.
  unfold UrllibParse._check_bracketed_netloc.
  destruct (Py.partition "[" _) as [[before_bracket have_open_br] bracketed].
  destruct have_open_br.
  - destruct (Py.nonempty_str before_bracket); [right; reflexivity|].
    destruct (Py.partition "]" bracketed) as [[hostname sep] port].
    destruct (_ && _); [right; reflexivity|].
    apply check_bracketed_host_outcome.
  - destruct (Py.partition ":" _) as [[hostname sep] port].
    apply check_bracketed_host_outcome.
Qed.

(** [urlsplit] returns or raises [ValueError]. *)
Lemma urlsplit_outcome url :
  (exists r, UrllibParse.urlsplit url = Ok r)
  \/ UrllibParse.urlsplit url = Raise ValueError.
Proof.
  unfold UrllibParse.urlsplit.
  destruct (match Py.split_on_1 ":" _ with [] => _ | _ => _ end)
    as [scheme url'].
  destruct (Py.startswith "//" url').
  - destruct (UrllibParse._splitnetloc _) as [netloc rest].
    destruct (_ || _); [right; reflexivity|].
    destruct (_ && _).
    + destruct (check_bracketed_netloc_outcome netloc) as [-> | ->];
        [|right; reflexivity].
      destruct (match Py.split_on_1 "#" rest with [] => _ | _ => _ end)
        as [u f].
      destruct (match Py.split_on_1 "?" u with [] => _ | _ => _ end)
        as [u' q].
      left. eexists. reflexivity.
    + destruct (match Py.split_on_1 "#" rest with [] => _ | _ => _ end)
        as [u f].
      destruct (match Py.split_on_1 "?" u with [] => _ | _ => _ end)
        as [u' q].
      left. eexists. reflexivity.
  - destruct (match Py.split_on_1 "#" url' with [] => _ | _ => _ end)
      as [u f].
    destruct (match Py.split_on_1 "?" u with [] => _ | _ => _ end)
      as [u' q].
    left. eexists. reflexivity.
Qed.

(** [make_environ] leaves the handler as it is, whether it returns or
    raises, and is never cut short. *)
Lemma make_environ_outcome h :
  make_environ h = (Ok tt, h) \/ exists e, make_environ h = (Raise e, h).
Proof.
  unfold make_environ, bind, this.
  destruct (path h) as [target|]; [|right; eexists; reflexivity].
  destruct (urlsplit_outcome target) as [[r ->] | ->];
    [left|right; eexists]; reflexivity.
Qed.

Lemma make_environ_state h : snd (make_environ h) = h.
Proof.
  destruct (make_environ_outcome h) as [-> | [e ->]]; reflexivity.
Qed.

(** The handler on the way into the closure is the one that
    [interim_continue] left. *)
Lemma entering_state h :
  snd ((interim_continue ;; make_environ) h) = snd (interim_continue h).
Proof.
  unfold bind at 1.
  destruct (interim_continue h) as [[u|e|] h1]; try reflexivity.
  apply make_environ_state.
Qed.


End Entering.

(** ** The bridge: framing *)

Section Framing.

Import HttpServer Serving.

Lemma keeps_on_self {A B} (g : Frame -> B) (m : M Handler A) :
  (forall v f, g (set_self v f) = g f) -> keeps g (on_self m).
Proof.
  intros H f. unfold on_self. destruct (m (self f)) as [r h]. apply H.
Qed.

Lemma keeps_bind_raising {S A C B} (g : S -> B) (m : M S A) (k : A -> M S C) :
  keeps g m -> (forall s, exists e, fst (m s) = Raise e) ->
  keeps g (bind m k).
Proof.
  intros Hm Hr s. unfold bind. specialize (Hm s).
  destruct (Hr s) as [e He].
  destruct (m s) as [[a|e'|] s']; simpl in *;
    [discriminate He|assumption|discriminate He].
Qed.

Lemma protocal_version_raises f :
  exists e, fst (on_self protocal_version f) = Raise e.
Proof. eexists. reflexivity. Qed.

Ltac frame_step :=
  first
    [ apply keeps_ret | apply keeps_raise | apply keeps_this
    | apply keeps_on_self; intros ? ?; reflexivity
    | apply keeps_bind_raising;
      [apply keeps_on_self; intros ? ?; reflexivity
      |apply protocal_version_raises]
    | apply keeps_bind; [|intros ?] | apply keeps_when
    | apply keeps_try_except; [|intros ?]
    | apply keeps_try_finally
    | apply keeps_modify; intros ?; reflexivity
    | match goal with
      | |- keeps _ (if ?b then _ else _) => destruct b
      | |- keeps _ (match ?x with _ => _ end) => destruct x
      | |- keeps _ (let '(_, _) := ?x in _) => destruct x
      end ].

Lemma send_head_keeps_chunk_response status hdrs :
  keeps chunk_response (send_head status hdrs).
Proof.
  unfold send_head.
  apply keeps_bind; [apply keeps_modify; intros ?; reflexivity|]. intros _.
  apply keeps_bind; [apply keeps_modify; intros ?; reflexivity|]. intros _.
  destruct (status_parts status) as [code_str msg].
  destruct (Py.int code_str) as [code|]; [|apply keeps_raise].
  repeat frame_step.
Qed.

Lemma write_keeps_chunk_response data : keeps chunk_response (write data).
Proof.
  unfold write.
  apply keeps_bind; [apply keeps_this|]. intros f.
  destruct (status_set f); [|apply keeps_raise].
  destruct (headers_set f); [|apply keeps_raise].
  apply keeps_bind.
  - destruct (status_sent f);
      [apply keeps_ret|apply send_head_keeps_chunk_response].
  - intros _. repeat frame_step.
Qed.

Lemma start_response_keeps_chunk_response status hdrs exc_info :
  keeps chunk_response (start_response status hdrs exc_info).
Proof. unfold start_response. repeat frame_step. Qed.

Lemma run_op_keeps_chunk_response op : keeps chunk_response (run_op op).
Proof.
  induction op; cbn [run_op].
  - apply start_response_keeps_chunk_response.
  - apply write_keeps_chunk_response.
  - apply keeps_raise.
  - apply keeps_try_except; [assumption|]. intros ?. apply keeps_ret.
Qed.

Lemma run_body_keeps_chunk_response ops : keeps chunk_response (run_body ops).
Proof.
  induction ops as [|op ops IH]; cbn [run_body]; [apply keeps_ret|].
  apply keeps_bind; [apply run_op_keeps_chunk_response|]. intros _. exact IH.
Qed.

Lemma iterate_keeps_chunk_response steps :
  keeps chunk_response (iterate steps).
Proof.
  induction steps as [|[op|data] steps IH]; cbn [iterate];
    [apply keeps_ret| |].
  - apply keeps_bind; [apply run_op_keeps_chunk_response|]. intros _. exact IH.
  - apply keeps_bind; [apply write_keeps_chunk_response|]. intros _. exact IH.
Qed.

Lemma execute_keeps_chunk_response app : keeps chunk_response (execute app).
Proof.
  destruct app as [|body iterable]; cbn [execute]; [apply keeps_raise|].
  apply keeps_bind; [apply run_body_keeps_chunk_response|]. intros _.
  apply keeps_try_finally;
    [|apply keeps_on_self; intros ? ?; reflexivity].
  apply keeps_bind; [apply iterate_keeps_chunk_response|]. intros _.
  apply keeps_bind; [apply keeps_this|]. intros f.
  apply keeps_bind;
    [apply keeps_when; apply write_keeps_chunk_response|]. intros _.
  repeat frame_step.
Qed.

Lemma guarded_execute_keeps_chunk_response app passthrough :
  keeps chunk_response (guarded_execute app passthrough).
Proof.
  unfold guarded_execute.
  apply keeps_try_except; [apply execute_keeps_chunk_response|]. intros e.
  assert (K : keeps chunk_response
                (if passthrough then raise e
                 else
                   f <- this ;;
                   when (match status_sent f with
                         | Some _ => true
                         | None => false
                         end && chunk_response f)
                     (on_self (modify (set_close_connection true))) ;;
                   try_except
                     (f <- this ;;
                      when (match status_sent f with
                            | None => true
                            | Some _ => false
                            end)
                        (modify (set_status_set None) ;;
                         modify (set_headers_set None)) ;;
                      execute InternalServerError)
                     (fun _ => ret tt) ;;
                   on_self (log_message (LogServer "error")))).
  { destruct passthrough; [apply keeps_raise|].
    apply keeps_bind; [apply keeps_this|]. intros f.
    apply keeps_bind; [repeat frame_step|]. intros _.
    apply keeps_bind; [|intros _; repeat frame_step].
    apply keeps_try_except; [|intros _; apply keeps_ret].
    apply keeps_bind; [apply keeps_this|]. intros f'.
    apply keeps_bind; [repeat frame_step|]. intros _.
    apply execute_keeps_chunk_response. }
  destruct e; first [exact K | apply keeps_ret | apply keeps_raise].
Qed.

Lemma send_header_total keyword value : total (send_header keyword value).
Proof. unfold send_header. repeat total_step. Qed.

Lemma send_header_keeps_wfile keyword value :
  keeps wfile (send_header keyword value).
Proof. unfold send_header. keeps_auto. Qed.

Lemma send_response_total code message : total (send_response code message).
Proof.
  unfold send_response, log_request, log_message, send_response_only.
  repeat first [apply send_header_total | total_step].
Qed.

Lemma send_response_keeps_wfile code message :
  keeps wfile (send_response code message).
Proof.
  unfold send_response, log_request, log_message, send_response_only.
  repeat first [apply send_header_keeps_wfile | keeps_step].
Qed.

(** The loop over the headers gathers their names in lower case. *)
Lemma send_all_result hs : forall keys h,
  exists keys' h',
    send_all hs keys h = (Ok keys', h')
    /\ wfile h' = wfile h
    /\ forall p, existsb p keys'
                 = existsb p (map (fun kv => Py.lower (fst kv)) hs)
                   || existsb p keys.
Proof.
  induction hs as [|[key value] hs IH]; intros keys h; cbn [send_all].
  - exists keys, h. repeat split.
  - unfold bind.
    destruct (send_header_total key value h) as (u & h1 & E1).
    pose proof (send_header_keeps_wfile key value h) as W1.
    rewrite E1 in *. cbn [snd] in W1.
    destruct (IH (Py.lower key :: keys) h1) as (keys' & h2 & E2 & W2 & K2).
    exists keys', h2. split; [assumption|]. split; [congruence|].
    intros p. rewrite K2. cbn [map existsb fst].
    destruct (p (Py.lower key)); cbn; [apply orb_true_r|reflexivity].
Qed.

(** Where chunking would apply (no [Content-Length], a method other than
    [HEAD], a status that allows a body), the first [write] ends in the
    [AttributeError], before anything is sent. *)
Lemma write_raises_where_chunking_applies data f status hdrs code :
  status_set f = Some status ->
  headers_set f = Some hdrs ->
  status_sent f = None ->
  Py.int (fst (status_parts status)) = Some code ->
  existsb (String.eqb "content-length")
    (map (fun kv => Py.lower (fst kv)) hdrs) = false ->
  REQUEST_METHOD f <> Some "HEAD" ->
  ~ (100 <= code < 200) -> code <> 204 -> code <> 304 ->
  exists f',
    write data f = (Raise (AttributeError "protocal_version"), f')
    /\ wfile (self f') = wfile (self f).
Proof.
  intros Hs Hh Hn Hc Hk Hm H1 H2 H3.
  unfold write, bind at 1, this. rewrite Hs, Hh, Hn.
  assert (E : exists f',
             send_head status hdrs f
             = (Raise (AttributeError "protocal_version"), f')
             /\ wfile (self f') = wfile (self f)).
  { unfold send_head, bind at 1 2, modify.
    destruct (status_parts status) as [code_str msg]. cbn [fst] in Hc.
    rewrite Hc.
    set (f2 := set_headers_sent (Some hdrs) (set_status_sent (Some status) f)).
    unfold bind at 1, on_self at 1.
    destruct (send_response_total code (Some msg) (self f2)) as (u & h1 & E1).
    pose proof (send_response_keeps_wfile code (Some msg) (self f2)) as W1.
    rewrite E1 in *. cbn [snd] in W1.
    unfold bind at 1, on_self at 1. cbn [self set_self].
    destruct (send_all_result hdrs [] h1) as (keys & h2 & E2 & W2 & K2).
    rewrite E2. unfold bind at 1, this.
    rewrite K2, Hk. cbn [existsb orb].
    change (REQUEST_METHOD (set_self h2 (set_self h1 f2)))
      with (REQUEST_METHOD f).
    assert (Em : match REQUEST_METHOD f with
                 | Some m => String.eqb m "HEAD"
                 | None => false
                 end = false).
    { destruct (REQUEST_METHOD f) as [m|]; [|reflexivity].
      apply String.eqb_neq. congruence. }
    rewrite Em.
    assert (E100 : (100 <=? code) && (code <? 200) = false).
    { apply andb_false_iff.
      destruct (Z.leb_spec 100 code); [right; apply Z.ltb_ge; lia|left; reflexivity]. }
    rewrite E100.
    assert (E204 : (code =? 204) || (code =? 304) = false).
    { apply orb_false_iff. split; apply Z.eqb_neq; assumption. }
    rewrite E204. cbn [orb negb].
    eexists. split; [reflexivity|]. cbn [self set_self].
    rewrite W2, W1. reflexivity. }
  destruct E as (f' & E1 & E2).
  exists f'. unfold bind. rewrite E1. split; [reflexivity|exact E2].
Qed.

(** C1 (the code departs from it).  The bridge never turns chunked
    framing on: where it would, the attribute lookup of line 191 raises.
    For the request and the application above nothing at all reaches the
    socket, and the handler is left waiting for another request. *)
Theorem chunked_framing_never_selected :
  (forall app passthrough h,
      chunk_response (snd (run_wsgi_frame app passthrough h)) = false)
  /\ (let r := handle_one_request (dispatch two_chunks_app false) plain_get in
      fst r = Ok tt
      /\ wire_bytes (wfile (snd r)) = ""
      /\ close_connection (snd r) = false
      /\ log (snd r) = [LogRequest "GET / HTTP/1.1" 200; LogServer "error"]).
Proof.
  split.
  - intros app passthrough h. unfold run_wsgi_frame.
    destruct ((interim_continue ;; make_environ) h) as [[u|e|] h1];
      [|reflexivity|reflexivity].
    rewrite guarded_execute_keeps_chunk_response. reflexivity.
  - vm_compute. repeat split.
Qed.

End Framing.

(** ** [start_response] *)

Section StartResponse.

Import HttpServer.

Lemma base_checks_keep_headers status hdrs :
  keeps WsgiHandlers.headers
    (WsgiHandlers.check_status status ;; WsgiHandlers.check_headers hdrs).
Proof.
  apply keeps_bind.
  - unfold WsgiHandlers.check_status. keeps_auto.
  - intros _. induction hdrs as [|[n v] l IH]; cbn [WsgiHandlers.check_headers];
      keeps_auto. exact IH.
Qed.

(** The method of [BaseHandler] refuses a second call without
    [exc_info], whatever the first call was given. *)
Lemma base_start_response_twice self status hdrs exc_info status' hdrs' :
  (exc_info <> None -> WsgiHandlers.headers_sent self = false) ->
  (exc_info = None -> WsgiHandlers.headers self = None) ->
  let self1 := snd (WsgiHandlers.start_response status hdrs exc_info self) in
  fst (WsgiHandlers.start_response status' hdrs' None self1)
  = Raise (AssertionError "Headers already sent").
Proof.
  intros Hsent Hnone self1.
  assert (E : WsgiHandlers.headers self1 = Some hdrs).
  { subst self1. unfold WsgiHandlers.start_response, bind at 1, this.
    unfold bind at 1.
    replace ((match exc_info with
              | Some e =>
                  if WsgiHandlers.headers_sent self then raise e else ret tt
              | None =>
                  match WsgiHandlers.headers self with
                  | Some _ => raise (AssertionError "Headers already sent")
                  | None => ret tt
                  end
              end) self) with (@Ok unit tt, self).
    2:{ destruct exc_info as [e|].
        - rewrite Hsent by discriminate. reflexivity.
        - rewrite Hnone by reflexivity. reflexivity. }
    unfold bind at 1, modify.
    match goal with
    | |- WsgiHandlers.headers (snd (?m ?s)) = _ =>
        change (WsgiHandlers.headers
                  (snd ((WsgiHandlers.check_status status ;;
                         WsgiHandlers.check_headers hdrs) s)) = Some hdrs)
    end.
    rewrite base_checks_keep_headers. reflexivity. }
  unfold WsgiHandlers.start_response, bind at 1, this.
  rewrite E. reflexivity.
Qed.

(** It raises the exception handed in once the headers are out. *)
Lemma base_start_response_after_send self status hdrs e :
  WsgiHandlers.headers_sent self = true ->
  WsgiHandlers.start_response status hdrs (Some e) self = (Raise e, self).
Proof.
  intros H. unfold WsgiHandlers.start_response, bind, this.
  rewrite H. reflexivity.
Qed.

(** C7 (the code departs from it).  The closure of [run_wsgi] tests its
    variables for truth, and an empty header list is false: a second
    [start_response] without [exc_info] goes through, and so does one
    with [exc_info] after the header block has been written. *)
Theorem run_wsgi_start_response_empty_headers :
  (let r := Serving.run_body restarting_app (Serving.new_frame parsed_get) in
   fst r = Ok tt /\ Serving.status_set (snd r) = Some "404 Not Found")
  /\ (let r := Serving.run_body late_error_app (Serving.new_frame parsed_get) in
      fst r = Ok tt
      /\ Serving.status_set (snd r) = Some "500 Internal Server Error"
      /\ Serving.headers_sent (snd r) = Some []
      /\ exists block, wfile (Serving.self (snd r)) = [HeaderBlock block]).
Proof.
  vm_compute. repeat split. eexists. reflexivity.
Qed.

End StartResponse.

(** ** The bridge: [Connection: close] *)

Section ConnectionClose.

Import HttpServer Serving.

Lemma str_app_assoc (a b c : string) : (a ++ b) ++ c = a ++ b ++ c.
Proof. induction a as [|x a IH]; simpl; [reflexivity|]. rewrite IH. reflexivity. Qed.

Lemma str_app_nil_r (a : string) : a ++ "" = a.
Proof. induction a as [|x a IH]; simpl; [reflexivity|]. rewrite IH. reflexivity. Qed.

Lemma join_app (l1 l2 : list string) :
  Py.join (l1 ++ l2)%list = Py.join l1 ++ Py.join l2.
Proof.
  unfold Py.join. induction l1 as [|x l1 IH]; simpl; [reflexivity|].
  rewrite IH. symmetry. apply str_app_assoc.
Qed.

Lemma inv_ret {S A} (I : S -> Prop) (a : A) : inv I (ret a).
Proof. intros s H. exact H. Qed.

Lemma inv_raise {S A} (I : S -> Prop) e : inv I (@raise S A e).
Proof. intros s H. exact H. Qed.

Lemma inv_modify {S} (I : S -> Prop) (g : S -> S) :
  (forall s, I s -> I (g s)) -> inv I (modify g).
Proof. intros H s. apply H. Qed.

Lemma inv_bind {S A C} (I : S -> Prop) (m : M S A) (k : A -> M S C) :
  inv I m -> (forall a, inv I (k a)) -> inv I (bind m k).
Proof.
  intros Hm Hk s Hs. unfold bind. specialize (Hm s Hs).
  destruct (m s) as [[a|e|] s']; simpl in *; [|assumption|assumption].
  apply Hk. assumption.
Qed.

(** The continuation of [this] runs on the state that [this] read. *)
Lemma inv_this_bind {S C} (I : S -> Prop) (k : S -> M S C) :
  (forall s, I s -> I (snd (k s s))) -> inv I (bind this k).
Proof. intros H s Hs. unfold bind, this. apply H. assumption. Qed.

Lemma inv_when {S} (I : S -> Prop) (b : bool) (m : M S unit) :
  inv I m -> inv I (when b m).
Proof. intros H. destruct b; [assumption|apply inv_ret]. Qed.

Lemma inv_try_except {S A} (I : S -> Prop) (m : M S A) (h : exn -> M S A) :
  inv I m -> (forall e, inv I (h e)) -> inv I (try_except m h).
Proof.
  intros Hm Hh s Hs. unfold try_except. specialize (Hm s Hs).
  destruct (m s) as [[a|e|] s']; simpl in *; [assumption| |assumption].
  apply Hh. assumption.
Qed.

Lemma inv_try_finally {S A} (I : S -> Prop) (m : M S A) (fin : M S unit) :
  inv I m -> inv I fin -> inv I (try_finally m fin).
Proof.
  intros Hm Hf s Hs. unfold try_finally. specialize (Hm s Hs).
  destruct (m s) as [[a|e|] s']; simpl in *; [| |assumption];
    specialize (Hf s' Hm); destruct (fin s') as [[u|e'|] s''];
    simpl in *; assumption.
Qed.

Lemma header_blocks_app a b :
  header_blocks (a ++ b)%list = (header_blocks a ++ header_blocks b)%list.
Proof. unfold header_blocks. apply flat_map_app. Qed.

(** ** What the handler's methods do to the header buffer *)

Lemma send_header_effect keyword value h :
  exists h',
    send_header keyword value h = (Ok tt, h')
    /\ wfile h' = wfile h
    /\ request_version h' = request_version h
    /\ (request_version h <> "HTTP/0.9" ->
        _headers_buffer h'
        = Some (append match _headers_buffer h with
                       | Some b => b
                       | None => []
                       end
                  (keyword ++ ": " ++ value ++ Py.CRLF)))
    /\ (String.eqb (Py.lower keyword) "connection" = false ->
        close_connection h' = close_connection h)
    /\ (String.eqb (Py.lower keyword) "connection" = true ->
        String.eqb (Py.lower value) "close" = true ->
        close_connection h' = true).
Proof.
  unfold send_header, bind at 1, this, when.
  destruct (String.eqb (request_version h) "HTTP/0.9") eqn:E09; cbn [negb].
  - apply String.eqb_eq in E09.
    unfold bind, ret.
    destruct (String.eqb (Py.lower keyword) "connection");
      [destruct (String.eqb (Py.lower value) "close");
       [|destruct (String.eqb (Py.lower value) "keep-alive")]|];
      eexists; (split; [reflexivity|]);
      repeat split; try reflexivity; try congruence;
      intros; congruence.
  - unfold bind, modify, ret.
    destruct (String.eqb (Py.lower keyword) "connection");
      [destruct (String.eqb (Py.lower value) "close");
       [|destruct (String.eqb (Py.lower value) "keep-alive")]|];
      eexists; (split; [reflexivity|]);
      repeat split; try reflexivity; try congruence;
      intros; congruence.
Qed.

Lemma send_header_line_ended keyword value h :
  line_ended (snd (send_header keyword value h)).
Proof.
  destruct (send_header_effect keyword value h) as (h' & E & _ & V & B & _).
  rewrite E. cbn [snd]. intros H09. rewrite V in H09.
  eexists. exists (keyword ++ ": " ++ value).
  rewrite (B H09). rewrite !str_app_assoc. reflexivity.
Qed.

Lemma ensures_bind_total {S A C} (P : S -> Prop) (m : M S A) (k : A -> M S C) :
  total m -> (forall a, ensures P (k a)) -> ensures P (bind m k).
Proof.
  intros Hm Hk s. unfold bind. destruct (Hm s) as (a & s' & ->). apply Hk.
Qed.

Lemma send_header_keeps_request_version keyword value :
  keeps request_version (send_header keyword value).
Proof. unfold send_header. keeps_auto. Qed.

Lemma send_response_keeps_request_version code message :
  keeps request_version (send_response code message).
Proof.
  unfold send_response, log_request, log_message, send_response_only.
  repeat first [apply send_header_keeps_request_version | keeps_step].
Qed.

Lemma send_response_line_ended code message :
  ensures line_ended (send_response code message).
Proof.
  unfold send_response.
  apply ensures_bind_total;
    [unfold log_request, log_message; repeat total_step|]. intros _.
  apply ensures_bind_total;
    [unfold send_response_only; repeat total_step|]. intros _.
  apply ensures_bind_total; [apply total_this|]. intros h.
  apply ensures_bind_total; [apply send_header_total|]. intros _.
  intros s. apply send_header_line_ended.
Qed.

Lemma send_all_effect hs : forall keys h,
  line_ended h ->
  exists keys' h',
    send_all hs keys h = (Ok keys', h')
    /\ wfile h' = wfile h
    /\ request_version h' = request_version h
    /\ line_ended h'.
Proof.
  induction hs as [|[key value] hs IH]; intros keys h L; cbn [send_all].
  - exists keys, h. repeat split. assumption.
  - unfold bind.
    destruct (send_header_effect key value h) as (h1 & E1 & W1 & V1 & _).
    pose proof (send_header_line_ended key value h) as L1.
    rewrite E1 in *. cbn [snd] in L1.
    destruct (IH (Py.lower key :: keys) h1 L1) as (keys' & h2 & E2 & W2 & V2 & L2).
    exists keys', h2. repeat split; try assumption; congruence.
Qed.

(** [end_headers] on a request that is not HTTP/0.9, with a buffer. *)
Lemma end_headers_flushes h buffer :
  request_version h <> "HTTP/0.9" ->
  _headers_buffer h = Some buffer ->
  exists h',
    end_headers h = (Ok tt, h')
    /\ wfile h' = append (wfile h) (HeaderBlock (Py.join (append buffer Py.CRLF)))
    /\ close_connection h' = close_connection h.
Proof.
  intros H09 Hb. apply String.eqb_neq in H09.
  unfold end_headers, bind at 1, this. rewrite H09, Hb. cbn [negb].
  unfold bind at 1, modify, flush_headers, bind at 1, this.
  cbn [_headers_buffer set__headers_buffer].
  eexists. split; [reflexivity|]. split; reflexivity.
Qed.

Lemma end_headers_legacy h :
  request_version h = "HTTP/0.9" -> end_headers h = (Ok tt, h).
Proof.
  intros H09. apply String.eqb_eq in H09.
  unfold end_headers, bind, this. rewrite H09. reflexivity.
Qed.

Lemma join_append (l : list string) (x : string) :
  Py.join (append l x) = Py.join l ++ x.
Proof.
  unfold append. rewrite join_app. unfold Py.join at 2. simpl.
  rewrite str_app_nil_r. reflexivity.
Qed.

(** ** The closure's header block *)

(** [send_head] records the status as sent; and either it writes nothing,
    or it writes one header block, which closes, and turns
    [close_connection] on. *)
Lemma send_head_outcome status hdrs f :
  exists f',
    snd (send_head status hdrs f) = f'
    /\ status_sent f' = Some status
    /\ (wfile (self f') = wfile (self f)
        \/ exists block,
            closes block
            /\ wfile (self f') = append (wfile (self f)) (HeaderBlock block)
            /\ close_connection (self f') = true).
Proof.
  unfold send_head, bind at 1 2, modify.
  destruct (status_parts status) as [code_str msg].
  set (f2 := set_headers_sent (Some hdrs) (set_status_sent (Some status) f)).
  destruct (Py.int code_str) as [code|].
  2:{ eexists. split; [reflexivity|]. split; [reflexivity|]. left. reflexivity. }
  unfold bind at 1, on_self at 1.
  destruct (send_response_total code (Some msg) (self f2)) as (u & h1 & E1).
  pose proof (send_response_keeps_wfile code (Some msg) (self f2)) as W1.
  pose proof (send_response_keeps_request_version code (Some msg) (self f2)) as V1.
  pose proof (send_response_line_ended code (Some msg) (self f2)) as L1.
  rewrite E1 in *. cbn [snd] in W1, V1, L1.
  unfold bind at 1, on_self at 1. cbn [self set_self].
  destruct (send_all_effect hdrs [] h1 L1) as (keys & h2 & E2 & W2 & V2 & L2).
  rewrite E2. unfold bind at 1, this.
  match goal with
  | |- context [if ?c then _ else _] => destruct c
  end.
  - (* the attribute lookup raises *)
    unfold bind, on_self, protocal_version, raise.
    cbn [self set_self fst snd].
    eexists. split; [reflexivity|]. split; [reflexivity|]. left.
    cbn [self set_self snd]. rewrite W2, W1. reflexivity.
  - unfold bind at 1, ret. unfold bind at 1, on_self at 1. cbn [self set_self].
    destruct (send_header_effect "Connection" "close" h2)
      as (h3 & E3 & W3 & V3 & B3 & _ & C3).
    rewrite E3. unfold on_self. cbn [self set_self].
    destruct (String.eqb (request_version h3) "HTTP/0.9") eqn:E09.
    + apply String.eqb_eq in E09. rewrite (end_headers_legacy h3 E09).
      eexists. split; [reflexivity|]. split; [reflexivity|]. left.
      cbn [self set_self snd]. rewrite W3, W2, W1. reflexivity.
    + apply String.eqb_neq in E09.
      assert (E09' : request_version h2 <> "HTTP/0.9") by congruence.
      destruct (L2 E09') as (b & x & Hb).
      specialize (B3 E09'). rewrite Hb in B3.
      destruct (end_headers_flushes h3 _ E09 B3) as (h4 & E4 & W4 & C4).
      rewrite E4.
      eexists. split; [reflexivity|]. split; [reflexivity|]. right.
      cbn [self set_self snd].
      eexists. split; [|split].
      2:{ rewrite W4, W3, W2, W1. reflexivity. }
      * exists (Py.join b ++ x).
        rewrite !join_append, !str_app_assoc. reflexivity.
      * rewrite C4. apply C3; vm_compute; reflexivity.
Qed.

Lemma inv_bind_at {S A C} (I : S -> Prop) (m : M S A) (k : A -> M S C) s :
  I (snd (m s)) -> (forall a, inv I (k a)) -> I (snd (bind m k s)).
Proof.
  intros Hm Hk. unfold bind.
  destruct (m s) as [[a|e|] s']; simpl in *; [|assumption|assumption].
  apply Hk. assumption.
Qed.

(** ** The invariant of one run of the bridge

    [w0] is what had been written when [run_wsgi] was entered. *)
Section Run.

Variable w0 : list wire_write.

Lemma run_inv_quiet {A} (m : M Handler A) : quiet m -> inv (run_inv w0) (on_self m).
Proof.
  intros Q f (new & W & N & C & K). unfold on_self.
  destruct (Q (self f)) as [Qw Qc].
  destruct (m (self f)) as [r h]. cbn [snd] in *.
  exists new. cbn [self set_self status_sent].
  repeat split; try assumption.
  - congruence.
  - intros H. apply Qc, K, H.
Qed.

Lemma run_inv_wfile_write data : inv (run_inv w0) (on_self (wfile_write data)).
Proof.
  intros f (new & W & N & C & K).
  exists (new ++ [Written data])%list.
  unfold on_self, wfile_write, modify. cbn [snd self set_self status_sent].
  cbn [wfile set_wfile close_connection]. unfold append.
  rewrite W, header_blocks_app. cbn [header_blocks flat_map].
  rewrite !app_nil_r. repeat split; try assumption.
  symmetry. apply app_assoc.
Qed.

Lemma run_inv_modify (g : Frame -> Frame) :
  (forall f, self (g f) = self f) ->
  (forall f, status_sent (g f) = status_sent f) ->
  inv (run_inv w0) (modify g).
Proof.
  intros Hs Ht f (new & W & N & C & K). exists new.
  unfold modify. cbn [snd]. rewrite Hs, Ht. repeat split; assumption.
Qed.

Lemma run_inv_send_head status hdrs f :
  (run_inv w0) f -> status_sent f = None ->
  (run_inv w0) (snd (send_head status hdrs f)).
Proof.
  intros (new & W & N & C & K) Hn.
  destruct (send_head_outcome status hdrs f) as (f' & -> & S' & O).
  specialize (N Hn).
  destruct O as [O|(block & Cb & O & Cl)].
  - exists new. repeat split; try assumption.
    + congruence.
    + rewrite S'. discriminate.
    + rewrite N. intros H. congruence.
  - exists (new ++ [HeaderBlock block])%list.
    rewrite O, W. unfold append. rewrite header_blocks_app, N.
    cbn [header_blocks flat_map app]. repeat split.
    + symmetry. apply app_assoc.
    + rewrite S'. discriminate.
    + constructor; [assumption|constructor].
    + intros _. assumption.
Qed.

Lemma run_inv_write data : inv (run_inv w0) (write data).
Proof.
  unfold write. apply inv_this_bind. intros f Hf.
  destruct (status_set f); [|exact Hf].
  destruct (headers_set f); [|exact Hf].
  apply inv_bind_at.
  - destruct (status_sent f) eqn:E; [exact Hf|].
    apply run_inv_send_head; assumption.
  - intros _. apply inv_this_bind. intros f' Hf'.
    destruct (nonempty data); [|exact Hf']. cbn [when].
    apply inv_bind_at.
    + destruct (chunk_response f'); [|exact Hf']. cbn [when].
      apply inv_bind_at; [apply run_inv_wfile_write; assumption|].
      intros _. apply run_inv_wfile_write.
    + intros _. apply inv_bind; [apply run_inv_wfile_write|]. intros _.
      apply inv_when. apply run_inv_wfile_write.
Qed.

Lemma run_inv_start_response status hdrs exc_info :
  inv (run_inv w0) (start_response status hdrs exc_info).
Proof.
  unfold start_response. apply inv_this_bind. intros f Hf.
  apply inv_bind_at.
  - destruct exc_info; [destruct (truthy (headers_sent f))
                       |destruct (truthy (headers_set f))]; exact Hf.
  - intros _.
    apply inv_bind; [|intros _];
      apply run_inv_modify; intros ?; reflexivity.
Qed.

Lemma run_inv_run_op op : inv (run_inv w0) (run_op op).
Proof.
  induction op; cbn [run_op].
  - apply run_inv_start_response.
  - apply run_inv_write.
  - apply inv_raise.
  - apply inv_try_except; [assumption|]. intros ?. apply inv_ret.
Qed.

Lemma run_inv_run_body ops : inv (run_inv w0) (run_body ops).
Proof.
  induction ops as [|op ops IH]; cbn [run_body]; [apply inv_ret|].
  apply inv_bind; [apply run_inv_run_op|]. intros _. exact IH.
Qed.

Lemma run_inv_iterate steps : inv (run_inv w0) (iterate steps).
Proof.
  induction steps as [|[op|data] steps IH]; cbn [iterate]; [apply inv_ret| |].
  - apply inv_bind; [apply run_inv_run_op|]. intros _. exact IH.
  - apply inv_bind; [apply run_inv_write|]. intros _. exact IH.
Qed.

Lemma drain_loop_keeps {B} (g : Handler -> B) :
  (forall v h, g (set_rfile v h) = g h) ->
  forall fuel total_size total_reads,
    keeps g (drain_loop fuel total_size total_reads).
Proof.
  intros Hg fuel. induction fuel as [|fuel IH]; intros ts tr h;
    cbn [drain_loop]; [reflexivity|].
  destruct (nonempty (rfile h)); cbn [negb]; [|reflexivity].
  destruct (read 10000000 (rfile h)) as [data fp].
  match goal with
  | |- context [if ?c then _ else _] => destruct c
  end; [apply Hg|].
  rewrite IH. apply Hg.
Qed.

Lemma drain_quiet : quiet drain.
Proof.
  intros h. unfold drain. split.
  - apply (drain_loop_keeps wfile). reflexivity.
  - intros H. rewrite (drain_loop_keeps close_connection); [assumption|].
    reflexivity.
Qed.

Lemma run_inv_execute app : inv (run_inv w0) (execute app).
Proof.
  destruct app as [|body iterable]; cbn [execute]; [apply inv_raise|].
  apply inv_bind; [apply run_inv_run_body|]. intros _.
  apply inv_try_finally; [|apply run_inv_quiet, drain_quiet].
  apply inv_bind; [apply run_inv_iterate|]. intros _.
  apply inv_this_bind. intros f Hf.
  apply inv_bind_at.
  - apply inv_when; [apply run_inv_write|assumption].
  - intros _. apply inv_this_bind. intros f' Hf'.
    apply inv_when; [apply run_inv_wfile_write|assumption].
Qed.

Lemma run_inv_guarded_execute app passthrough :
  inv (run_inv w0) (guarded_execute app passthrough).
Proof.
  unfold guarded_execute.
  apply inv_try_except; [apply run_inv_execute|]. intros e.
  assert (K : inv (run_inv w0)
                (if passthrough then raise e
                 else
                   f <- this ;;
                   when (match status_sent f with
                         | Some _ => true
                         | None => false
                         end && chunk_response f)
                     (on_self (modify (set_close_connection true))) ;;
                   try_except
                     (f <- this ;;
                      when (match status_sent f with
                            | None => true
                            | Some _ => false
                            end)
                        (modify (set_status_set None) ;;
                         modify (set_headers_set None)) ;;
                      execute InternalServerError)
                     (fun _ => ret tt) ;;
                   on_self (log_message (LogServer "error")))).
  { destruct passthrough; [apply inv_raise|].
    apply inv_bind; [intros s Hs; exact Hs|]. intros f.
    apply inv_bind.
    { apply inv_when. apply run_inv_quiet. intros h. split; reflexivity. }
    intros _. apply inv_bind.
    { apply inv_try_except; [|intros _; apply inv_ret].
      apply inv_bind; [intros s Hs; exact Hs|]. intros f'.
      apply inv_bind; [|intros _; apply run_inv_execute].
      apply inv_when.
      apply inv_bind; [|intros _];
        apply run_inv_modify; intros ?; reflexivity. }
    intros _. apply run_inv_quiet. intros h. split; [reflexivity|].
    intros H. exact H. }
  destruct e; first [exact K | apply inv_ret | apply inv_raise].
Qed.

End Run.

Lemma interim_continue_effect h :
  exists new,
    wfile (snd (interim_continue h)) = (wfile h ++ new)%list
    /\ header_blocks new = [].
Proof.
  unfold interim_continue, bind, this.
  destruct (headers h) as [msg|]; [|exists []; rewrite app_nil_r; split; reflexivity].
  destruct (String.eqb _ "100-continue"); cbn [when].
  - eexists. split; reflexivity.
  - exists []. rewrite app_nil_r. split; reflexivity.
Qed.

Lemma handle_loop_closed d fuel h :
  close_connection h = true -> handle_loop d fuel h = (Ok tt, h).
Proof.
  intros H. destruct fuel; cbn [handle_loop]; unfold bind, this;
    rewrite H; reflexivity.
Qed.

(** C9.  Every header block that one run of the bridge writes has
    [Connection: close] as its last header, right before the blank line;
    and if the run has written one, [close_connection] is true when
    [run_wsgi] is left, by return or by exception, so that the loop of
    [handle] ends there without another read. *)
Theorem bridge_sends_connection_close
    (app : WSGIApplication) (passthrough : bool) (h : Handler) :
  exists new,
    wfile (snd (run_wsgi app passthrough h)) = (wfile h ++ new)%list
    /\ Forall closes (header_blocks new)
    /\ (header_blocks new <> [] ->
        close_connection (snd (run_wsgi app passthrough h)) = true
        /\ forall d fuel,
            handle_loop d fuel (snd (run_wsgi app passthrough h))
            = (Ok tt, snd (run_wsgi app passthrough h))).
Proof.
  assert (J : run_inv (wfile h) (snd (run_wsgi_frame app passthrough h))).
  { unfold run_wsgi_frame.
    destruct (interim_continue_effect h) as (new0 & W0 & N0).
    rewrite <- entering_state in W0.
    destruct ((interim_continue ;; make_environ) h) as [[u|e|] h1];
      cbn [snd] in W0.
    - apply run_inv_guarded_execute.
      exists new0. split; [assumption|]. split; [intros _; assumption|].
      rewrite N0. split; [constructor|]. intros H. congruence.
    - exists new0. split; [assumption|]. split; [intros _; assumption|].
      rewrite N0. split; [constructor|]. intros H. congruence.
    - exists new0. split; [assumption|]. split; [intros _; assumption|].
      rewrite N0. split; [constructor|]. intros H. congruence. }
  unfold run_wsgi.
  destruct (run_wsgi_frame app passthrough h) as [r f]. cbn [snd] in *.
  destruct J as (new & W & _ & C & K).
  exists new. repeat split; try assumption.
  - apply K. assumption.
  - intros d fuel. apply handle_loop_closed. apply K. assumption.
Qed.

End ConnectionClose.

(** ** The header block *)

Section HeaderBlock.

Import HttpClient.

Lemma len_cons c s : Py.len (String c s) = Py.len s + 1.
Proof. unfold Py.len. cbn [String.length]. lia. Qed.

Lemma len_nonneg s : 0 <= Py.len s.
Proof. unfold Py.len. lia. Qed.

Lemma readline_line body : forall limit rest,
  no_lf body = true -> Py.len (line body) <= limit ->
  readline limit (line body ++ rest) = (line body, rest).
Proof.
  induction body as [|c body IH]; intros limit rest Hn Hl.
  - cbn [line String.append readline]. cbn in Hl.
    destruct (Z.leb_spec limit 0); [lia|]. reflexivity.
  - cbn [line String.append readline] in *. rewrite len_cons in Hl.
    pose proof (len_nonneg (body ++ String Py.LF "")).
    destruct (Z.leb_spec limit 0); [lia|].
    cbn [no_lf all_chars] in Hn. apply andb_prop in Hn. destruct Hn as [Hc Hn].
    apply negb_true_iff in Hc. rewrite Hc.
    fold (line body). rewrite (IH (limit - 1) rest Hn) by (unfold line; lia).
    reflexivity.
Qed.

(** A line longer than the limit is cut at the limit. *)
Lemma readline_long body : forall limit rest,
  no_lf body = true -> 0 < limit <= Py.len (line body) ->
  Py.len (fst (readline limit (line body ++ rest))) = limit.
Proof.
  induction body as [|c body IH]; intros limit rest Hn Hl.
  - cbn in Hl. assert (limit = 1) by lia. subst. reflexivity.
  - cbn [line String.append readline] in *. rewrite len_cons in Hl.
    destruct (Z.leb_spec limit 0); [lia|].
    cbn [no_lf all_chars] in Hn. apply andb_prop in Hn. destruct Hn as [Hc Hn].
    apply negb_true_iff in Hc. rewrite Hc.
    fold (line body).
    destruct (Z.eq_dec limit 1) as [->|Hne].
    + destruct (line body ++ rest) eqn:E; reflexivity.
    + specialize (IH (limit - 1) rest Hn).
      destruct (readline (limit - 1) (line body ++ rest)) as [l r].
      cbn [fst] in *. rewrite len_cons, IH; [lia|]. unfold line in *. lia.
Qed.

Lemma line_not_empty body : String.eqb (line body) "" = false.
Proof. destruct body; reflexivity. Qed.

Lemma is_terminator_line body :
  no_lf body = true ->
  is_terminator (line body) = true <-> ends_block body.
Proof.
  intros Hn. unfold is_terminator, ends_block.
  rewrite line_not_empty, orb_false_r, orb_true_iff, !String.eqb_eq.
  split.
  - intros [H|H].
    + right. destruct body as [|c [|d body]]; cbv in H.
      * discriminate H.
      * injection H as ->. reflexivity.
      * injection H as _ _ H. destruct body; discriminate H.
    + left. destruct body as [|c body]; [reflexivity|].
      cbv in H. injection H as -> H. destruct body; discriminate H.
  - intros [->| ->]; [right|left]; reflexivity.
Qed.

Lemma join_cons x l : Py.join (x :: l) = x ++ Py.join l.
Proof. reflexivity. Qed.


(** The loop passes over lines that neither end the block nor break a
    limit. *)
Lemma read_loop_prefix bodies : forall fuel headers s,
  Forall (fun b => no_lf b = true /\ ~ ends_block b /\ fits b) bodies ->
  Z.of_nat (List.length headers + List.length bodies) <= _MAXHEADERS ->
  _read_headers_loop (List.length bodies + fuel) headers
    (Py.join (map line bodies) ++ s)
  = _read_headers_loop fuel (headers ++ map line bodies)%list s.
Proof.
  induction bodies as [|b bodies IH]; intros fuel headers s HB Hc.
  - cbn [map app List.length Nat.add]. rewrite app_nil_r. reflexivity.
  - inversion HB as [|b' bs' (Bn & Be & Bf) HB']; subst.
    cbn [map List.length Nat.add _read_headers_loop].
    rewrite join_cons, str_app_assoc.
    rewrite readline_line by (assumption || (unfold fits, _MAXLINE in *; lia)).
    assert (L1 : (Py.len (line b) >? _MAXLINE) = false).
    { rewrite Z.gtb_ltb. apply Z.ltb_ge. exact Bf. }
    rewrite L1.
    assert (L2 : (Z.of_nat (List.length (append headers (line b)))
                  >? _MAXHEADERS) = false).
    { unfold append. rewrite length_app. cbn [List.length] in *.
      rewrite Z.gtb_ltb. apply Z.ltb_ge. lia. }
    rewrite L2.
    assert (L3 : is_terminator (line b) = false).
    { destruct (is_terminator (line b)) eqn:E; [|reflexivity].
      apply (is_terminator_line b Bn) in E. contradiction. }
    rewrite L3.
    rewrite (IH fuel (append headers (line b)) s HB').
    + unfold append. rewrite <- app_assoc. reflexivity.
    + unfold append. rewrite length_app. cbn [List.length] in *. lia.
Qed.

Lemma read_loop_too_long fuel headers b rest :
  no_lf b = true -> ~ fits b ->
  fst (_read_headers_loop (S fuel) headers (line b ++ rest))
  = Raise (LineTooLong "header line").
Proof.
  intros Hn Hf. cbn [_read_headers_loop].
  assert (L : Py.len (fst (readline (_MAXLINE + 1) (line b ++ rest)))
              = _MAXLINE + 1).
  { apply readline_long; [assumption|]. unfold fits, _MAXLINE in *. lia. }
  destruct (readline (_MAXLINE + 1) (line b ++ rest)) as [l fp1].
  cbn [fst] in L. rewrite L.
  replace (_MAXLINE + 1 >? _MAXLINE) with true by reflexivity.
  reflexivity.
Qed.

Lemma read_loop_too_many fuel headers b rest :
  no_lf b = true -> fits b ->
  Z.of_nat (List.length headers) = _MAXHEADERS ->
  fst (_read_headers_loop (S fuel) headers (line b ++ rest))
  = Raise (HTTPException "got more than 100 headers").
Proof.
  intros Hn Hf Hc. cbn [_read_headers_loop].
  rewrite readline_line by (assumption || (unfold fits, _MAXLINE in *; lia)).
  assert (L1 : (Py.len (line b) >? _MAXLINE) = false).
  { rewrite Z.gtb_ltb. apply Z.ltb_ge. exact Hf. }
  rewrite L1.
  assert (L2 : (Z.of_nat (List.length (append headers (line b)))
                >? _MAXHEADERS) = true).
  { unfold append. rewrite length_app. cbn [List.length].
    rewrite Z.gtb_ltb. apply Z.ltb_lt. lia. }
  rewrite L2. reflexivity.
Qed.

(** [_read_headers] on a stream that begins with a block of lines. *)
Lemma read_headers_prefix bodies s :
  Forall (fun b => no_lf b = true /\ ~ ends_block b /\ fits b) bodies ->
  Z.of_nat (List.length bodies) <= _MAXHEADERS ->
  _read_headers (Py.join (map line bodies) ++ s)
  = _read_headers_loop (S (Z.to_nat _MAXHEADERS) - List.length bodies)
      (map line bodies) s.
Proof.
  intros HB Hc. unfold _read_headers.
  replace (S (Z.to_nat _MAXHEADERS))
    with (List.length bodies
          + (S (Z.to_nat _MAXHEADERS) - List.length bodies))%nat at 1
    by (unfold _MAXHEADERS in *; lia).
  rewrite read_loop_prefix by (cbn [List.length Nat.add]; assumption).
  reflexivity.
Qed.

(** The loop of [_read_headers] always ends within its fuel. *)
Lemma read_loop_within_fuel fuel : forall headers fp,
  (fuel + List.length headers = S (Z.to_nat _MAXHEADERS))%nat ->
  (List.length headers <= Z.to_nat _MAXHEADERS)%nat ->
  fst (_read_headers_loop fuel headers fp) <> OutOfFuel.
Proof.
  induction fuel as [|fuel IH]; intros headers fp Hf Hl.
  - exfalso. cbn [Nat.add] in Hf. lia.
  - cbn [_read_headers_loop].
    destruct (readline (_MAXLINE + 1) fp) as [l fp1].
    destruct (Py.len l >? _MAXLINE); [discriminate|].
    destruct (Z.of_nat (List.length (append headers l)) >? _MAXHEADERS) eqn:E;
      [discriminate|].
    destruct (is_terminator l); [discriminate|].
    rewrite Z.gtb_ltb in E. apply Z.ltb_ge in E.
    unfold append in *. rewrite length_app in *. cbn [List.length] in *.
    apply IH; rewrite ?length_app; cbn [List.length]; lia.
Qed.

Lemma read_headers_terminates fp : fst (_read_headers fp) <> OutOfFuel.
Proof.
  unfold _read_headers. apply read_loop_within_fuel; cbn [List.length]; lia.
Qed.


Lemma name_char_range c :
  header_name_char c = true -> 33 <= Py.ord c <= 126 /\ Py.ord c <> 58.
Proof.
  unfold header_name_char, Py.between. intros H.
  apply orb_prop in H. destruct H as [H|H]; apply andb_prop in H;
    destruct H as [H1 H2]; apply Z.leb_le in H1; apply Z.leb_le in H2; lia.
Qed.

Lemma name_char_not c x :
  header_name_char c = true -> header_name_char x = false ->
  Ascii.eqb c x = false.
Proof.
  intros Hc Hx. apply Ascii.eqb_neq. intros ->. congruence.
Qed.















Lemma split_on_1_colon n tail :
  all_chars header_name_char n = true ->
  Py.split_on_1 ":" (n ++ String ":" tail) = [n; tail].
Proof.
  induction n as [|c n IH]; intros H; [reflexivity|].
  cbn [all_chars] in H. apply andb_prop in H. destruct H as [Hc Hn].
  cbn [String.append Py.split_on_1].
  rewrite (name_char_not c ":" Hc) by reflexivity.
  rewrite (IH Hn). reflexivity.
Qed.







Lemma parse_headers_raises stream e :
  fst (_read_headers stream) = Raise e ->
  fst (parse_headers stream) = Raise e.
Proof.
  unfold parse_headers, bind.
  destruct (_read_headers stream) as [[hs|e'|] fp]; cbn [fst];
    [discriminate|intros [= ->]; reflexivity|discriminate].
Qed.



(** The scenarios of the specification: a line of 70000 bytes, a block
    of 101 lines, and a block of 100 lines, the blank line counted. *)
Example oversized_line_refused :
  fst (parse_headers (N.iter 70000 (String "a") (String Py.LF "")))
  = Raise (LineTooLong "header line").
Proof. vm_compute. reflexivity. Qed.

Example too_many_lines_refused :
  fst (parse_headers (many_fields 100))
  = Raise (HTTPException "got more than 100 headers")
  /\ (exists msg, parse_headers (many_fields 99) = (Ok msg, "payload")
                  /\ List.length msg = 99%nat).
Proof.
  split; [vm_compute; reflexivity|].
  eexists. split; vm_compute; reflexivity.
Qed.

End HeaderBlock.

(** ** Termination of the loops of the model *)

Section Termination.

Import HttpClient HttpServer.

Lemma finishes_ret {S A} (a : A) : finishes (S := S) (ret a).
Proof. intros s. discriminate. Qed.

Lemma finishes_raise {S A} e : finishes (@raise S A e).
Proof. intros s. discriminate. Qed.

Lemma finishes_this {S} : finishes (S := S) this.
Proof. intros s. discriminate. Qed.

Lemma finishes_modify {S} (g : S -> S) : finishes (modify g).
Proof. intros s. discriminate. Qed.

Lemma finishes_bind {S A C} (m : M S A) (k : A -> M S C) :
  finishes m -> (forall a, finishes (k a)) -> finishes (bind m k).
Proof.
  intros Hm Hk s. unfold bind. specialize (Hm s).
  destruct (m s) as [[a|e|] s']; cbn [fst] in *;
    [apply Hk|discriminate|congruence].
Qed.

Lemma finishes_when {S} (b : bool) (m : M S unit) :
  finishes m -> finishes (when b m).
Proof. intros H. destruct b; [assumption|apply finishes_ret]. Qed.

Lemma finishes_try_except {S A} (m : M S A) (h : exn -> M S A) :
  finishes m -> (forall e, finishes (h e)) -> finishes (try_except m h).
Proof.
  intros Hm Hh s. unfold try_except. specialize (Hm s).
  destruct (m s) as [[a|e|] s']; cbn [fst] in *;
    [discriminate|apply Hh|congruence].
Qed.

Lemma finishes_try_finally {S A} (m : M S A) (fin : M S unit) :
  finishes m -> finishes fin -> finishes (try_finally m fin).
Proof.
  intros Hm Hf s. unfold try_finally. specialize (Hm s).
  destruct (m s) as [[a|e|] s']; cbn [fst] in *; [| |congruence];
    specialize (Hf s'); destruct (fin s') as [[u|e'|] s''];
    cbn [fst] in *; congruence.
Qed.

Lemma finishes_on_self {A} (m : M Handler A) :
  finishes m -> finishes (Serving.on_self m).
Proof.
  intros H f. unfold Serving.on_self. specialize (H (Serving.self f)).
  destruct (m (Serving.self f)) as [r h]. exact H.
Qed.

Lemma inv_this {S} (I : S -> Prop) : inv I this.
Proof. intros s H. exact H. Qed.

Lemma inv_on_self {A} (P : Handler -> Prop) (m : M Handler A) :
  inv P m -> inv (fun f => P (Serving.self f)) (Serving.on_self m).
Proof.
  intros H f Hf. unfold Serving.on_self. specialize (H (Serving.self f) Hf).
  destruct (m (Serving.self f)) as [r h]. exact H.
Qed.

Ltac finishes_step :=
  first
    [ apply finishes_ret | apply finishes_raise | apply finishes_this
    | apply finishes_modify
    | apply finishes_bind; [|intros ?] | apply finishes_when
    | apply finishes_try_except; [|intros ?]
    | apply finishes_try_finally
    | match goal with
      | |- finishes (if ?b then _ else _) => destruct b
      | |- finishes (match ?x with _ => _ end) => destruct x
      | |- finishes (let '(_, _) := ?x in _) => destruct x
      end ].

Ltac inv_step :=
  first
    [ apply inv_ret | apply inv_raise | apply inv_this
    | apply inv_modify; intros ? ?; assumption
    | apply inv_bind; [|intros ?] | apply inv_when
    | apply inv_try_except; [|intros ?]
    | apply inv_try_finally
    | match goal with
      | |- inv _ (if ?b then _ else _) => destruct b
      | |- inv _ (match ?x with _ => _ end) => destruct x
      | |- inv _ (let '(_, _) := ?x in _) => destruct x
      end ].

(** *** Reading *)

Lemma readline_rest_length fp : forall limit,
  (String.length (snd (readline limit fp)) <= String.length fp)%nat.
Proof.
  induction fp as [|c fp IH]; intros limit; cbn [readline]; [apply le_n|].
  destruct (limit <=? 0); [apply le_n|].
  destruct (Ascii.eqb c Py.LF); [cbn; lia|].
  specialize (IH (limit - 1)).
  destruct (readline (limit - 1) fp) as [l r]. cbn in *. lia.
Qed.

Lemma readline_consumes c fp limit :
  0 < limit ->
  (String.length (snd (readline limit (String c fp))) < S (String.length fp))%nat.
Proof.
  intros Hl. cbn [readline].
  destruct (Z.leb_spec limit 0); [lia|].
  destruct (Ascii.eqb c Py.LF); [cbn; lia|].
  pose proof (readline_rest_length fp (limit - 1)).
  destruct (readline (limit - 1) fp) as [l r]. cbn in *. lia.
Qed.

Lemma read_loop_rest_length fuel : forall headers fp,
  (String.length (snd (_read_headers_loop fuel headers fp))
   <= String.length fp)%nat.
Proof.
  induction fuel as [|fuel IH]; intros headers fp;
    cbn [_read_headers_loop]; [apply le_n|].
  pose proof (readline_rest_length fp (_MAXLINE + 1)) as R.
  destruct (readline (_MAXLINE + 1) fp) as [l fp1]. cbn [snd] in R.
  destruct (Py.len l >? _MAXLINE); [exact R|].
  destruct (Z.of_nat (List.length (append headers l)) >? _MAXHEADERS);
    [exact R|].
  destruct (is_terminator l); [exact R|].
  specialize (IH (append headers l) fp1). lia.
Qed.

Lemma read_header_block_forward n : inv (unread_at_most n) read_header_block.
Proof.
  intros h Hh. unfold read_header_block, unread_at_most in *.
  pose proof (read_loop_rest_length (S (Z.to_nat _MAXHEADERS)) [] (rfile h)) as R.
  unfold parse_headers, bind, ret, _read_headers.
  destruct (_read_headers_loop (S (Z.to_nat _MAXHEADERS)) [] (rfile h))
    as [[hs|e|] fp]; cbn [snd] in *; cbn [rfile set_rfile]; lia.
Qed.

Lemma read_header_block_finishes : finishes read_header_block.
Proof.
  intros h. unfold read_header_block, parse_headers, bind, ret.
  pose proof (read_headers_terminates (rfile h)) as T.
  destruct (_read_headers (rfile h)) as [[hs|e|] fp]; cbn [fst] in *;
    [discriminate|discriminate|congruence].
Qed.

(** *** [parse_request] *)

Lemma parse_request_finishes : finishes parse_request.
Proof.
  unfold parse_request, parse_words, negotiate_version, examine_headers,
    load_headers, connection_directive, expect_directive, handle_expect_100,
    end_headers, flush_headers, send_response_only, send_error, log_message.
  repeat first [apply read_header_block_finishes | finishes_step].
Qed.

Lemma parse_request_forward n : inv (unread_at_most n) parse_request.
Proof.
  unfold parse_request, parse_words, negotiate_version, examine_headers,
    load_headers, connection_directive, expect_directive, handle_expect_100,
    end_headers, flush_headers, send_response_only, send_error, log_message.
  repeat first [apply read_header_block_forward | inv_step].
Qed.

(** *** [handle]: the fuel given is enough *)

Section Loop.

Variable dispatch : string -> option (M Handler unit).

Hypothesis dispatch_well_behaved :
  forall name method, dispatch name = Some method -> well_behaved method.

Lemma read_requestline_forward n : inv (unread_at_most n) read_requestline.
Proof.
  intros h Hh. unfold read_requestline, unread_at_most in *.
  pose proof (readline_rest_length (rfile h) 65537) as R.
  destruct (readline 65537 (rfile h)) as [l fp]. cbn in *. lia.
Qed.

(** What follows the reading of the request line. *)
Lemma after_requestline_finishes raw :
  finishes
    (if Py.len raw >? 65536 then
       modify (set_requestline "") ;;
       modify (set_request_version "") ;;
       send_error HTTPStatus.REQUEST_URI_TOO_LONG None None
     else if String.eqb raw "" then modify (set_close_connection true)
     else
       ok <- parse_request ;;
       if negb ok then ret tt
       else
         h <- this ;;
         let mname := match command h with Some c => c | None => "" end in
         match dispatch mname with
         | None => raise (AttributeError "NOT_IMPLEMENTED")
         | Some method => method
         end).
Proof.
  destruct (Py.len raw >? 65536).
  { unfold send_error, log_message. repeat finishes_step. }
  destruct (String.eqb raw ""); [apply finishes_modify|].
  apply finishes_bind; [apply parse_request_finishes|]. intros ok.
  destruct (negb ok); [apply finishes_ret|].
  apply finishes_bind; [apply finishes_this|]. intros h. cbn zeta.
  destruct (dispatch _) as [method|] eqn:E; [|apply finishes_raise].
  apply (dispatch_well_behaved _ _ E).
Qed.

Lemma after_requestline_forward raw n :
  inv (unread_at_most n)
    (if Py.len raw >? 65536 then
       modify (set_requestline "") ;;
       modify (set_request_version "") ;;
       send_error HTTPStatus.REQUEST_URI_TOO_LONG None None
     else if String.eqb raw "" then modify (set_close_connection true)
     else
       ok <- parse_request ;;
       if negb ok then ret tt
       else
         h <- this ;;
         let mname := match command h with Some c => c | None => "" end in
         match dispatch mname with
         | None => raise (AttributeError "NOT_IMPLEMENTED")
         | Some method => method
         end).
Proof.
  destruct (Py.len raw >? 65536).
  { unfold send_error, log_message. repeat inv_step. }
  destruct (String.eqb raw ""); [inv_step|].
  apply inv_bind; [apply parse_request_forward|]. intros ok.
  destruct (negb ok); [apply inv_ret|].
  apply inv_bind; [apply inv_this|]. intros h. cbn zeta.
  destruct (dispatch _) as [method|] eqn:E; [|apply inv_raise].
  apply (dispatch_well_behaved _ _ E).
Qed.

Lemma serve_request_finishes : finishes (serve_request dispatch).
Proof.
  unfold serve_request.
  apply finishes_bind; [|intros raw; apply after_requestline_finishes].
  intros h. unfold read_requestline.
  destruct (readline 65537 (rfile h)). discriminate.
Qed.

Lemma handle_one_request_finishes : finishes (handle_one_request dispatch).
Proof.
  unfold handle_one_request.
  apply finishes_try_except; [apply serve_request_finishes|].
  intros e. unfold log_message.
  destruct e; repeat finishes_step.
Qed.

Lemma serve_request_progress h :
  (rfile h = "" -> serve_request dispatch h = (Ok tt, set_close_connection true
      (set_raw_requestline "" (set_rfile "" h))))
  /\ (rfile h <> "" ->
      (String.length (rfile (snd (serve_request dispatch h)))
       < String.length (rfile h))%nat).
Proof.
  split.
  - intros E. unfold serve_request, bind at 1, read_requestline.
    rewrite E. reflexivity.
  - intros E. destruct (rfile h) as [|c fp] eqn:R; [congruence|].
    pose proof (readline_consumes c fp 65537 ltac:(lia)) as C.
    unfold serve_request, bind at 1, read_requestline. rewrite R.
    destruct (readline 65537 (String c fp)) as [l fp1]. cbn [snd] in C.
    set (h1 := set_raw_requestline l (set_rfile fp1 h)).
    assert (B : unread_at_most (String.length fp1) h1) by apply le_n.
    apply (after_requestline_forward l _ h1) in B.
    unfold unread_at_most in B. cbn [String.length]. lia.
Qed.

(** The [except] clause of [handle_one_request] reads nothing. *)
Lemma handle_one_request_rfile h :
  rfile (snd (handle_one_request dispatch h))
  = rfile (snd (serve_request dispatch h)).
Proof.
  unfold handle_one_request, try_except.
  destruct (serve_request dispatch h) as [[u|e|] h1]; try reflexivity.
  destruct e; reflexivity.
Qed.

(** A turn of the loop either finds the stream at its end and closes the
    connection, or takes at least one byte from it. *)
Lemma handle_one_request_progress h :
  (rfile h = "" ->
   close_connection (snd (handle_one_request dispatch h)) = true)
  /\ (rfile h <> "" ->
      (String.length (rfile (snd (handle_one_request dispatch h)))
       < String.length (rfile h))%nat).
Proof.
  destruct (serve_request_progress h) as [P0 P1]. split.
  - intros E. unfold handle_one_request, try_except.
    rewrite (P0 E). reflexivity.
  - intros E. rewrite handle_one_request_rfile. exact (P1 E).
Qed.

Lemma handle_loop_finishes fuel : forall h,
  (String.length (rfile h) < fuel)%nat ->
  fst (handle_loop dispatch fuel h) <> OutOfFuel.
Proof.
  induction fuel as [|fuel IH]; intros h Hf; [inversion Hf|].
  cbn [handle_loop]. unfold bind at 1, this.
  destruct (close_connection h) eqn:C; [discriminate|].
  unfold bind.
  pose proof (handle_one_request_finishes h) as F.
  destruct (handle_one_request_progress h) as [P0 P1].
  destruct (handle_one_request dispatch h) as [[u|e|] h1]; cbn [fst snd] in *;
    [|discriminate|congruence].
  destruct (close_connection h1) eqn:C1.
  - rewrite (handle_loop_closed dispatch fuel h1 C1). cbn [fst]. discriminate.
  - apply IH. destruct (rfile h) as [|c fp] eqn:R.
    + specialize (P0 eq_refl). congruence.
    + specialize (P1 ltac:(discriminate)). cbn [String.length] in *. lia.
Qed.

Lemma handle_finishes : finishes (HttpServer.handle dispatch).
Proof.
  unfold HttpServer.handle.
  apply finishes_bind; [apply finishes_modify|]. intros _.
  apply finishes_bind; [apply handle_one_request_finishes|]. intros _.
  intros h. unfold bind, this. apply handle_loop_finishes. apply le_n.
Qed.

End Loop.

(** *** The bridge *)

Lemma drain_loop_finishes fuel : forall total_size total_reads,
  Z.of_nat fuel + total_reads = 1000 -> total_reads < 1000 ->
  finishes (Serving.drain_loop fuel total_size total_reads).
Proof.
  induction fuel as [|fuel IH]; intros ts tr Hf Ht h; [lia|].
  cbn [Serving.drain_loop].
  destruct (Serving.nonempty (rfile h)); cbn [negb]; [|discriminate].
  destruct (Serving.read 10000000 (rfile h)) as [data fp].
  destruct (negb (Serving.nonempty data) || (10000000000 <=? ts + Py.len data))
    eqn:E1; cbn [orb]; [discriminate|].
  destruct (Z.leb_spec 1000 (tr + 1)); [discriminate|].
  apply IH; lia.
Qed.

Lemma drain_finishes : finishes Serving.drain.
Proof. apply drain_loop_finishes; lia. Qed.

Lemma read_rest_length fp : forall n,
  (String.length (snd (Serving.read n fp)) <= String.length fp)%nat.
Proof.
  induction fp as [|c fp IH]; intros n; cbn [Serving.read]; [apply le_n|].
  destruct (n <=? 0); [apply le_n|].
  specialize (IH (n - 1)).
  destruct (Serving.read (n - 1) fp) as [d r]. cbn in *. lia.
Qed.

Lemma drain_loop_forward n fuel : forall total_size total_reads,
  inv (unread_at_most n) (Serving.drain_loop fuel total_size total_reads).
Proof.
  induction fuel as [|fuel IH]; intros ts tr h Hh;
    cbn [Serving.drain_loop]; [exact Hh|].
  destruct (Serving.nonempty (rfile h)); cbn [negb]; [|exact Hh].
  pose proof (read_rest_length (rfile h) 10000000) as R.
  destruct (Serving.read 10000000 (rfile h)) as [data fp]. cbn [snd] in R.
  assert (B : unread_at_most n (set_rfile fp h)).
  { unfold unread_at_most in *. cbn [rfile set_rfile]. lia. }
  match goal with
  | |- context [if ?c then _ else _] => destruct c
  end; [exact B|]. apply IH. exact B.
Qed.

Ltac frame_finishes :=
  repeat first
    [ apply finishes_on_self;
      unfold send_response, send_header, end_headers, flush_headers,
        send_response_only, log_request, log_message, wfile_write,
        Serving.protocal_version
    | finishes_step ].

Ltac frame_forward n :=
  repeat first
    [ apply (inv_on_self (unread_at_most n));
      unfold send_response, send_header, end_headers, flush_headers,
        send_response_only, log_request, log_message, wfile_write,
        Serving.protocal_version
    | inv_step ].

Lemma send_all_finishes hs : forall keys, finishes (Serving.send_all hs keys).
Proof.
  induction hs as [|[k v] hs IH]; intros keys; cbn [Serving.send_all];
    [apply finishes_ret|].
  apply finishes_bind; [unfold send_header; repeat finishes_step|].
  intros _. apply IH.
Qed.

Lemma send_all_forward n hs : forall keys,
  inv (unread_at_most n) (Serving.send_all hs keys).
Proof.
  induction hs as [|[k v] hs IH]; intros keys; cbn [Serving.send_all];
    [apply inv_ret|].
  apply inv_bind; [unfold send_header; repeat inv_step|].
  intros _. apply IH.
Qed.

Lemma write_finishes data : finishes (Serving.write data).
Proof.
  unfold Serving.write, Serving.send_head.
  repeat first
    [ apply send_all_finishes | progress frame_finishes ].
Qed.

Lemma write_forward n data :
  inv (fun f => unread_at_most n (Serving.self f)) (Serving.write data).
Proof.
  unfold Serving.write, Serving.send_head.
  repeat first
    [ apply send_all_forward | progress frame_forward n ].
Qed.

Lemma start_response_finishes status hdrs exc_info :
  finishes (Serving.start_response status hdrs exc_info).
Proof. unfold Serving.start_response. frame_finishes. Qed.

Lemma start_response_forward n status hdrs exc_info :
  inv (fun f => unread_at_most n (Serving.self f))
    (Serving.start_response status hdrs exc_info).
Proof. unfold Serving.start_response. frame_forward n. Qed.

Lemma run_op_finishes op : finishes (Serving.run_op op).
Proof.
  induction op; cbn [Serving.run_op].
  - apply start_response_finishes.
  - apply write_finishes.
  - apply finishes_raise.
  - apply finishes_try_except; [assumption|]. intros _. apply finishes_ret.
Qed.

Lemma run_op_forward n op :
  inv (fun f => unread_at_most n (Serving.self f)) (Serving.run_op op).
Proof.
  induction op; cbn [Serving.run_op].
  - apply start_response_forward.
  - apply write_forward.
  - apply inv_raise.
  - apply inv_try_except; [assumption|]. intros _. apply inv_ret.
Qed.

Lemma run_body_finishes ops : finishes (Serving.run_body ops).
Proof.
  induction ops as [|op ops IH]; cbn [Serving.run_body];
    [apply finishes_ret|].
  apply finishes_bind; [apply run_op_finishes|]. intros _. exact IH.
Qed.

Lemma run_body_forward n ops :
  inv (fun f => unread_at_most n (Serving.self f)) (Serving.run_body ops).
Proof.
  induction ops as [|op ops IH]; cbn [Serving.run_body]; [apply inv_ret|].
  apply inv_bind; [apply run_op_forward|]. intros _. exact IH.
Qed.

Lemma iterate_finishes steps : finishes (Serving.iterate steps).
Proof.
  induction steps as [|[op|data] steps IH]; cbn [Serving.iterate];
    [apply finishes_ret| |];
    (apply finishes_bind;
     [first [apply run_op_finishes|apply write_finishes]|intros _; exact IH]).
Qed.

Lemma iterate_forward n steps :
  inv (fun f => unread_at_most n (Serving.self f)) (Serving.iterate steps).
Proof.
  induction steps as [|[op|data] steps IH]; cbn [Serving.iterate];
    [apply inv_ret| |];
    (apply inv_bind;
     [first [apply run_op_forward|apply write_forward]|intros _; exact IH]).
Qed.

Lemma execute_finishes app : finishes (Serving.execute app).
Proof.
  destruct app as [|body iterable]; cbn [Serving.execute];
    [apply finishes_raise|].
  apply finishes_bind; [apply run_body_finishes|]. intros _.
  apply finishes_try_finally;
    [|apply finishes_on_self, drain_finishes].
  apply finishes_bind; [apply iterate_finishes|]. intros _.
  apply finishes_bind; [apply finishes_this|]. intros f.
  apply finishes_bind; [apply finishes_when, write_finishes|]. intros _.
  frame_finishes.
Qed.

Lemma execute_forward n app :
  inv (fun f => unread_at_most n (Serving.self f)) (Serving.execute app).
Proof.
  destruct app as [|body iterable]; cbn [Serving.execute]; [apply inv_raise|].
  apply inv_bind; [apply run_body_forward|]. intros _.
  apply inv_try_finally;
    [|apply (inv_on_self (unread_at_most n)); apply drain_loop_forward].
  apply inv_bind; [apply iterate_forward|]. intros _.
  apply inv_bind; [apply inv_this|]. intros f.
  apply inv_bind; [apply inv_when, write_forward|]. intros _.
  frame_forward n.
Qed.

Lemma guarded_execute_finishes app passthrough :
  finishes (Serving.guarded_execute app passthrough).
Proof.
  unfold Serving.guarded_execute.
  apply finishes_try_except; [apply execute_finishes|]. intros e.
  destruct e;
    repeat first [apply execute_finishes | progress frame_finishes].
Qed.

Lemma guarded_execute_forward n app passthrough :
  inv (fun f => unread_at_most n (Serving.self f))
    (Serving.guarded_execute app passthrough).
Proof.
  unfold Serving.guarded_execute.
  apply inv_try_except; [apply execute_forward|]. intros e.
  destruct e;
    repeat first [apply execute_forward | progress frame_forward n].
Qed.

Lemma run_wsgi_well_behaved app passthrough :
  well_behaved (Serving.run_wsgi app passthrough).
Proof.
  split.
  - intros h. unfold Serving.run_wsgi, Serving.run_wsgi_frame.
    assert (F : finishes (Serving.interim_continue ;; Serving.make_environ)).
    { apply finishes_bind.
      - unfold Serving.interim_continue, wfile_write. repeat finishes_step.
      - intros _ s.
        destruct (make_environ_outcome s) as [-> | [e ->]]; discriminate. }
    specialize (F h).
    destruct ((Serving.interim_continue ;; Serving.make_environ) h)
      as [[u|e|] h1]; cbn [fst] in F; [|discriminate|congruence].
    pose proof (guarded_execute_finishes app passthrough (Serving.new_frame h1)) as G.
    destruct (Serving.guarded_execute app passthrough (Serving.new_frame h1))
      as [r f]. exact G.
  - intros n h Hh. unfold Serving.run_wsgi, Serving.run_wsgi_frame.
    assert (F : inv (unread_at_most n) Serving.interim_continue).
    { unfold Serving.interim_continue, wfile_write. repeat inv_step. }
    specialize (F h Hh). rewrite <- entering_state in F.
    destruct ((Serving.interim_continue ;; Serving.make_environ) h)
      as [[u|e|] h1]; cbn [snd] in F; [|exact F|exact F].
    pose proof (guarded_execute_forward n app passthrough
                  (Serving.new_frame h1) F) as G.
    destruct (Serving.guarded_execute app passthrough (Serving.new_frame h1))
      as [r f]. exact G.
Qed.

(** Whatever the application and the input, a run of the handler comes to
    an end within the fuel that [handle] gives its loop. *)
Theorem serving_handle_finishes app passthrough :
  finishes (Serving.handle app passthrough).
Proof.
  unfold Serving.handle.
  apply finishes_try_except.
  - apply handle_finishes. intros name method E.
    unfold Serving.dispatch in E. injection E as <-.
    apply run_wsgi_well_behaved.
  - intros e. destruct e; first [apply finishes_ret | apply finishes_raise].
Qed.

End Termination.

(* ================================================================== *)
(** * Further properties of the modelled code *)
(* ================================================================== *)

Section HeadersLookup.

Import WsgiHeaders.

Lemma get_app (a b : Headers) n :
  get (a ++ b)%list n = match get a n with Some v => Some v | None => get b n end.
Proof.
  induction a as [|[k v] a IH]; simpl; [reflexivity|].
  destruct (String.eqb (Py.lower k) (Py.lower n)); [reflexivity|exact IH].
Qed.

Lemma get_delitem h name n :
  get (__delitem__ h name) n = if same_name n name then None else get h n.
Proof.
  unfold __delitem__, same_name.
  induction h as [|[k v] h IH]; simpl.
  - destruct (String.eqb (Py.lower n) (Py.lower name)); reflexivity.
  - destruct (String.eqb (Py.lower k) (Py.lower name)) eqn:Ek; simpl.
    + rewrite IH. apply String.eqb_eq in Ek.
      destruct (String.eqb (Py.lower n) (Py.lower name)) eqn:En; [reflexivity|].
      rewrite Ek, String.eqb_sym, En. reflexivity.
    + destruct (String.eqb (Py.lower k) (Py.lower n)) eqn:Ekn.
      * apply String.eqb_eq in Ekn. rewrite <- Ekn, Ek. reflexivity.
      * exact IH.
Qed.

Lemma get_all_delitem h name n :
  get_all (__delitem__ h name) n = if same_name n name then [] else get_all h n.
Proof.
  unfold __delitem__, get_all, same_name.
  destruct (String.eqb (Py.lower n) (Py.lower name)) eqn:En.
  - apply String.eqb_eq in En. rewrite En.
    induction h as [|[k v] h IH]; simpl; [reflexivity|].
    destruct (String.eqb (Py.lower k) (Py.lower name)) eqn:Ek; simpl.
    + exact IH.
    + rewrite Ek. exact IH.
  - induction h as [|[k v] h IH]; simpl; [reflexivity|].
    destruct (String.eqb (Py.lower k) (Py.lower name)) eqn:Ek; simpl.
    + apply String.eqb_eq in Ek. rewrite Ek, String.eqb_sym, En. exact IH.
    + destruct (String.eqb (Py.lower k) (Py.lower n)); simpl;
        [f_equal|]; exact IH.
Qed.

Lemma same_name_refl n : same_name n n = true.
Proof. apply String.eqb_refl. Qed.

(** X1: deleting a name removes every header of that name, whatever the
    case of its letters, and no other: afterwards [get], [get_all] and
    [has_key] find nothing under the name and answer for every other name
    as before; deleting again changes nothing. *)
Theorem delitem_then_lookup (h : Headers) (name n : string) :
  get (__delitem__ h name) n = (if same_name n name then None else get h n)
  /\ get_all (__delitem__ h name) n
     = (if same_name n name then [] else get_all h n)
  /\ has_key (__delitem__ h name) name = false
  /\ __delitem__ (__delitem__ h name) name = __delitem__ h name.
Proof.
  split; [apply get_delitem|].
  split; [apply get_all_delitem|].
  split.
  - unfold has_key. rewrite get_delitem, same_name_refl. reflexivity.
  - unfold __delitem__. apply filter_twice.
Qed.

(** X2: after [h[name] = v], [get] returns [v] for every spelling of the
    name and what it returned before for every other name; the collection
    grows by one header at most. *)
Theorem setitem_then_get (h : Headers) (name v n : string) :
  get (__setitem__ h name v) n = (if same_name n name then Some v else get h n)
  /\ has_key (__setitem__ h name v) name = true
  /\ __len__ (__setitem__ h name v) <= __len__ h + 1.
Proof.
  assert (G : forall m, get (__setitem__ h name v) m
                        = if same_name m name then Some v else get h m).
  { intros m. unfold __setitem__, append. rewrite get_app, get_delitem.
    unfold same_name. simpl.
    rewrite (String.eqb_sym (Py.lower name) (Py.lower m)).
    destruct (String.eqb (Py.lower m) (Py.lower name)); [reflexivity|].
    destruct (get h m); reflexivity. }
  split; [apply G|]. split.
  - unfold has_key. rewrite G, same_name_refl. reflexivity.
  - unfold __len__, __setitem__, append, __delitem__.
    rewrite length_app. simpl.
    pose proof (filter_length_le
      (fun kv => negb (String.eqb (Py.lower (fst kv)) (Py.lower name))) h).
    lia.
Qed.

(** X3: [get] is the first element of [get_all], and [has_key] tells
    whether [get_all] is non-empty. *)
Theorem get_first_of_get_all (h : Headers) (n : string) :
  get h n = List.hd_error (get_all h n)
  /\ has_key h n = negb (Nat.eqb (List.length (get_all h n)) 0)
  /\ __getitem__ h n = get h n.
Proof.
  assert (G : get h n = List.hd_error (get_all h n)).
  { unfold get_all. induction h as [|[k v] h IH]; simpl; [reflexivity|].
    destruct (String.eqb (Py.lower k) (Py.lower n)); simpl; [reflexivity|exact IH]. }
  split; [exact G|]. split; [|reflexivity].
  unfold has_key. rewrite G. destruct (get_all h n); reflexivity.
Qed.


Lemma format_params_plain _param : forall parts,
  valued _param = false ->
  format_params _param parts
  = Ok (parts ++ map (fun kv => Py.replace "_" "-" (fst kv)) _param)%list.
Proof.
  induction _param as [|[k v] rest IH]; intros parts H; simpl.
  - rewrite app_nil_r. reflexivity.
  - simpl in H. apply orb_false_iff in H. destruct H as [Hv Hrest].
    destruct v as [v|].
    + unfold _formatparam. destruct v; [|discriminate].
      simpl. rewrite (IH _ Hrest). unfold append. rewrite <- app_assoc.
      reflexivity.
    + rewrite (IH _ Hrest). unfold append. rewrite <- app_assoc. reflexivity.
Qed.

Lemma len_positive c s : (0 <? Py.len (String c s)) = true.
Proof. unfold Py.len. simpl String.length. apply Z.ltb_lt. lia. Qed.

Lemma format_params_valued _param : forall parts,
  valued _param = true -> format_params _param parts = Raise ValueError.
Proof.
  induction _param as [|[k v] rest IH]; intros parts H; simpl.
  - discriminate.
  - simpl in H. destruct v as [v|].
    + unfold _formatparam. destruct v as [|c v].
      * simpl in H. simpl. apply IH. exact H.
      * rewrite len_positive. reflexivity.
    + simpl in H. apply IH. exact H.
Qed.

(** X5: [add_header] cannot format a parameter that has a value: as soon
    as one keyword argument carries a non-empty value the call raises
    [ValueError] and leaves the collection as it was; otherwise it appends
    one header whose value is [_value] and the parameter names, with
    [_] turned into [-], joined by [; ]. *)
Theorem add_header_parameters (h : Headers) (_name : string)
    (_value : option string) (_param : list (string * option string)) :
  add_header _name _value _param h =
  if valued _param then (Raise ValueError, h)
  else (Ok tt,
        append h
          (_name,
           Py.join_sep "; "
             (match _value with Some v => [v] | None => [] end
              ++ map (fun kv => Py.replace "_" "-" (fst kv)) _param)%list)).
Proof.
  unfold add_header. destruct (valued _param) eqn:E.
  - rewrite (format_params_valued _ _ E). reflexivity.
  - rewrite (format_params_plain _ _ E). reflexivity.
Qed.

End HeadersLookup.

Section HeadersWire.

Import WsgiHeaders HttpClient.





End HeadersWire.

Section MatchingHeaders.

Import HttpClient.

Lemma lower_char_colon c :
  Ascii.eqb (Py.lower_char c) ":" = Ascii.eqb c ":".
Proof.
  destruct c as [[] [] [] [] [] [] [] []]; vm_compute; reflexivity.
Qed.

Lemma no_colon_lower s : no_colon (Py.lower s) = no_colon s.
Proof.
  unfold no_colon. induction s as [|c s IH]; [reflexivity|].
  simpl. rewrite lower_char_colon, IH. reflexivity.
Qed.

Lemma no_colon_substring s : forall n,
  no_colon s = true -> no_colon (String.substring 0 n s) = true.
Proof.
  unfold no_colon. induction s as [|c s IH]; intros [|n] H; try reflexivity.
  simpl in *. apply andb_true_iff in H. destruct H as [Hc Hs].
  rewrite Hc. apply IH. exact Hs.
Qed.

Lemma no_colon_suffix a : no_colon (a ++ ":") = false.
Proof.
  unfold no_colon. rewrite all_chars_app. simpl. apply andb_false_r.
Qed.

Lemma matching_lines_names name n lines : forall lst,
  Forall (fun l => no_colon l = true) lines ->
  matching_lines (Py.lower name ++ ":") n lines false lst = lst.
Proof.
  induction lines as [|l lines IH]; intros lst H; [reflexivity|].
  inversion H as [|? ? Hl Hrest]; subst.
  cbn [matching_lines].
  destruct (String.eqb (Py.lower (String.substring 0 n l))
              (Py.lower name ++ ":")) eqn:E.
  - apply String.eqb_eq in E.
    pose proof (no_colon_suffix (Py.lower name)) as C.
    rewrite <- E, no_colon_lower, (no_colon_substring _ _ Hl) in C.
    discriminate C.
  - destruct (negb (Py.str_isspace (String.substring 0 1 l)));
      apply IH; exact Hrest.
Qed.

Lemma name_then_colon_split l :
  name_then_colon l = true ->
  exists n tail,
    l = n ++ String ":" tail /\ all_chars header_name_char n = true.
Proof.
  induction l as [|c l IH]; intros H; [discriminate|].
  simpl in H. destruct (Ascii.eqb c ":") eqn:E.
  - apply Ascii.eqb_eq in E. subst c. exists "", l. split; reflexivity.
  - apply andb_true_iff in H. destruct H as [Hc Hl].
    destruct (IH Hl) as (n & tail & -> & Hn).
    exists (String c n), tail. split; [reflexivity|].
    simpl. rewrite Hc, Hn. reflexivity.
Qed.

Lemma name_chars_no_colon n :
  all_chars header_name_char n = true -> no_colon n = true.
Proof.
  unfold no_colon. induction n as [|c n IH]; intros H; [reflexivity|].
  simpl in *. apply andb_true_iff in H. destruct H as [Hc Hn].
  rewrite (IH Hn), andb_true_r.
  apply negb_true_iff. apply name_char_not; [exact Hc|reflexivity].
Qed.

Lemma header_source_parse_name l more :
  name_then_colon l = true ->
  all_chars header_name_char (fst (header_source_parse (l :: more))) = true.
Proof.
  intros H. destruct (name_then_colon_split _ H) as (n & tail & -> & Hn).
  unfold header_source_parse. rewrite (split_on_1_colon _ _ Hn).
  exact Hn.
Qed.

Lemma Forall_append {A} (P : A -> Prop) l x :
  Forall P l -> P x -> Forall P (append l x).
Proof.
  intros Hl Hx. unfold append. apply Forall_app. split; [exact Hl|].
  constructor; [exact Hx|constructor].
Qed.

Lemma flush_last_names lastvalue acc :
  (lastvalue = [] \/
   exists l more, lastvalue = l :: more /\ name_then_colon l = true) ->
  Forall (fun kv => all_chars header_name_char (fst kv) = true) acc ->
  Forall (fun kv => all_chars header_name_char (fst kv) = true) (flush_last lastvalue acc).
Proof.
  intros [->|(l & more & -> & Hl)] Hacc; [exact Hacc|].
  unfold flush_last. apply Forall_append; [exact Hacc|].
  apply header_source_parse_name. exact Hl.
Qed.

Lemma parse_headers_names lines : forall lineno lastvalue acc,
  Forall (fun l => headerRE l = true) lines ->
  (lastvalue = [] \/
   exists l more, lastvalue = l :: more /\ name_then_colon l = true) ->
  Forall (fun kv => all_chars header_name_char (fst kv) = true) acc ->
  Forall (fun kv => all_chars header_name_char (fst kv) = true)
    (_parse_headers lineno lines lastvalue acc).
Proof.
  induction lines as [|line rest IH]; intros lineno lastvalue acc Hl Hv Hacc.
  - apply flush_last_names; assumption.
  - inversion Hl as [|? ? Hline Hrest]; subst.
    cbn [_parse_headers].
    destruct (starts_blank line) eqn:Eb.
    + destruct lastvalue as [|l more].
      * apply IH; [exact Hrest|left; reflexivity|exact Hacc].
      * apply IH; [exact Hrest| |exact Hacc].
        right. destruct Hv as [Hv|(l' & more' & Hv & Hn)]; [discriminate|].
        injection Hv as -> ->. exists l', (more' ++ [line])%list.
        split; [reflexivity|exact Hn].
    + pose proof (flush_last_names _ _ Hv Hacc) as Hacc'.
      destruct (Py.startswith "From " line) eqn:Ef.
      * destruct lineno; [apply IH; auto|].
        destruct rest; [exact Hacc'|apply IH; auto].
      * destruct (Py.find ":" line =? 0); [apply IH; auto|].
        apply IH; [exact Hrest| |exact Hacc'].
        right. exists line, []. split; [reflexivity|].
        unfold headerRE in Hline. rewrite Ef, Eb in Hline.
        simpl in Hline. rewrite orb_false_r in Hline. exact Hline.
Qed.

Lemma header_lines_shape lines :
  Forall (fun l => headerRE l = true) (header_lines lines).
Proof.
  induction lines as [|l lines IH]; simpl; [constructor|].
  destruct (headerRE l) eqn:E; constructor; assumption.
Qed.

Lemma parsestr_names text :
  Forall (fun kv => all_chars header_name_char (fst kv) = true) (parsestr text).
Proof.
  unfold parsestr. apply parse_headers_names.
  - apply header_lines_shape.
  - left. reflexivity.
  - constructor.
Qed.

(** X7: [getallmatchingheaders] walks over the names of the message,
    not over its header lines, and compares them with [name:]; a parsed
    name holds no colon, so for every message that the parser returns and
    every name the result is the empty list. *)
Theorem getallmatchingheaders_finds_nothing (text name : string) :
  getallmatchingheaders (parsestr text) name = [].
Proof.
  unfold getallmatchingheaders, keys. apply matching_lines_names.
  apply Forall_map.
  apply (Forall_impl _ (fun kv => name_chars_no_colon (fst kv))).
  exact (parsestr_names text).
Qed.

End MatchingHeaders.

Section ReadHeaders.

Import HttpClient.

Lemma readline_partition fp : forall limit,
  fst (readline limit fp) ++ snd (readline limit fp) = fp.
Proof.
  induction fp as [|c fp IH]; intros limit; [reflexivity|].
  cbn [readline]. destruct (limit <=? 0); [reflexivity|].
  destruct (Ascii.eqb c Py.LF); [reflexivity|].
  specialize (IH (limit - 1)).
  destruct (readline (limit - 1) fp) as [l r]. simpl in *. rewrite IH.
  reflexivity.
Qed.

Lemma read_loop_envelope fuel : forall headers fp,
  Forall (fun l => Py.len l <= _MAXLINE) headers ->
  Forall (fun l => is_terminator l = false) headers ->
  match _read_headers_loop fuel headers fp with
  | (Ok hs, rest) => block_of (Py.join headers ++ fp) hs rest
  | (Raise e, _) =>
      e = LineTooLong "header line"
      \/ e = HTTPException "got more than 100 headers"
  | (OutOfFuel, _) => True
  end.
Proof.
  induction fuel as [|fuel IH]; intros headers fp Hlen Hterm; [exact I|].
  cbn [_read_headers_loop].
  pose proof (readline_partition fp (_MAXLINE + 1)) as Hp.
  destruct (readline (_MAXLINE + 1) fp) as [line fp1]. cbn [fst snd] in Hp.
  destruct (Py.len line >? _MAXLINE) eqn:El; [left; reflexivity|].
  rewrite Z.gtb_ltb in El. apply Z.ltb_ge in El.
  destruct (Z.of_nat (List.length (append headers line)) >? _MAXHEADERS)
    eqn:Ec; [right; reflexivity|].
  rewrite Z.gtb_ltb in Ec. apply Z.ltb_ge in Ec.
  assert (Hlen' : Forall (fun l => Py.len l <= _MAXLINE) (append headers line)).
  { unfold append. apply Forall_app. split; [exact Hlen|].
    constructor; [exact El|constructor]. }
  assert (Hj : Py.join (append headers line) ++ fp1 = Py.join headers ++ fp).
  { rewrite join_append, str_app_assoc, Hp. reflexivity. }
  destruct (is_terminator line) eqn:Et.
  - unfold block_of. split; [exact Hj|]. split; [exact Ec|].
    split; [exact Hlen'|]. exists headers, line. repeat split; assumption.
  - rewrite <- Hj. apply IH; [exact Hlen'|].
    unfold append. apply Forall_app. split; [exact Hterm|].
    constructor; [exact Et|constructor].
Qed.

(** X8: on every stream [_read_headers] ends in one of three ways.  It
    returns lines that, put together and followed by what is left in the
    stream, are the stream as it was, at most 100 of them and none longer
    than 65536 bytes, the last one being the only blank line or end of
    stream among them; or it raises [LineTooLong]; or it raises
    [HTTPException] for more than 100 lines. *)
Theorem read_headers_envelope (fp : string) :
  match _read_headers fp with
  | (Ok hs, rest) => block_of fp hs rest
  | (Raise e, _) =>
      e = LineTooLong "header line"
      \/ e = HTTPException "got more than 100 headers"
  | (OutOfFuel, _) => False
  end.
Proof.
  pose proof (read_headers_terminates fp) as T.
  pose proof (read_loop_envelope (S (Z.to_nat _MAXHEADERS)) [] fp
                (Forall_nil _) (Forall_nil _)) as E.
  unfold _read_headers in *.
  destruct (_read_headers_loop (S (Z.to_nat _MAXHEADERS)) [] fp)
    as [[hs|e|] rest]; [exact E|exact E|].
  apply T. reflexivity.
Qed.






End ReadHeaders.

Section LogLine.

Import HttpServer.

Lemma translate_step c s :
  Py.translate _control_char_table (String c s)
  = match _control_char_table c with
    | Some r => r ++ Py.translate _control_char_table s
    | None => String c (Py.translate _control_char_table s)
    end.
Proof. reflexivity. Qed.

Lemma table_no_control c :
  match _control_char_table c with
  | Some r => all_chars (fun x => negb (is_control x)) r = true
  | None => is_control c = false
  end.
Proof.
  destruct c as [[] [] [] [] [] [] [] []]; vm_compute; reflexivity.
Qed.

Lemma unescape_table c rest :
  unescape match _control_char_table c with
           | Some r => r ++ rest
           | None => String c rest
           end
  = String c (unescape rest).
Proof.
  destruct c as [[] [] [] [] [] [] [] []]; reflexivity.
Qed.

(** X10: no control character reaches the log.  In the text that
    [log_message] writes for a message, every character of the message
    that lies in U+0000..U+001F or U+007F..U+009F has been replaced; in
    particular the message contributes no CR and no LF, so one call
    writes one line. *)
Theorem log_message_escapes_control (message : string) :
  all_chars (fun c => negb (is_control c))
    (Py.translate _control_char_table message) = true
  /\ count_char Py.LF (Py.translate _control_char_table message) = 0%nat
  /\ count_char Py.CR (Py.translate _control_char_table message) = 0%nat.
Proof.
  assert (A : all_chars (fun c => negb (is_control c))
                (Py.translate _control_char_table message) = true).
  { induction message as [|c s IH]; [reflexivity|].
    rewrite translate_step. pose proof (table_no_control c) as T.
    destruct (_control_char_table c) as [r|].
    - rewrite all_chars_app, T, IH. reflexivity.
    - simpl. rewrite T, IH. reflexivity. }
  split; [exact A|].
  assert (C : forall x s, is_control x = true ->
              all_chars (fun c => negb (is_control c)) s = true ->
              count_char x s = 0%nat).
  { intros x s Hx. induction s as [|c s IH]; intros H; [reflexivity|].
    simpl in *. apply andb_true_iff in H. destruct H as [Hc Hs].
    rewrite (IH Hs). destruct (Ascii.eqb c x) eqn:E; [|reflexivity].
    apply Ascii.eqb_eq in E. subst c. rewrite Hx in Hc. discriminate Hc. }
  split; apply C; try exact A; reflexivity.
Qed.

Lemma unescape_translate message :
  unescape (Py.translate _control_char_table message) = message.
Proof.
  induction message as [|c s IH]; [reflexivity|].
  rewrite translate_step.
  pose proof (unescape_table c (Py.translate _control_char_table s)) as U.
  destruct (_control_char_table c) as [r|]; rewrite U, IH; reflexivity.
Qed.

(** X11: the escaping loses nothing.  A message can be read back from
    its escaped form, so two different messages never give the same log
    text. *)
Theorem log_message_escape_reversible :
  (forall message,
      unescape (Py.translate _control_char_table message) = message)
  /\ (forall m1 m2 address date,
         log_line address date m1 = log_line address date m2 -> m1 = m2).
Proof.
  split; [exact unescape_translate|].
  intros m1 m2 address date H. unfold log_line in H.
  assert (P : forall a b c : string, a ++ b = a ++ c -> b = c).
  { induction a as [|x a IH]; intros b c E; [exact E|].
    simpl in E. injection E as E. apply IH. exact E. }
  apply P in H. apply P in H. apply P in H. apply P in H.
  assert (Q : forall a b : string,
             a ++ String Py.LF "" = b ++ String Py.LF "" -> a = b).
  { induction a as [|x a IH]; intros [|y b] E.
    - reflexivity.
    - simpl in E. injection E as _ E. destruct b; discriminate E.
    - simpl in E. injection E as _ E. destruct a; discriminate E.
    - simpl in E. injection E as -> E. f_equal. apply IH. exact E. }
  apply Q in H.
  rewrite <- (unescape_translate m1), <- (unescape_translate m2), H.
  reflexivity.
Qed.

End LogLine.

Section NoReply.

Import HttpServer Serving.



(** X24: a request whose target [urlsplit] refuses never reaches the
    application.  [make_environ] raises [ValueError] outside the [try]
    of [run_wsgi], so the exception leaves [run_wsgi] whatever the
    application and whatever [passthrough_errors]: the handler is as the
    interim line left it, with no response written, nothing buffered and
    nothing logged; and it leaves [handle_one_request] too, whose only
    [except] clause is for [TimeoutError]. *)
Theorem refused_target_skips_application (app : WSGIApplication)
    (passthrough : bool) (h : Handler) (msg : HttpClient.HTTPMessage)
    (target : string) :
  headers h = Some msg ->
  path h = Some target ->
  UrllibParse.urlsplit target = Raise ValueError ->
  run_wsgi app passthrough h
  = (Raise ValueError,
     set_wfile (wfile h ++ interim_writes msg)%list h).
Proof.
  intros Hm Hp Hu.
  destruct h as [pv vs dts rf wf lg raw rl rv cmd pth hd cc buf].
  cbn [headers path] in Hm, Hp. subst hd pth.
  unfold run_wsgi, run_wsgi_frame, interim_continue, make_environ,
    interim_writes, wfile_write, bind, this, modify, append.
  cbn [headers].
  destruct (String.eqb _ "100-continue");
    cbn -[UrllibParse.urlsplit]; rewrite Hu; cbn;
    rewrite ?app_nil_r; reflexivity.
Qed.

Lemma refused_target_skips_application_witness :
  run_wsgi hello_app false bracket_get = (Raise ValueError, bracket_get)
  /\ handle_one_request (dispatch hello_app false) bracket_request
     = (Raise ValueError, bracket_get).
Proof.
  split; [|vm_compute; reflexivity].
  refine (eq_trans
            (refused_target_skips_application hello_app false bracket_get
               [("Host", "x")] "//[" _ _ _) _);
    vm_compute; reflexivity.
Defined.

End NoReply.

Section ResponseHead.

Import HttpServer Serving.
















End ResponseHead.

Section RequestLimits.

Import HttpClient HttpServer.

Lemma len_app a b : Py.len (a ++ b) = Py.len a + Py.len b.
Proof.
  induction a as [|c a IH]; [reflexivity|].
  cbn [String.append]. rewrite !len_cons, IH. lia.
Qed.

Lemma readline_exact pre : forall limit c rest,
  no_lf pre = true -> limit = Py.len pre + 1 ->
  readline limit (pre ++ String c rest) = (pre ++ String c "", rest).
Proof.
  unfold no_lf. induction pre as [|x pre IH]; intros limit c rest Hp Hl.
  - cbn in Hl. subst limit. cbn [String.append readline].
    change (1 <=? 0) with false. cbv iota.
    destruct (Ascii.eqb c Py.LF); [reflexivity|].
    change (1 - 1) with 0. destruct rest; reflexivity.
  - cbn [all_chars] in Hp. apply andb_true_iff in Hp. destruct Hp as [Hx Hp].
    apply negb_true_iff in Hx. cbn [String.append readline].
    rewrite len_cons in Hl. pose proof (len_nonneg pre).
    replace (limit <=? 0) with false by (symmetry; apply Z.leb_gt; lia).
    rewrite Hx. rewrite (IH (limit - 1) c rest Hp) by lia. reflexivity.
Qed.

(** X14: a request line that has not ended after 65536 bytes is
    refused with 414.  The handler takes 65537 bytes from the stream,
    logs the error, leaves the request line and version empty, parses and
    dispatches nothing, writes nothing, and leaves [close_connection] as
    it was; what follows in the stream stays there. *)
Theorem request_line_too_long
    (dispatch : string -> option (M Handler unit)) (h : Handler)
    (pre : string) (c : ascii) (rest : string) :
  rfile h = pre ++ String c rest ->
  no_lf pre = true ->
  Py.len pre = 65536 ->
  handle_one_request dispatch h
  = (Ok tt,
     set_log (append (log h)
                (LogError HTTPStatus.REQUEST_URI_TOO_LONG
                   (Plain "Request-URI Too Long")))
       (set_request_version ""
          (set_requestline ""
             (set_raw_requestline (pre ++ String c "") (set_rfile rest h))))).
Proof.
  intros Hr Hp Hl. unfold handle_one_request, try_except.
  unfold serve_request, read_requestline.
  unfold bind at 1. rewrite Hr.
  rewrite (readline_exact pre 65537 c rest Hp) by lia.
  replace (Py.len (pre ++ String c "") >? 65536) with true.
  - reflexivity.
  - symmetry. rewrite Z.gtb_ltb. apply Z.ltb_lt.
    rewrite len_app, Hl. reflexivity.
Qed.

Lemma request_line_too_long_witness :
  handle_one_request (Serving.dispatch hello_app false) long_request
  = (Ok tt,
     set_log (append (log long_request)
                (LogError HTTPStatus.REQUEST_URI_TOO_LONG
                   (Plain "Request-URI Too Long")))
       (set_request_version ""
          (set_requestline ""
             (set_raw_requestline (N.iter 65536 (String "a") "" ++ String "b" "")
                (set_rfile "rest" long_request))))).
Proof.
  apply (request_line_too_long (Serving.dispatch hello_app false) long_request
           (N.iter 65536 (String "a") "") "b" "rest").
  - reflexivity.
  - vm_compute. reflexivity.
  - vm_compute. reflexivity.
Defined.

Lemma negotiate_version_last words h :
  negotiate_version words h
  = negotiate_version [""; ""; List.last words ""] h.
Proof. reflexivity. Qed.

Lemma negotiate_version_accepts words base v h :
  parse_version (List.last words "") = Some (base, v) ->
  Py.tuple_ge v (2, 0) = false ->
  negotiate_version words h = (Ok true, negotiated (List.last words "") v h).
Proof.
  intros Hv H2. rewrite negotiate_version_last.
  rewrite (negotiate_version_parsed _ _ _ _ _ _ Hv). cbv zeta. rewrite H2.
  reflexivity.
Qed.

(** X15: the request line must have two or three words.  A line of
    blanks only is dropped without a word in the log; a line of one word,
    and a line of four words or more whose last word is an acceptable
    version, are refused with 400 [Bad request syntax].  In each case
    [parse_request] returns [False] before it reads any header, and in the
    first two [close_connection] is on. *)
Theorem parse_request_word_count (h : Handler) (words : list string) :
  Py.split (Py.rstrip_chars Py.CRLF (raw_requestline h)) = words ->
  (words = [] -> parse_request h = (Ok false, entered h))
  /\ (List.length words = 1%nat ->
      parse_request h
      = (Ok false,
         set_log (append (log h)
                    (LogError HTTPStatus.BAD_REQUEST
                       (Repr "Bad request syntax (%r)"
                          (Py.rstrip_chars Py.CRLF (raw_requestline h)))))
           (entered h)))
  /\ ((3 < List.length words)%nat ->
      forall base v,
        parse_version (List.last words "") = Some (base, v) ->
        Py.tuple_ge v (2, 0) = false ->
        parse_request h
        = (Ok false,
           set_log (append (log h)
                      (LogError HTTPStatus.BAD_REQUEST
                         (Repr "Bad request syntax (%r)"
                            (Py.rstrip_chars Py.CRLF (raw_requestline h)))))
             (negotiated (List.last words "") v (entered h)))).
Proof.
  intros Hw. rewrite parse_request_entered, Hw.
  split; [|split].
  - intros ->. reflexivity.
  - intros Hl. destruct words as [|w [|? ?]]; try discriminate Hl.
    reflexivity.
  - intros Hl base v Hv H2.
    destruct words as [|a [|b [|c [|d rest]]]]; cbn in Hl; try lia.
    unfold parse_words.
    cbn [List.length Nat.eqb Nat.leb]. cbv iota.
    unfold bind at 1.
    rewrite (negotiate_version_accepts _ _ _ _ Hv H2).
    cbn [negb andb]. cbv iota.
    unfold bind, ret. rewrite send_error_log. cbv iota.
    assert (L : log (negotiated (last (a :: b :: c :: d :: rest) "") v
                       (entered h)) = log h).
    { unfold negotiated, entered.
      destruct (Py.tuple_ge v (1, 1) && Py.str_ge _ "HTTP/1.1"); reflexivity. }
    rewrite L. reflexivity.
Qed.

Lemma parse_request_word_count_witness :
  parse_request (set_raw_requestline ("PING" ++ Py.CRLF) (fresh "HTTP/1.0" ""))
  = (Ok false,
     set_log [LogError HTTPStatus.BAD_REQUEST
                (Repr "Bad request syntax (%r)" "PING")]
       (entered (set_raw_requestline ("PING" ++ Py.CRLF)
                   (fresh "HTTP/1.0" "")))).
Proof.
  exact (proj1 (proj2 (parse_request_word_count
                         (set_raw_requestline ("PING" ++ Py.CRLF)
                            (fresh "HTTP/1.0" ""))
                         ["PING"] eq_refl)) eq_refl).
Defined.

Lemma examine_headers_refused h e fp :
  parse_headers (rfile h) = (Raise e, fp) ->
  match e with
  | LineTooLong _ =>
      examine_headers h
      = (Ok false,
         set_log (append (log h)
                    (LogError HTTPStatus.REQUEST_HEADER_FILEDS_TOO_LARGE
                       (Plain "Line too long")))
           (set_rfile fp h))
  | HTTPException _ =>
      examine_headers h
      = (Ok false,
         set_log (append (log h)
                    (LogError HTTPStatus.REQUEST_HEADER_FILEDS_TOO_LARGE
                       (Plain "Too many headers")))
           (set_rfile fp h))
  | _ => examine_headers h = (Raise e, set_rfile fp h)
  end.
Proof.
  intros E.
  destruct e;
    unfold examine_headers, load_headers, try_except, read_header_block;
    unfold bind at 1; unfold bind at 1; rewrite E; cbv beta iota;
    try reflexivity;
    unfold bind; cbv beta; rewrite send_error_log; reflexivity.
Qed.

Lemma parse_headers_raise_state stream e :
  fst (parse_headers stream) = Raise e ->
  parse_headers stream = (Raise e, snd (parse_headers stream)).
Proof.
  intros E. destruct (parse_headers stream) as [r fp]. cbn in *. subst r.
  reflexivity.
Qed.

Lemma parse_headers_too_long bodies last rest :
  Forall (fun b => no_lf b = true /\ ~ ends_block b /\ fits b) bodies ->
  no_lf last = true -> ~ fits last ->
  Z.of_nat (List.length bodies) <= _MAXHEADERS ->
  fst (parse_headers (Py.join (map line bodies) ++ line last ++ rest))
  = Raise (LineTooLong "header line").
Proof.
  intros HB Hn Hf Hc. apply parse_headers_raises.
  rewrite (read_headers_prefix bodies _ HB Hc).
  destruct (S (Z.to_nat _MAXHEADERS) - List.length bodies)%nat as [|fuel] eqn:E;
    [unfold _MAXHEADERS in *; lia|].
  apply read_loop_too_long; assumption.
Qed.

Lemma parse_headers_too_many bodies last rest :
  Forall (fun b => no_lf b = true /\ ~ ends_block b /\ fits b) bodies ->
  no_lf last = true -> fits last ->
  Z.of_nat (List.length bodies) = _MAXHEADERS ->
  fst (parse_headers (Py.join (map line bodies) ++ line last ++ rest))
  = Raise (HTTPException "got more than 100 headers").
Proof.
  intros HB Hn Hf Hc. apply parse_headers_raises.
  rewrite (read_headers_prefix bodies _ HB) by lia.
  destruct (S (Z.to_nat _MAXHEADERS) - List.length bodies)%nat as [|fuel] eqn:E;
    [unfold _MAXHEADERS in *; lia|].
  apply read_loop_too_many; [assumption|assumption|].
  rewrite length_map. exact Hc.
Qed.

(** X16: a header block beyond the limits makes [parse_request] fail
    with 431.  After a request line of three words with an acceptable
    version, a header line of more than 65536 bytes is logged as 431
    [Line too long], a 101st header line as 431 [Too many headers];
    [parse_request] returns [False], the method and the path stay as the
    request line gave them, no header collection is stored and nothing is
    written to the client. *)
Theorem parse_request_header_limits (h : Handler)
    (cmd path tok base : string) (v : Z * Z)
    (bodies : list string) (last rest : string) :
  Py.split (Py.rstrip_chars Py.CRLF (raw_requestline h)) = [cmd; path; tok] ->
  parse_version tok = Some (base, v) ->
  Py.tuple_ge v (2, 0) = false ->
  rfile h = Py.join (map line bodies) ++ line last ++ rest ->
  Forall (fun b => no_lf b = true /\ ~ ends_block b /\ fits b) bodies ->
  no_lf last = true ->
  (~ fits last ->
   Z.of_nat (List.length bodies) <= _MAXHEADERS ->
   fst (parse_request h) = Ok false
   /\ log (snd (parse_request h))
      = append (log h)
          (LogError HTTPStatus.REQUEST_HEADER_FILEDS_TOO_LARGE
             (Plain "Line too long"))
   /\ headers (snd (parse_request h)) = headers h
   /\ wfile (snd (parse_request h)) = wfile h
   /\ command (snd (parse_request h)) = Some cmd
   /\ HttpServer.path (snd (parse_request h)) = Some path)
  /\ (fits last ->
      Z.of_nat (List.length bodies) = _MAXHEADERS ->
      fst (parse_request h) = Ok false
      /\ log (snd (parse_request h))
         = append (log h)
             (LogError HTTPStatus.REQUEST_HEADER_FILEDS_TOO_LARGE
                (Plain "Too many headers"))
      /\ headers (snd (parse_request h)) = headers h
      /\ wfile (snd (parse_request h)) = wfile h
      /\ command (snd (parse_request h)) = Some cmd
      /\ HttpServer.path (snd (parse_request h)) = Some path).
Proof.
  intros Hw Hv H2 Hr HB Hn.
  rewrite (parse_request_three_words _ _ _ _ Hw).
  rewrite (negotiate_version_accepts [cmd; path; tok] base v _ Hv H2).
  set (h2 := set_path (Some path)
               (set_command (Some cmd)
                  (negotiated (List.last [cmd; path; tok] "") v (entered h)))).
  assert (R : rfile h2 = rfile h).
  { unfold h2, negotiated, entered.
    destruct (Py.tuple_ge v (1, 1) && Py.str_ge _ "HTTP/1.1"); reflexivity. }
  assert (L : log h2 = log h /\ headers h2 = headers h /\ wfile h2 = wfile h
              /\ command h2 = Some cmd /\ HttpServer.path h2 = Some path).
  { unfold h2, negotiated, entered.
    destruct (Py.tuple_ge v (1, 1) && Py.str_ge _ "HTTP/1.1");
      repeat split; reflexivity. }
  destruct L as (L1 & L2 & L3 & L4 & L5).
  split; intros Hf Hc.
  - pose proof (parse_headers_too_long bodies last rest HB Hn Hf Hc) as E.
    rewrite <- Hr, <- R in E. apply parse_headers_raise_state in E.
    apply examine_headers_refused in E. cbv iota in E. rewrite E.
    cbn [fst snd]. rewrite <- L1, <- L2, <- L3.
    repeat split; try reflexivity; assumption.
  - pose proof (parse_headers_too_many bodies last rest HB Hn Hf Hc) as E.
    rewrite <- Hr, <- R in E. apply parse_headers_raise_state in E.
    apply examine_headers_refused in E. cbv iota in E. rewrite E.
    cbn [fst snd]. rewrite <- L1, <- L2, <- L3.
    repeat split; try reflexivity; assumption.
Qed.

Lemma parse_request_header_limits_witness :
  fst (parse_request long_header_request) = Ok false
  /\ log (snd (parse_request long_header_request))
     = append (log long_header_request)
         (LogError HTTPStatus.REQUEST_HEADER_FILEDS_TOO_LARGE
            (Plain "Line too long"))
  /\ headers (snd (parse_request long_header_request))
     = headers long_header_request
  /\ wfile (snd (parse_request long_header_request))
     = wfile long_header_request
  /\ command (snd (parse_request long_header_request)) = Some "GET"
  /\ HttpServer.path (snd (parse_request long_header_request)) = Some "/".
Proof.
  refine (proj1 (parse_request_header_limits long_header_request
                   "GET" "/" "HTTP/1.1" "1.1" (1, 1) []
                   (N.iter 65536 (String "a") "") "rest" _ _ _ _ _ _) _ _).
  - vm_compute. reflexivity.
  - vm_compute. reflexivity.
  - reflexivity.
  - reflexivity.
  - constructor.
  - vm_compute. reflexivity.
  - unfold fits. vm_compute. intros H. apply H. reflexivity.
  - vm_compute. discriminate.
Defined.

(** X17: a connection cannot hold the handler for ever.  A request
    cycle that finds the stream at its end closes the connection; every
    other cycle takes at least one byte from the stream, whatever the
    application does; so [handle] returns or raises after finitely many
    cycles. *)
Theorem request_cycle_progress (app : Serving.WSGIApplication)
    (passthrough : bool) (h : Handler) :
  (rfile h = "" ->
   close_connection
     (snd (handle_one_request (Serving.dispatch app passthrough) h)) = true)
  /\ (rfile h <> "" ->
      (String.length
         (rfile (snd (handle_one_request (Serving.dispatch app passthrough) h)))
       < String.length (rfile h))%nat)
  /\ fst (Serving.handle app passthrough h) <> OutOfFuel.
Proof.
  assert (W : forall name method,
             Serving.dispatch app passthrough name = Some method ->
             well_behaved method).
  { intros name method [= <-]. apply run_wsgi_well_behaved. }
  destruct (handle_one_request_progress _ W h) as [A B].
  split; [exact A|]. split; [exact B|].
  apply serving_handle_finishes.
Qed.

End RequestLimits.

Section Environ.

Import Serving.

Lemma environ_get_set environ key value k :
  environ_get (environ_set environ key value) k
  = if String.eqb key k then Some value else environ_get environ k.
Proof.
  induction environ as [|[k0 v0] rest IH]; cbn [environ_set environ_get].
  - destruct (String.eqb key k); reflexivity.
  - destruct (String.eqb k0 key) eqn:E; cbn [environ_get].
    + apply String.eqb_eq in E. subst k0.
      destruct (String.eqb key k); reflexivity.
    + destruct (String.eqb k0 k) eqn:F; [|exact IH].
      apply String.eqb_eq in F. subst k0. rewrite String.eqb_sym, E.
      reflexivity.
Qed.

Lemma prefixed_not_content k : content_key ("HTTP_" ++ k) = false.
Proof. reflexivity. Qed.

Lemma last_cons {A} (ws : list A) : forall w v,
  List.last (w :: ws) v = List.last ws w.
Proof.
  induction ws as [|x ws IH]; intros w v; [reflexivity|].
  change (List.last (w :: x :: ws) v) with (List.last (x :: ws) v).
  rewrite !IH. reflexivity.
Qed.

Lemma filed_value_cons key before v vs :
  filed_value key
    (Some (Str (if content_key key then v
                else match before with
                     | Some old => format_value old ++ "," ++ v
                     | None => v
                     end))) vs
  = filed_value key before (v :: vs).
Proof.
  unfold filed_value. destruct vs as [|w ws].
  - destruct (content_key key); [reflexivity|].
    destruct before; reflexivity.
  - destruct (content_key key); [rewrite last_cons; reflexivity|].
    cbn [format_value]. destruct before as [old|]; cbn [List.app Py.join_sep].
    + rewrite !str_app_assoc. reflexivity.
    + reflexivity.
Qed.

Lemma environ_headers_lookup items : forall environ key,
  environ_get (environ_headers items environ) key
  = filed_value key (environ_get environ key) (filed items key).
Proof.
  induction items as [|[name value] rest IH]; intros environ key.
  - reflexivity.
  - cbn [environ_headers]. unfold filed. cbn [filter]. unfold passed at 1.
    cbn [fst snd]. destruct (Py.in_chars name "_") eqn:U; cbn [negb andb].
    + apply IH.
    + unfold cgi_key at 1. fold (content_key (Py.replace "-" "_" (Py.upper name))).
      destruct (content_key (Py.replace "-" "_" (Py.upper name))) eqn:C;
        cbn [negb]; rewrite IH, environ_get_set.
      * destruct (String.eqb (Py.replace "-" "_" (Py.upper name)) key) eqn:E.
        -- cbn [map]. apply String.eqb_eq in E. subst key.
           rewrite <- filed_value_cons. rewrite C. reflexivity.
        -- reflexivity.
      * destruct (String.eqb ("HTTP_" ++ Py.replace "-" "_" (Py.upper name))
                    key) eqn:E.
        -- cbn [map]. apply String.eqb_eq in E. subst key.
           rewrite <- filed_value_cons. rewrite prefixed_not_content.
           reflexivity.
        -- reflexivity.
Qed.


Lemma filed_passed items key :
  filed (filter passed items) key = filed items key.
Proof.
  unfold filed. f_equal. induction items as [|kv rest IH]; [reflexivity|].
  cbn [filter]. destruct (passed kv) eqn:P; cbn [filter andb].
  - rewrite P. cbn [andb]. rewrite IH. reflexivity.
  - exact IH.
Qed.

(** X18: how [make_environ] files the request headers that the parser
    returned.  After the loop a key holds: for [CONTENT_TYPE] and
    [CONTENT_LENGTH] the value of the last header filed under it; for any
    other key every value filed under it, in the order of the request and
    separated by commas, after what the key held before; and what it held
    before when no header is filed under it.  A header is filed under its
    name in capitals with [-] turned into [_], prefixed by [HTTP_] unless
    that gives one of the two content keys; a header whose name holds an
    underscore is not filed at all, so that dropping such headers from
    the request changes nothing. *)
Theorem environ_headers_files (text : string) (environ : WSGIEnvironment)
    (key : string) :
  environ_get (environ_headers (HttpClient.parsestr text) environ) key
  = filed_value key (environ_get environ key)
      (filed (HttpClient.parsestr text) key)
  /\ environ_get
       (environ_headers (filter passed (HttpClient.parsestr text)) environ) key
     = environ_get (environ_headers (HttpClient.parsestr text) environ) key
  /\ Forall (fun kv => all_chars HttpClient.header_name_char (fst kv) = true)
       (HttpClient.parsestr text).
Proof.
  split; [apply environ_headers_lookup|]. split.
  - rewrite !environ_headers_lookup, filed_passed. reflexivity.
  - apply parsestr_names.
Qed.




End Environ.

Section BaseRun.

Import Serving WsgiHandlers.



















Lemma handle_error_state e st h sent n res env bs out err oe be mt mp clk :
  handle_error e
    (mkSimpleHandler (mkBaseHandler st h sent n) res env bs out err oe be mt
       mp clk)
  = if sent
    then (Ok tt,
          mkSimpleHandler (mkBaseHandler st h sent n) res env bs out
            (append err e) oe be mt mp clk)
    else (Raise (AssertionError
                   "write() argument must be string <class 'str'>"),
          mkSimpleHandler (mkBaseHandler None None false n) None None (Some 0)
            out (append err e) oe be mt mp clk).
Proof. destruct sent; reflexivity. Qed.

(** X21: the error page of [BaseHandler] cannot be sent.  [error_body]
    is a [str], and [write] accepts [bytes] only: when [handle_error]
    finds the headers not yet sent it logs the exception, opens the error
    response and fails in [write] with [AssertionError] before anything
    reaches [stdout]; when the headers are sent it logs and returns.  So
    for an application that raises on being called, [run] itself raises,
    and the client receives nothing. *)
Theorem error_page_is_never_sent :
  (forall e s,
      fst (handle_error e s)
      = (if headers_sent (base s) then Ok tt
         else Raise (AssertionError
                       "write() argument must be string <class 'str'>"))
      /\ stdout (snd (handle_error e s)) = stdout s
      /\ stderr (snd (handle_error e s)) = append (stderr s) e)
  /\ (forall e rest returned s,
         base s = initial ->
         fst (run (mkApplication (CallRaise e :: rest) returned) s)
         = Raise (AssertionError
                    "write() argument must be string <class 'str'>")
         /\ stdout (snd (run (mkApplication (CallRaise e :: rest) returned) s))
            = stdout s
         /\ stderr (snd (run (mkApplication (CallRaise e :: rest) returned) s))
            = append (stderr s) e).
Proof.
  split.
  - intros e [[st h sent n] res env bs out err oe be mt mp clk].
    rewrite handle_error_state. cbn [base headers_sent stdout stderr].
    destruct sent; repeat split; reflexivity.
  - intros e rest returned [b res env bs out err oe be mt mp clk] Hb.
    cbn [base] in Hb. subst b. repeat split; reflexivity.
Qed.

End BaseRun.

Section ServerClasses.

Import HttpServer Serving.





End ServerClasses.

Section OneHead.

Import HttpServer Serving.

Variable w0 : list wire_write.

Lemma head_inv_on_self {A} (m : M Handler A) :
  keeps wfile m -> inv (head_inv w0) (on_self m).
Proof.
  intros K f (C & new & W & N & L). unfold on_self.
  pose proof (K (self f)) as Kf.
  destruct (m (self f)) as [r h]. cbn [snd] in *.
  split; [exact C|]. exists new.
  cbn [self set_self status_sent]. rewrite Kf. repeat split; assumption.
Qed.

Lemma head_inv_modify (g : Frame -> Frame) :
  (forall f, self (g f) = self f) ->
  (forall f, status_sent (g f) = status_sent f) ->
  (forall f, chunk_response (g f) = chunk_response f) ->
  inv (head_inv w0) (modify g).
Proof.
  intros Hs Ht Hc f (C & new & W & N & L). unfold modify. cbn [snd].
  split; [rewrite Hc; exact C|]. exists new. rewrite Hs, Ht.
  repeat split; assumption.
Qed.

(** The data part of [write] once the head is behind. *)
Lemma head_inv_data data f :
  head_inv w0 f -> status_sent f <> None ->
  head_inv w0
    (snd ((f' <- this ;;
           when (nonempty data)
             (when (chunk_response f')
                (on_self (wfile_write (Py.hex_digits (Py.len data))) ;;
                 on_self (wfile_write Py.CRLF)) ;;
              on_self (wfile_write data) ;;
              when (chunk_response f') (on_self (wfile_write Py.CRLF)))) f)).
Proof.
  intros (C & new & W & N & L) S. unfold bind at 1, this at 1.
  rewrite C. cbn [when]. destruct (nonempty data); cbn [when].
  - unfold bind, ret, on_self, wfile_write, modify. cbn [snd].
    split; [exact C|]. exists (new ++ [Written data])%list.
    cbn [self set_self status_sent wfile set_wfile]. unfold append.
    rewrite W, header_blocks_app. cbn [header_blocks flat_map].
    rewrite !app_nil_r. repeat split.
    + symmetry. apply app_assoc.
    + intros H. contradiction.
    + exact L.
  - unfold ret. cbn [snd]. split; [exact C|]. exists new.
    repeat split; assumption.
Qed.

Lemma head_inv_send_head status hdrs f :
  head_inv w0 f -> status_sent f = None ->
  head_inv w0 (snd (send_head status hdrs f))
  /\ status_sent (snd (send_head status hdrs f)) <> None.
Proof.
  intros (C & new & W & N & L) Hn.
  pose proof (send_head_keeps_chunk_response status hdrs f) as K.
  destruct (send_head_outcome status hdrs f) as (f' & E & S' & O).
  rewrite E in *. split; [|rewrite S'; discriminate].
  split; [rewrite K; exact C|].
  rewrite (N Hn) in *. rewrite app_nil_r in W.
  destruct O as [O|(block & _ & O & _)].
  - exists []. rewrite app_nil_r. repeat split.
    + congruence.
    + cbn. lia.
  - exists [HeaderBlock block]. repeat split.
    + rewrite O, W. reflexivity.
    + rewrite S'. discriminate.
    + cbn. lia.
Qed.

Lemma head_inv_write data : inv (head_inv w0) (write data).
Proof.
  intros f Hf. unfold write. unfold bind at 1, this at 1.
  destruct (status_set f); [|exact Hf].
  destruct (headers_set f); [|exact Hf].
  destruct (status_sent f) eqn:E.
  - unfold bind at 1. unfold ret at 1.
    apply head_inv_data; [exact Hf|congruence].
  - destruct (head_inv_send_head s l f Hf E) as [H1 H2].
    unfold bind at 1.
    destruct (send_head s l f) as [[u|e|] f1]; cbn [snd] in *;
      [|exact H1|exact H1].
    apply head_inv_data; assumption.
Qed.

Lemma head_inv_start_response status hdrs exc_info :
  inv (head_inv w0) (start_response status hdrs exc_info).
Proof.
  unfold start_response. apply inv_this_bind. intros f Hf.
  apply inv_bind_at.
  - destruct exc_info; [destruct (truthy (headers_sent f))
                       |destruct (truthy (headers_set f))]; exact Hf.
  - intros _.
    apply inv_bind; [|intros _];
      apply head_inv_modify; intros ?; reflexivity.
Qed.

Lemma head_inv_run_op op : inv (head_inv w0) (run_op op).
Proof.
  induction op; cbn [run_op].
  - apply head_inv_start_response.
  - apply head_inv_write.
  - apply inv_raise.
  - apply inv_try_except; [assumption|]. intros ?. apply inv_ret.
Qed.

Lemma head_inv_run_body ops : inv (head_inv w0) (run_body ops).
Proof.
  induction ops as [|op ops IH]; cbn [run_body]; [apply inv_ret|].
  apply inv_bind; [apply head_inv_run_op|]. intros _. exact IH.
Qed.

Lemma head_inv_iterate steps : inv (head_inv w0) (iterate steps).
Proof.
  induction steps as [|[op|data] steps IH]; cbn [iterate]; [apply inv_ret| |].
  - apply inv_bind; [apply head_inv_run_op|]. intros _. exact IH.
  - apply inv_bind; [apply head_inv_write|]. intros _. exact IH.
Qed.

Lemma head_inv_execute app : inv (head_inv w0) (execute app).
Proof.
  destruct app as [|body iterable]; cbn [execute]; [apply inv_raise|].
  apply inv_bind; [apply head_inv_run_body|]. intros _.
  apply inv_try_finally.
  - apply inv_bind; [apply head_inv_iterate|]. intros _.
    apply inv_this_bind. intros f Hf.
    apply inv_bind_at.
    + apply inv_when; [apply head_inv_write|assumption].
    + intros _. apply inv_this_bind. intros f' Hf'.
      destruct Hf' as (C & R). rewrite C. cbn [when]. unfold ret.
      split; assumption.
  - apply head_inv_on_self. unfold drain.
    apply (drain_loop_keeps wfile). reflexivity.
Qed.

Lemma head_inv_guarded_execute app passthrough :
  inv (head_inv w0) (guarded_execute app passthrough).
Proof.
  unfold guarded_execute.
  apply inv_try_except; [apply head_inv_execute|]. intros e.
  assert (K : inv (head_inv w0)
                (if passthrough then raise e
                 else
                   f <- this ;;
                   when (match status_sent f with
                         | Some _ => true
                         | None => false
                         end && chunk_response f)
                     (on_self (modify (set_close_connection true))) ;;
                   try_except
                     (f <- this ;;
                      when (match status_sent f with
                            | None => true
                            | Some _ => false
                            end)
                        (modify (set_status_set None) ;;
                         modify (set_headers_set None)) ;;
                      execute InternalServerError)
                     (fun _ => ret tt) ;;
                   on_self (log_message (LogServer "error")))).
  { destruct passthrough; [apply inv_raise|].
    apply inv_bind; [intros s Hs; exact Hs|]. intros f.
    apply inv_bind.
    { apply inv_when. apply head_inv_on_self. intros h. reflexivity. }
    intros _. apply inv_bind.
    { apply inv_try_except; [|intros _; apply inv_ret].
      apply inv_bind; [intros s Hs; exact Hs|]. intros f'.
      apply inv_bind; [|intros _; apply head_inv_execute].
      apply inv_when.
      apply inv_bind; [|intros _];
        apply head_inv_modify; intros ?; reflexivity. }
    intros _. apply head_inv_on_self. intros h. reflexivity. }
  destruct e; first [exact K | apply inv_ret | apply inv_raise].
Qed.

End OneHead.

Section OneHeadPerRequest.

Import HttpServer Serving.

(** X23: whatever the application does, the bridge writes nothing for
    it before it has taken up the response head, and it writes one head
    at most.  After [run_wsgi], what was written beyond the interim line
    is empty when [status_sent] is still [None], and holds at most one
    header block. *)
Theorem bridge_writes_one_head_at_most (app : WSGIApplication)
    (passthrough : bool) (h : Handler) :
  exists new,
    wfile (self (snd (run_wsgi_frame app passthrough h)))
    = (wfile (snd (interim_continue h)) ++ new)%list
    /\ (status_sent (snd (run_wsgi_frame app passthrough h)) = None ->
        new = [])
    /\ (List.length (header_blocks new) <= 1)%nat.
Proof.
  assert (J : head_inv (wfile (snd (interim_continue h)))
                (snd (run_wsgi_frame app passthrough h))).
  { unfold run_wsgi_frame. rewrite <- entering_state.
    destruct ((interim_continue ;; make_environ) h) as [[u|e|] h1];
      cbn [snd].
    - apply head_inv_guarded_execute.
      split; [reflexivity|]. exists []. rewrite app_nil_r.
      repeat split. cbn. lia.
    - split; [reflexivity|]. exists []. rewrite app_nil_r.
      repeat split. cbn. lia.
    - split; [reflexivity|]. exists []. rewrite app_nil_r.
      repeat split. cbn. lia. }
  destruct J as (_ & new & W & N & L). exists new. repeat split; assumption.
Qed.

End OneHeadPerRequest.
